(** * Binning of y on x (xcms, src/binners.c): a shallow embedding

    The C file bins a sorted vector [x] into intervals given by [breaks]
    and aggregates the parallel vector [y] per bin (max, min, sum, mean).
    C [double]s are IEEE-754 binary64 numbers, modelled by Rocq's primitive
    floats; R's missing value [NA_REAL] is kept apart from ordinary NaNs.
    C [int]s are integers in [Z].  Arrays are lists; an access outside an
    array, a signed overflow and a cast of a non-representable double to
    [int] have no defined behaviour in C and end the run in [Undefined]. *)

From Stdlib Require Import ZArith Floats Bool Lia.
From stdpp Require Import base list.

Open Scope Z_scope.

(** ** Outcomes of a call *)

(** The calls of R's [error()] in the file, by message. *)
Inductive error_msg : Type :=
| IdxNegative      (* "'fromIdx' and 'toIdx' have to be >= 0!" *)
| IdxOrder         (* "'fromIdx' has to be smaller than 'toIdx'!" *)
| IdxTooLarge      (* "'toIdx' can not be larger than length(x)!" *)
| NotEnoughBreaks  (* "Not enough breaks defined!" *)
| NBinsTooSmall    (* "'nBins' must be larger 1!" *)
| BinSizeNotPos    (* "'binSize' has to be > 0!" *)
| NegativeLength.  (* raised by R's allocVector on a negative length *)

Inductive outcome (A : Type) : Type :=
| Ok (a : A)
| Error (e : error_msg)
| Undefined.
Arguments Ok {A} a.
Arguments Error {A} e.
Arguments Undefined {A}.

(** [outcome] is an error monad; stdpp's [x ← m; k] notation sequences
    the statements of a C block. *)
Global Instance outcome_ret : MRet outcome := fun A a => Ok a.
Global Instance outcome_bind : MBind outcome := fun A B k m =>
  match m with
  | Ok a => k a
  | Error e => Error e
  | Undefined => Undefined
  end.

(** The errors the index checks of [binYonX] raise. *)
Definition is_index_error (e : error_msg) : bool :=
  match e with
  | IdxNegative | IdxOrder | IdxTooLarge => true
  | _ => false
  end.

(** ** C ints *)

Definition INT_MAX : Z := 2147483647.
Definition INT_MIN : Z := -2147483648.
Definition NA_INTEGER : Z := INT_MIN.

Definition in_int_range (z : Z) : bool := (INT_MIN <=? z) && (z <=? INT_MAX).

(** [n + 1] on ints: signed overflow is undefined. *)
Definition int_succ (n : Z) : outcome Z :=
  if n <? INT_MAX then Ok (n + 1) else Undefined.

(** ** R doubles *)

Inductive double : Type :=
| NA_REAL
| Num (f : float).

Definition ISNA (d : double) : bool :=
  match d with
  | NA_REAL => true
  | Num _ => false
  end.

(** Arithmetic.  [NA_REAL] is a NaN carrying R's payload.  R leaves open
    whether arithmetic on it gives NA or another NaN; the usual hardware
    hands a NaN operand on with its payload, and the model takes the result
    to be missing.  The scan never computes with a missing value: it tests
    [ISNA] first. *)
Definition arith (op : float -> float -> float) (a b : double) : double :=
  match a, b with
  | Num p, Num q => Num (op p q)
  | _, _ => NA_REAL
  end.

Definition dbl_add : double -> double -> double := arith PrimFloat.add.
Definition dbl_sub : double -> double -> double := arith PrimFloat.sub.
Definition dbl_div : double -> double -> double := arith PrimFloat.div.

(** Comparisons are IEEE comparisons: any NaN operand (so also [NA_REAL])
    makes [<], [>], [>=] and [==] false. *)
Definition dbl_compare (a b : double) : float_comparison :=
  match a, b with
  | Num p, Num q => PrimFloat.compare p q
  | _, _ => FNotComparable
  end.

Definition dbl_lt (a b : double) : bool :=
  match dbl_compare a b with FLt => true | _ => false end.
Definition dbl_gt (a b : double) : bool :=
  match dbl_compare a b with FGt => true | _ => false end.
Definition dbl_ge (a b : double) : bool :=
  match dbl_compare a b with FGt | FEq => true | _ => false end.
Definition dbl_eq (a b : double) : bool :=
  match dbl_compare a b with FEq => true | _ => false end.

(** [(double)n] for an int [n]: exact, an int has at most 31 bits. *)
Definition double_of_int (n : Z) : double :=
  Num (if n <? 0
       then PrimFloat.opp (PrimFloat.of_uint63 (Uint63.of_Z (- n)))
       else PrimFloat.of_uint63 (Uint63.of_Z n)).

(** [(int)ceil(d)]: the least integer not below [d], when [d] is finite and
    that integer is an int; undefined otherwise (NaN, infinities, values out
    of the range of int). *)
Definition ceil_Z (neg : bool) (m : positive) (e : Z) : Z :=
  let v := if neg then Z.neg m else Z.pos m in
  if 0 <=? e then v * 2 ^ e else - ((- v) / 2 ^ (- e)).

Definition int_of_ceil (d : double) : outcome Z :=
  match d with
  | NA_REAL => Undefined
  | Num f =>
      match Prim2SF f with
      | S754_zero _ => Ok 0
      | S754_finite neg m e =>
          let c := ceil_Z neg m e in
          if in_int_range c then Ok c else Undefined
      | S754_infinity _ | S754_nan => Undefined
      end
  end.

(** ** Arrays *)

(** [a[i]] read: outside the array the behaviour is undefined. *)
Definition rd {A} (a : list A) (i : Z) : outcome A :=
  if i <? 0 then Undefined
  else match a !! Z.to_nat i with
       | Some v => Ok v
       | None => Undefined
       end.

(** [a[i] = v]. *)
Definition wr {A} (a : list A) (i : Z) (v : A) : outcome (list A) :=
  if (0 <=? i) && (i <? Z.of_nat (length a))
  then Ok (<[Z.to_nat i := v]> a)
  else Undefined.

(** [allocVector(REALSXP, n)]: R refuses a negative length.  The fresh cells
    hold no meaningful value; every caller below writes a cell before it
    reads it, and the model fills them with [NA_REAL]. *)
Definition allocVector (n : Z) : outcome (list double) :=
  if n <? 0 then Error NegativeLength
  else Ok (replicate (Z.to_nat n) NA_REAL).

(** [for (int i = i0; ...; i++) body], run [count] times. *)
Fixpoint for_loop {S} (count : nat) (i : Z) (body : Z -> S -> outcome S) (s : S)
  : outcome S :=
  match count with
  | O => Ok s
  | S c => s' ← body i s; for_loop c (i + 1) body s'
  end.

(** [for (int i = 0; i < n; i++) body]. *)
Definition for_range {S} (n : Z) (body : Z -> S -> outcome S) (s : S) : outcome S :=
  for_loop (Z.to_nat n) 0 body s.

(** ** Break generation *)

(** The body shared by the two generators:
    [brks[i] = current_val; current_val += bin_size;]
    on the state (brks, current_val). *)
Definition breaks_step (bin_size : double) (i : Z) (s : list double * double)
  : outcome (list double * double) :=
  let '(brks, current_val) := s in
  brks' ← wr brks i current_val;
  Ok (brks', dbl_add current_val bin_size).

Definition _breaks_on_nBins (from_val to_val : double) (n_bin : Z)
  (brks : list double) (shift_by_half_bin_size : Z) : outcome (list double) :=
  let bin_size :=
    dbl_div (dbl_sub to_val from_val)
            (dbl_sub (double_of_int n_bin) (double_of_int shift_by_half_bin_size)) in
  let current_val :=
    if 0 <? shift_by_half_bin_size
    then dbl_sub from_val (dbl_div bin_size (double_of_int 2))
    else from_val in
  (* for (i = 0; i <= n_bin; i++) *)
  '(brks', _) ← for_range (n_bin + 1) (breaks_step bin_size) (brks, current_val);
  Ok brks'.

Definition _breaks_on_binSize (from_val to_val : double) (n_bin : Z)
  (bin_size : double) (brks : list double) : outcome (list double) :=
  let current_val := from_val in
  '(brks', _) ← for_range n_bin (breaks_step bin_size) (brks, current_val);
  wr brks' n_bin to_val.

(** The two entry points that only generate breaks. *)
Definition breaks_on_nBins (fromX toX : double) (nBins : Z) : outcome (list double) :=
  let n_bin := nBins in
  len ← int_succ n_bin;
  ans ← allocVector len;
  _breaks_on_nBins fromX toX n_bin ans 0.

Definition breaks_on_binSize (fromX toX binSize : double) : outcome (list double) :=
  n_bin ← int_of_ceil (dbl_div (dbl_sub toX fromX) binSize);
  len ← int_succ n_bin;
  ans ← allocVector len;
  _breaks_on_binSize fromX toX n_bin binSize ans.

(** ** The scan shared by the four reducers

    The four [_bin_y_on_x_with_breaks_*] functions are the same two nested
    loops; they differ in what is done on entering a bin ([enter], only the
    mean does something) and in how a non-missing [y] value is folded into
    bin [i] ([fold]).  [S] is what the reducer updates: the [ans] array, and
    for the mean also the [el_count] array. *)
Section Scan.
Context {S : Type}.
Variable enter : Z -> S -> outcome S.
Variable fold : Z -> double -> S -> outcome S.
Variables x y brks : list double.
Variables n_bin x_end_idx : Z.

Definition last_bin_idx : Z := n_bin - 1.

(** [while (x_current_idx <= x_end_idx) { ... }] for bin [i].  [rem] is the
    number of iterations the loop condition still allows,
    [x_end_idx + 1 - x_current_idx]; the loop leaves earlier on [break].
    The result is the cursor and the reducer's state after the loop. *)
Fixpoint scan_while (rem : nat) (i x_current_idx : Z) (s : S) : outcome (Z * S) :=
  match rem with
  | O => Ok (x_current_idx, s)
  | Datatypes.S rem' =>
      x_current_value ← rd x x_current_idx;
      lower ← rd brks i;
      if dbl_ge x_current_value lower then
        upper ← rd brks (i + 1);
        if dbl_lt x_current_value upper
           || (dbl_eq x_current_value upper && (i =? last_bin_idx))
        then
          y_value ← rd y x_current_idx;
          s' ← (if negb (ISNA y_value) then fold i y_value s else Ok s);
          scan_while rem' i (x_current_idx + 1) s'
        else
          (* break: the same x value is looked at again for bin i + 1 *)
          Ok (x_current_idx, s)
      else
        scan_while rem' i (x_current_idx + 1) s
  end.

(** The body of [for (int i = 0; i < n_bin; i++)], on (cursor, state). *)
Definition scan_bin (i : Z) (st : Z * S) : outcome (Z * S) :=
  let '(x_current_idx, s) := st in
  s1 ← enter i s;
  scan_while (Z.to_nat (x_end_idx + 1 - x_current_idx)) i x_current_idx s1.

Definition scan (x_start_idx : Z) (s : S) : outcome S :=
  '(_, s') ← for_range n_bin scan_bin (x_start_idx, s);
  Ok s'.
End Scan.

(** ** The four reducers *)

Definition no_enter {S} (_ : Z) (s : S) : outcome S := Ok s.

(** [if (ISNA(ans[i]) || (y[x_current_idx] > ans[i])) ans[i] = y[x_current_idx];] *)
Definition fold_max (i : Z) (y_value : double) (ans : list double)
  : outcome (list double) :=
  a ← rd ans i;
  if ISNA a || dbl_gt y_value a then wr ans i y_value else Ok ans.

(** [if (ISNA(ans[i]) || (y[x_current_idx] < ans[i])) ans[i] = y[x_current_idx];] *)
Definition fold_min (i : Z) (y_value : double) (ans : list double)
  : outcome (list double) :=
  a ← rd ans i;
  if ISNA a || dbl_lt y_value a then wr ans i y_value else Ok ans.

(** [if (ISNA(ans[i])) ans[i] = y[...]; else ans[i] = ans[i] + y[...];] *)
Definition fold_sum (i : Z) (y_value : double) (ans : list double)
  : outcome (list double) :=
  a ← rd ans i;
  if ISNA a then wr ans i y_value else wr ans i (dbl_add a y_value).

(** The mean's state: [ans] and [el_count]. *)
Definition enter_mean (i : Z) (s : list double * list Z)
  : outcome (list double * list Z) :=
  let '(ans, el_count) := s in
  el_count' ← wr el_count i 0;
  Ok (ans, el_count').

Definition fold_mean (i : Z) (y_value : double) (s : list double * list Z)
  : outcome (list double * list Z) :=
  let '(ans, el_count) := s in
  ans' ← fold_sum i y_value ans;
  c ← rd el_count i;
  el_count' ← wr el_count i (c + 1);
  Ok (ans', el_count').

(** [if (el_count[i] > 0) ans[i] = ans[i] / (double)el_count[i];] *)
Definition divide_bin (el_count : list Z) (i : Z) (ans : list double)
  : outcome (list double) :=
  c ← rd el_count i;
  if 0 <? c then
    a ← rd ans i;
    wr ans i (dbl_div a (double_of_int c))
  else Ok ans.

Definition _bin_y_on_x_with_breaks_max (x y brks ans : list double)
  (n_bin x_start_idx x_end_idx : Z) : outcome (list double) :=
  scan no_enter fold_max x y brks n_bin x_end_idx x_start_idx ans.

Definition _bin_y_on_x_with_breaks_min (x y brks ans : list double)
  (n_bin x_start_idx x_end_idx : Z) : outcome (list double) :=
  scan no_enter fold_min x y brks n_bin x_end_idx x_start_idx ans.

Definition _bin_y_on_x_with_breaks_sum (x y brks ans : list double)
  (n_bin x_start_idx x_end_idx : Z) : outcome (list double) :=
  scan no_enter fold_sum x y brks n_bin x_end_idx x_start_idx ans.

(** [int el_count[n_bin]] is not initialised by its declaration; cell [i] is
    set to 0 on entering bin [i], before it is read.  The model starts it
    with zeros. *)
Definition _bin_y_on_x_with_breaks_mean (x y brks ans : list double)
  (n_bin x_start_idx x_end_idx : Z) : outcome (list double) :=
  let el_count := replicate (Z.to_nat n_bin) 0 in
  '(ans', el_count') ←
    scan enter_mean fold_mean x y brks n_bin x_end_idx x_start_idx (ans, el_count);
  for_range n_bin (divide_bin el_count') ans'.

(** [bin_mids[i] = (brks[i] + brks[i+1]) / 2;] *)
Definition midPoint_step (brks : list double) (i : Z) (bin_mids : list double)
  : outcome (list double) :=
  lower ← rd brks i;
  upper ← rd brks (i + 1);
  wr bin_mids i (dbl_div (dbl_add lower upper) (double_of_int 2)).

Definition _bin_midPoint (brks bin_mids : list double) (n_bin : Z)
  : outcome (list double) :=
  for_range n_bin (midPoint_step brks) bin_mids.

(** ** The entry point [binYonX] *)

(** Lines 57-62: the checks on the index window. *)
Definition check_indices (x : list double) (from_idx to_idx : Z) : outcome unit :=
  if (from_idx <? 0) || (to_idx <? 0) then Error IdxNegative
  else if to_idx <? from_idx then Error IdxOrder
  else if Z.of_nat (length x) <=? to_idx then Error IdxTooLarge
  else Ok tt.

(** Lines 64-99: the breaks to use, with the number of bins. *)
Definition define_breaks (breaks : list double) (nBins : Z)
  (binSize fromX toX : double) (shift_by_half_bin_size : Z)
  : outcome (Z * list double) :=
  first_break ← rd breaks 0;
  if negb (ISNA first_break) then
    let n_bin := Z.of_nat (length breaks) - 1 in
    if n_bin <? 1 then Error NotEnoughBreaks
    else Ok (n_bin, breaks)
  else if negb (nBins =? NA_INTEGER) then
    let n_bin := nBins in
    if n_bin <=? 0 then Error NBinsTooSmall
    else
      len ← int_succ n_bin;
      brks ← allocVector len;
      p_brks ← _breaks_on_nBins fromX toX n_bin brks shift_by_half_bin_size;
      Ok (n_bin, p_brks)
  else
    let bin_size := binSize in
    let from_x :=
      if 0 <? shift_by_half_bin_size
      then dbl_sub fromX (dbl_div bin_size (double_of_int 2))
      else fromX in
    let to_x := toX in
    if dbl_lt bin_size (double_of_int 0) then Error BinSizeNotPos
    else
      n_bin ← int_of_ceil (dbl_div (dbl_sub to_x from_x) bin_size);
      len ← int_succ n_bin;
      brks ← allocVector len;
      p_brks ← _breaks_on_binSize from_x to_x n_bin bin_size brks;
      Ok (n_bin, p_brks).

(** [switch(the_method)]. *)
Definition dispatch (the_method : Z) (x y p_brks p_ans : list double)
  (n_bin from_idx to_idx : Z) : outcome (list double) :=
  if the_method =? 2 then
    _bin_y_on_x_with_breaks_min x y p_brks p_ans n_bin from_idx to_idx
  else if the_method =? 3 then
    _bin_y_on_x_with_breaks_sum x y p_brks p_ans n_bin from_idx to_idx
  else if the_method =? 4 then
    _bin_y_on_x_with_breaks_mean x y p_brks p_ans n_bin from_idx to_idx
  else
    _bin_y_on_x_with_breaks_max x y p_brks p_ans n_bin from_idx to_idx.

(** [if (ISNA(p_ans[i])) p_ans[i] = init_value;] *)
Definition fill_step (init_value : double) (i : Z) (p_ans : list double)
  : outcome (list double) :=
  v ← rd p_ans i;
  if ISNA v then wr p_ans i init_value else Ok p_ans.

(** Lines 101-147, once the breaks are known.  The result is the list
    (x = bin_mids, y = ans). *)
Definition bin_on_breaks (x y : list double) (n_bin : Z) (p_brks : list double)
  (from_idx to_idx : Z) (init_value : double) (the_method : Z)
  : outcome (list double * list double) :=
  ans ← allocVector n_bin;
  p_ans ← for_range n_bin (fun i p => wr p i NA_REAL) ans;
  p_ans ← dispatch the_method x y p_brks p_ans n_bin from_idx to_idx;
  p_ans ← (if negb (ISNA init_value)
           then for_range n_bin (fill_step init_value) p_ans
           else Ok p_ans);
  bin_mids ← allocVector n_bin;
  bin_mids ← _bin_midPoint p_brks bin_mids n_bin;
  Ok (bin_mids, p_ans).

Definition binYonX (x y breaks : list double) (nBins : Z)
  (binSize fromX toX : double) (fromIdx toIdx shiftByHalfBinSize : Z)
  (initValue : double) (method : Z) : outcome (list double * list double) :=
  let from_idx := fromIdx in
  let to_idx := toIdx in
  let the_method := method in
  let init_value := initValue in
  let shift_by_half_bin_size := shiftByHalfBinSize in
  _ ← check_indices x from_idx to_idx;
  '(n_bin, p_brks) ← define_breaks breaks nBins binSize fromX toX shift_by_half_bin_size;
  bin_on_breaks x y n_bin p_brks from_idx to_idx init_value the_method.

(** A vector of non-missing numbers. *)
Definition nums (l : list float) : list double := Num <$> l.

(** ** Specification-side vocabulary *)

(** [v + s + ... + s] with [k] additions, in the order the accumulation
    [current_val += bin_size] performs them. *)
Fixpoint add_steps (k : nat) (v s : double) : double :=
  match k with
  | O => v
  | S k' => dbl_add (add_steps k' v s) s
  end.

(** [k] points starting at [v], each the previous one plus [s]. *)
Definition progression (k : nat) (v s : double) : list double :=
  (fun j => add_steps j v s) <$> seq 0 k.

(** The test the scan applies to an x value for bin [i]: inside
    [brks[i], brks[i+1]), or equal to [brks[i+1]] in the last bin. *)
Definition in_bin (brks : list double) (n_bin : Z) (i : Z) (xv : double) : bool :=
  match rd brks i, rd brks (i + 1) with
  | Ok lower, Ok upper =>
      dbl_ge xv lower
      && (dbl_lt xv upper || (dbl_eq xv upper && (i =? n_bin - 1)))
  | _, _ => false
  end.

(** [t'] differs from [t] in cell [i] at most. *)
Definition touches_only {A} (i : Z) (t t' : list A) : Prop :=
  length t' = length t /\ forall j : nat, j <> Z.to_nat i -> t' !! j = t !! j.

(** The invariant of the scan for max, min and sum: [t] is [ans] in the
    [watched] bins. *)
Definition kept (watched : nat -> Prop) (ans t : list double) : Prop :=
  length t = length ans /\ forall b, watched b -> t !! b = ans !! b.

(** The invariant of the scan for the mean: moreover the counter of a
    watched bin is zero. *)
Definition kept_mean (watched : nat -> Prop) (ans : list double)
  (s : list double * list Z) : Prop :=
  kept watched ans (fst s) /\ length (snd s) = length ans /\
  forall b, watched b -> (b < length ans)%nat -> snd s !! b = Some 0.

(** What the fill loop of [binYonX] makes of an aggregate. *)
Definition fill_value (init_value v : double) : double :=
  if ISNA v then init_value else v.

(** The result (midpoints, aggregates) with the missing aggregates filled. *)
Definition fill_result (init_value : double) (r : list double * list double)
  : outcome (list double * list double) :=
  Ok (fst r, fill_value init_value <$> snd r).

(** Two outcomes of the same kind, with related results. *)
Definition sim {A B} (R : A -> B -> Prop) (m1 : outcome A) (m2 : outcome B) : Prop :=
  match m1, m2 with
  | Ok a, Ok b => R a b
  | Error e1, Error e2 => e1 = e2
  | Undefined, Undefined => True
  | _, _ => False
  end.

(** How the mean of a bin relates to its sum: both missing, or the sum
    divided by a positive count. *)
Definition mean_of_sum (s m : double) : Prop :=
  match s with
  | NA_REAL => m = NA_REAL
  | Num f => exists c : Z, 0 < c /\ m = dbl_div (Num f) (double_of_int c)
  end.

(** The aggregates of the mean against those of the sum, bin by bin. *)
Definition means_of_sums (sums means : list double) : Prop :=
  length means = length sums /\
  forall (b : nat) (s : double),
    sums !! b = Some s -> exists m, means !! b = Some m /\ mean_of_sum s m.

(** The counter of a bin against its running sum, while the mean is being
    accumulated from an all-missing buffer: zero and still missing, or
    positive and a number. *)
Definition counted (ans : list double) (el_count : list Z) (b : nat) : Prop :=
  exists c : Z,
    el_count !! b = Some c /\
    ((c = 0 /\ ans !! b = Some NA_REAL) \/ (0 < c /\ exists f, ans !! b = Some (Num f))).

(** The state of the sum against the state of the mean when bins below [i]
    have been scanned. *)
Definition sum_mean_states (n_bin i : Z) (a : list double)
  (st : list double * list Z) : Prop :=
  fst st = a /\ Z.of_nat (length a) = n_bin /\ Z.of_nat (length (snd st)) = n_bin /\
  (forall b : nat, Z.of_nat b < i -> Z.of_nat b < n_bin -> counted a (snd st) b) /\
  (forall b : nat, i <= Z.of_nat b -> Z.of_nat b < n_bin -> a !! b = Some NA_REAL).

(** A computation that raises no R error: it returns or it is undefined. *)
Definition silent {A} (m : outcome A) : Prop := forall e, m <> Error e.

(** * Lemmas *)

(** Run the sequencing of a statement whose outcome is known. *)
Ltac run_bind := cbn [mbind outcome_bind mret outcome_ret].

Section Basics.
Context {A B : Type}.

Lemma bind_Ok (m : outcome A) (k : A -> outcome B) (b : B) :
  m ≫= k = Ok b -> exists a, m = Ok a /\ k a = Ok b.
Proof. destruct m as [a| |]; simpl; intros H; try discriminate; eauto. Qed.

Lemma rd_Ok (a : list A) (i : Z) (v : A) :
  rd a i = Ok v <-> 0 <= i /\ a !! Z.to_nat i = Some v.
Proof.
  unfold rd. destruct (Z.ltb_spec i 0).
  - split; [discriminate | lia].
  - destruct (a !! Z.to_nat i) eqn:E; split; intros H'; try discriminate.
    + inversion H'; subst; auto.
    + destruct H' as [_ H']; congruence.
    + destruct H' as [_ H']; discriminate.
Qed.

Lemma rd_total (a : list A) (i : Z) :
  0 <= i < Z.of_nat (length a) -> exists v, rd a i = Ok v.
Proof.
  intros H. destruct (lookup_lt_is_Some_2 a (Z.to_nat i)) as [v Hv]; [lia|].
  exists v. apply rd_Ok. split; [lia | done].
Qed.

Lemma wr_Ok (a a' : list A) (i : Z) (v : A) :
  wr a i v = Ok a' ->
  0 <= i < Z.of_nat (length a) /\ a' = <[Z.to_nat i := v]> a.
Proof.
  unfold wr. destruct (Z.leb_spec 0 i), (Z.ltb_spec i (Z.of_nat (length a)));
    simpl; intros H'; try discriminate.
  inversion H'; subst. split; [lia | done].
Qed.

Lemma wr_total (a : list A) (i : Z) (v : A) :
  0 <= i < Z.of_nat (length a) -> wr a i v = Ok (<[Z.to_nat i := v]> a).
Proof.
  intros H. unfold wr.
  destruct (Z.leb_spec 0 i), (Z.ltb_spec i (Z.of_nat (length a))); simpl; auto; lia.
Qed.

Lemma wr_length (a a' : list A) (i : Z) (v : A) :
  wr a i v = Ok a' -> length a' = length a.
Proof. intros H. apply wr_Ok in H as [_ ->]. apply length_insert. Qed.

Lemma wr_other (a a' : list A) (i : Z) (v : A) (j : nat) :
  wr a i v = Ok a' -> j <> Z.to_nat i -> a' !! j = a !! j.
Proof.
  intros H Hj. apply wr_Ok in H as [_ ->]. by apply list_lookup_insert_ne.
Qed.

Lemma wr_same (a a' : list A) (i : Z) (v : A) :
  wr a i v = Ok a' -> a' !! Z.to_nat i = Some v.
Proof.
  intros H. apply wr_Ok in H as [Hi ->]. apply list_lookup_insert_eq. lia.
Qed.
End Basics.

(** Rules for [for_loop]: an invariant indexed by the loop counter. *)
Section ForLoop.
Context {S : Type} (body : Z -> S -> outcome S) (P : Z -> S -> Prop).

Lemma for_loop_partial (count : nat) (i0 : Z) (s s' : S) :
  (forall i t t', i0 <= i < i0 + Z.of_nat count ->
                  P i t -> body i t = Ok t' -> P (i + 1) t') ->
  P i0 s ->
  for_loop count i0 body s = Ok s' ->
  P (i0 + Z.of_nat count) s'.
Proof.
  revert i0 s. induction count as [|c IH]; intros i0 s Hstep HP Hrun.
  - simpl in Hrun. inversion Hrun; subst. by replace (i0 + Z.of_nat 0) with i0 by lia.
  - simpl in Hrun. apply bind_Ok in Hrun as (t & Hb & Hrun).
    replace (i0 + Z.of_nat (Datatypes.S c)) with ((i0 + 1) + Z.of_nat c) by lia.
    apply (IH (i0 + 1) t); [| |done].
    + intros i u u' Hi. apply Hstep. lia.
    + apply (Hstep i0 s t); [lia|done|done].
Qed.

Lemma for_loop_total (count : nat) (i0 : Z) (s : S) :
  (forall i t, i0 <= i < i0 + Z.of_nat count ->
               P i t -> exists t', body i t = Ok t' /\ P (i + 1) t') ->
  P i0 s ->
  exists s', for_loop count i0 body s = Ok s' /\ P (i0 + Z.of_nat count) s'.
Proof.
  revert i0 s. induction count as [|c IH]; intros i0 s Hstep HP.
  - exists s. simpl. split; [done|]. by replace (i0 + Z.of_nat 0) with i0 by lia.
  - destruct (Hstep i0 s) as (t & Hb & Ht); [lia|done|].
    destruct (IH (i0 + 1) t) as (s' & Hrun & Hs'); [|done|].
    + intros i u Hi. apply Hstep. lia.
    + exists s'. simpl. rewrite Hb. simpl. split; [done|].
      by replace (i0 + Z.of_nat (Datatypes.S c)) with ((i0 + 1) + Z.of_nat c) by lia.
Qed.
End ForLoop.

(** ** Break generation *)

(** [ceil_Z] is the ceiling of the number [v * 2^e] a finite double stands
    for: the least integer not below it. *)
Lemma ceil_Z_spec (neg : bool) (m : positive) (e : Z) :
  let v := if neg then Z.neg m else Z.pos m in
  let c := ceil_Z neg m e in
  (0 <= e -> c = v * 2 ^ e) /\
  (e < 0 -> (c - 1) * 2 ^ (- e) < v <= c * 2 ^ (- e)).
Proof.
  cbv zeta. unfold ceil_Z. split; intros He.
  - by destruct (Z.leb_spec 0 e); [|lia].
  - destruct (Z.leb_spec 0 e); [lia|].
    set (v := if neg then Z.neg m else Z.pos m).
    assert (Hd : 0 < 2 ^ (- e)) by (apply Z.pow_pos_nonneg; lia).
    pose proof (Z.div_mod (- v) (2 ^ (- e)) ltac:(lia)) as Hdm.
    pose proof (Z.mod_pos_bound (- v) (2 ^ (- e)) Hd) as Hmod.
    nia.
Qed.

Lemma dbl_sub_zero (d : double) : dbl_sub d (double_of_int 0) = d.
Proof.
  destruct d as [|p]; [reflexivity|].
  change (dbl_sub (Num p) (double_of_int 0)) with (Num (p - 0)%float).
  f_equal. apply Prim2SF_inj. rewrite sub_spec.
  change (Prim2SF 0) with (S754_zero false).
  unfold SF64sub, SFsub.
  destruct (Prim2SF p) as [[|]| [|] | | [|] m e]; reflexivity.
Qed.

Lemma progression_S (k : nat) (v s : double) :
  progression (S k) v s = progression k v s ++ [add_steps k v s].
Proof. unfold progression. by rewrite seq_S, fmap_app. Qed.

Lemma length_progression (k : nat) (v s : double) : length (progression k v s) = k.
Proof. unfold progression. by rewrite length_fmap, length_seq. Qed.

Lemma lookup_progression (k j : nat) (v s : double) :
  (j < k)%nat -> progression k v s !! j = Some (add_steps j v s).
Proof.
  intros H. unfold progression. rewrite list_lookup_fmap, lookup_seq_lt by done.
  reflexivity.
Qed.

(** The filling loop, run [n] times on an array with at least [n] cells,
    writes the progression into the first [n] cells and leaves the rest. *)
Lemma breaks_loop_spec (bin_size v : double) (brks : list double) (n : Z) :
  n <= Z.of_nat (length brks) ->
  for_range n (breaks_step bin_size) (brks, v) =
  Ok (progression (Z.to_nat n) v bin_size ++ drop (Z.to_nat n) brks,
      add_steps (Z.to_nat n) v bin_size).
Proof.
  intros Hn. unfold for_range.
  set (P := fun (i : Z) (s : list double * double) =>
              s = (progression (Z.to_nat i) v bin_size ++ drop (Z.to_nat i) brks,
                   add_steps (Z.to_nat i) v bin_size)).
  destruct (for_loop_total (breaks_step bin_size) P (Z.to_nat n) 0 (brks, v))
    as (s' & Hrun & Hs').
  - intros i [b c] Hi HP. unfold P in HP. injection HP as Hb Hc.
    unfold breaks_step.
    assert (Hlen : length b = length brks).
    { rewrite Hb, length_app, length_progression, length_drop. lia. }
    rewrite wr_total by lia. simpl. unfold P.
    replace (Z.to_nat (i + 1)) with (S (Z.to_nat i)) by lia.
    eexists; split; [reflexivity|]. f_equal; [|by rewrite Hc].
    rewrite progression_S, Hb.
    rewrite insert_app_r_alt by (rewrite length_progression; lia).
    rewrite length_progression, Nat.sub_diag.
    destruct (drop (Z.to_nat i) brks) as [|d ds] eqn:Hd.
    { apply (f_equal length) in Hd. rewrite length_drop in Hd. simpl in Hd. lia. }
    simpl. rewrite <- app_assoc. simpl. f_equal. f_equal; [by rewrite Hc|].
    replace ds with (drop 1 (drop (Z.to_nat i) brks)) by (by rewrite Hd).
    rewrite drop_drop. f_equal. lia.
  - unfold P. simpl. by rewrite drop_0.
  - unfold P in Hs'.
    replace (Z.to_nat (0 + Z.of_nat (Z.to_nat n))) with (Z.to_nat n) in Hs' by lia.
    by rewrite Hrun, Hs'.
Qed.

Lemma _breaks_on_nBins_spec (from_val to_val : double) (n_bin shift : Z) :
  0 <= n_bin + 1 ->
  let bin_size :=
    dbl_div (dbl_sub to_val from_val)
            (dbl_sub (double_of_int n_bin) (double_of_int shift)) in
  let start :=
    if 0 <? shift then dbl_sub from_val (dbl_div bin_size (double_of_int 2))
    else from_val in
  _breaks_on_nBins from_val to_val n_bin
    (replicate (Z.to_nat (n_bin + 1)) NA_REAL) shift =
  Ok (progression (Z.to_nat (n_bin + 1)) start bin_size).
Proof.
  intros Hn bin_size start. unfold _breaks_on_nBins.
  fold bin_size. fold start.
  rewrite breaks_loop_spec by (rewrite length_replicate; lia).
  simpl. rewrite drop_ge by (rewrite length_replicate; lia).
  by rewrite app_nil_r.
Qed.

Lemma _breaks_on_binSize_spec (from_val to_val bin_size : double) (n_bin : Z) :
  0 <= n_bin ->
  _breaks_on_binSize from_val to_val n_bin bin_size
    (replicate (Z.to_nat (n_bin + 1)) NA_REAL) =
  Ok (progression (Z.to_nat n_bin) from_val bin_size ++ [to_val]).
Proof.
  intros Hn. unfold _breaks_on_binSize.
  rewrite breaks_loop_spec by (rewrite length_replicate; lia).
  simpl.
  replace (Z.to_nat (n_bin + 1)) with (Z.to_nat n_bin + 1)%nat by lia.
  rewrite replicate_add, drop_app_length' by (by rewrite length_replicate).
  simpl. rewrite wr_total.
  - f_equal. rewrite insert_app_r_alt by (rewrite length_progression; lia).
    rewrite length_progression.
    replace (Z.to_nat n_bin - Z.to_nat n_bin)%nat with 0%nat by lia. reflexivity.
  - rewrite length_app, length_progression. simpl. lia.
Qed.

Lemma allocVector_Ok (n : Z) (v : list double) :
  allocVector n = Ok v -> 0 <= n /\ v = replicate (Z.to_nat n) NA_REAL.
Proof.
  unfold allocVector. destruct (Z.ltb_spec n 0); intros H'; inversion H'; subst.
  split; [lia | done].
Qed.

Lemma allocVector_total (n : Z) :
  0 <= n -> allocVector n = Ok (replicate (Z.to_nat n) NA_REAL).
Proof. intros H. unfold allocVector. destruct (Z.ltb_spec n 0); [lia | done]. Qed.

Lemma int_succ_Ok (n m : Z) : int_succ n = Ok m -> m = n + 1.
Proof. unfold int_succ. destruct (n <? INT_MAX); intros H; by inversion H. Qed.

Lemma int_succ_total (n : Z) : n < INT_MAX -> int_succ n = Ok (n + 1).
Proof. intros H. unfold int_succ. destruct (Z.ltb_spec n INT_MAX); [done | lia]. Qed.

Lemma progression_first (k : nat) (v s : double) :
  (0 < k)%nat -> progression k v s !! 0%nat = Some v.
Proof. intros H. by rewrite lookup_progression. Qed.

Lemma progression_next (k j : nat) (v s : double) :
  (S j < k)%nat ->
  exists b, progression k v s !! j = Some b /\
            progression k v s !! S j = Some (dbl_add b s).
Proof.
  intros H. exists (add_steps j v s).
  rewrite !lookup_progression by lia. done.
Qed.

(** C5: without the half-bin shift, bin-count mode yields nBins+1 points that
    start at fromX and advance by the constant step (toX - fromX) / nBins, so
    that the last one is fromX advanced nBins times by the step;
    generateBreaksByCount(0, 10, 5) is [0,2,4,6,8,10], ending at toX. *)
Theorem breaks_on_nBins_evenly_spaced :
  (forall (fromX toX : double) (nBins : Z),
      0 <= nBins < INT_MAX ->
      let step := dbl_div (dbl_sub toX fromX) (double_of_int nBins) in
      exists brks : list double,
        breaks_on_nBins fromX toX nBins = Ok brks /\
        Z.of_nat (length brks) = nBins + 1 /\
        brks !! 0%nat = Some fromX /\
        (forall k : nat, (S k < length brks)%nat ->
           exists b, brks !! k = Some b /\ brks !! S k = Some (dbl_add b step)) /\
        brks !! Z.to_nat nBins = Some (add_steps (Z.to_nat nBins) fromX step) /\
        brks = progression (Z.to_nat (nBins + 1)) fromX step) /\
  breaks_on_nBins (Num 0) (Num 10) 5 = Ok (nums [0; 2; 4; 6; 8; 10]%float).
Proof.
  split; [|vm_compute; reflexivity].
  intros fromX toX nBins Hn step.
  exists (progression (Z.to_nat (nBins + 1)) fromX step).
  split; [|repeat split].
  - unfold breaks_on_nBins. rewrite int_succ_total by lia. run_bind.
    rewrite allocVector_total by lia. run_bind.
    rewrite _breaks_on_nBins_spec by lia. cbv zeta.
    rewrite dbl_sub_zero. reflexivity.
  - rewrite length_progression. lia.
  - apply progression_first. lia.
  - intros k Hk. rewrite length_progression in Hk. by apply progression_next.
  - apply lookup_progression. lia.
Qed.

(** Four bins over [1,2]: the breaks are 1, 1.25, 1.5, 1.75, 2. *)
Lemma breaks_on_nBins_evenly_spaced_witness :
  0 <= 4 < INT_MAX /\
  exists brks : list double,
    breaks_on_nBins (Num 1) (Num 2) 4 = Ok brks /\
    brks = nums [1; 1.25; 1.5; 1.75; 2]%float.
Proof.
  split; [unfold INT_MAX; lia|].
  destruct (proj1 breaks_on_nBins_evenly_spaced (Num 1) (Num 2) 4)
    as (brks & Hrun & _ & _ & _ & _ & Hb); [unfold INT_MAX; lia|].
  exists brks. split; [exact Hrun|]. rewrite Hb. vm_compute. reflexivity.
Defined.

(** C3: in bin-size mode the number of bins is ceil((toX - fromX) / binSize),
    boundary k < nBins is fromX advanced k times by binSize, and the final
    boundary is toX itself; generateBreaksBySize(0, 10, 3) has 4 bins and
    boundaries [0,3,6,9,10]. *)
Theorem breaks_on_binSize_forced_end :
  (forall (fromX toX binSize : double) (nBins : Z),
      int_of_ceil (dbl_div (dbl_sub toX fromX) binSize) = Ok nBins ->
      0 <= nBins < INT_MAX ->
      exists brks : list double,
        breaks_on_binSize fromX toX binSize = Ok brks /\
        Z.of_nat (length brks) = nBins + 1 /\
        (forall k : nat, Z.of_nat k < nBins ->
           brks !! k = Some (add_steps k fromX binSize)) /\
        brks !! Z.to_nat nBins = Some toX) /\
  int_of_ceil (dbl_div (dbl_sub (Num 10) (Num 0)) (Num 3)) = Ok 4 /\
  breaks_on_binSize (Num 0) (Num 10) (Num 3) = Ok (nums [0; 3; 6; 9; 10]%float) /\
  add_steps 4 (Num 0) (Num 3) = Num 12.
Proof.
  split; [|repeat split; vm_compute; reflexivity].
  intros fromX toX binSize nBins Hceil Hn.
  exists (progression (Z.to_nat nBins) fromX binSize ++ [toX]).
  split; [|repeat split].
  - unfold breaks_on_binSize. rewrite Hceil. run_bind.
    rewrite int_succ_total by lia. run_bind.
    rewrite allocVector_total by lia. run_bind.
    by rewrite _breaks_on_binSize_spec by lia.
  - rewrite length_app, length_progression. simpl. lia.
  - intros k Hk. rewrite lookup_app_l by (rewrite length_progression; lia).
    apply lookup_progression. lia.
  - rewrite lookup_app_r by (rewrite length_progression; lia).
    rewrite length_progression, Nat.sub_diag. reflexivity.
Qed.

(** Bins of size 0.375 over [0,1]: three bins, the last one ends at 1. *)
Lemma breaks_on_binSize_forced_end_witness :
  exists brks : list double,
    breaks_on_binSize (Num 0) (Num 1) (Num 0.375) = Ok brks /\
    Z.of_nat (length brks) = 3 + 1 /\
    brks !! 2%nat = Some (Num 0.75) /\
    brks !! 3%nat = Some (Num 1).
Proof.
  destruct (proj1 breaks_on_binSize_forced_end (Num 0) (Num 1) (Num 0.375) 3)
    as (brks & Hrun & Hlen & Hk & Hlast);
    [vm_compute; reflexivity | unfold INT_MAX; lia |].
  exists brks. repeat split; [exact Hrun | exact Hlen | | exact Hlast].
  rewrite (Hk 2%nat) by lia. vm_compute. reflexivity.
Defined.

(** C4, as the code has it: in bin-count mode with the half-bin shift,
    fromX=0, toX=10, nBins=5, the step is 10/(5-1) = 2.5, the first boundary
    is 0 - 2.5/2 = -1.25, and the breaks are
    [-1.25, 1.25, 3.75, 6.25, 8.75, 11.25]. *)
Theorem breaks_on_nBins_shifted_example :
  dbl_div (dbl_sub (Num 10) (Num 0)) (dbl_sub (double_of_int 5) (double_of_int 1))
  = Num 2.5 /\
  dbl_sub (Num 0) (dbl_div (Num 2.5) (double_of_int 2)) = Num (-1.25) /\
  _breaks_on_nBins (Num 0) (Num 10) 5 (replicate 6 NA_REAL) 1
  = Ok (progression 6 (Num (-1.25)) (Num 2.5)) /\
  define_breaks [NA_REAL] 5 NA_REAL (Num 0) (Num 10) 1
  = Ok (5, nums [-1.25; 1.25; 3.75; 6.25; 8.75; 11.25]%float).
Proof. repeat split; vm_compute; reflexivity. Qed.

(** C4, as the spec has it, fails: the breaks are not
    [-1.25, 1.0, 3.25, 5.5, 7.75, 10.0]. *)
Lemma breaks_on_nBins_shifted_not_spec :
  define_breaks [NA_REAL] 5 NA_REAL (Num 0) (Num 10) 1
  <> Ok (5, nums [-1.25; 1.0; 3.25; 5.5; 7.75; 10.0]%float).
Proof.
  intros H.
  apply (f_equal (fun o => match o with
                           | Ok (_, _ :: Num b1 :: _) => PrimFloat.eqb b1 1.25
                           | _ => false
                           end)) in H.
  vm_compute in H. discriminate.
Qed.

(** ** Where errors come from

    Array accesses and the loops raise no R error; the only calls of
    [error()] are the checks of [binYonX], and [allocVector] refuses a
    negative length. *)

Lemma silent_bind {A B} (m : outcome A) (k : A -> outcome B) :
  silent m -> (forall a, m = Ok a -> silent (k a)) -> silent (m ≫= k).
Proof.
  intros Hm Hk e. destruct m as [a|e'|]; simpl; [by apply Hk | by destruct (Hm e') | done].
Qed.

Lemma silent_Ok {A} (a : A) : silent (Ok a).
Proof. intros e; discriminate. Qed.

Lemma silent_Undefined {A} : silent (@Undefined A).
Proof. intros e; discriminate. Qed.

Lemma silent_rd {A} (a : list A) (i : Z) : silent (rd a i).
Proof. intros e. unfold rd. destruct (i <? 0), (a !! Z.to_nat i); discriminate. Qed.

Lemma silent_wr {A} (a : list A) (i : Z) (v : A) : silent (wr a i v).
Proof. intros e. unfold wr. destruct (_ && _); discriminate. Qed.

Lemma silent_if {A} (b : bool) (m1 m2 : outcome A) :
  silent m1 -> silent m2 -> silent (if b then m1 else m2).
Proof. by destruct b. Qed.

Lemma silent_for_loop {S} (body : Z -> S -> outcome S) (count : nat) (i : Z) (s : S) :
  (forall j t, silent (body j t)) -> silent (for_loop count i body s).
Proof.
  intros Hbody. revert i s. induction count as [|c IH]; intros i s; simpl.
  - apply silent_Ok.
  - apply silent_bind; [apply Hbody | intros; apply IH].
Qed.

Lemma silent_int_succ (n : Z) : silent (int_succ n).
Proof. unfold int_succ. apply silent_if; [apply silent_Ok | apply silent_Undefined]. Qed.

Lemma silent_int_of_ceil (d : double) : silent (int_of_ceil d).
Proof.
  intros e. unfold int_of_ceil. destruct d as [|f]; [done|].
  destruct (Prim2SF f); try done. by destruct (in_int_range _).
Qed.

Create HintDb silent.
#[local] Hint Resolve silent_Ok silent_Undefined silent_rd silent_wr
  silent_int_succ silent_int_of_ceil : silent.

Ltac silent_tac :=
  repeat first
    [ progress auto with silent
    | apply silent_bind; [|intros ? _]
    | apply silent_if
    | apply silent_for_loop; intros ? ?
    | match goal with |- silent (let '(_, _) := ?p in _) => destruct p end ].

Lemma silent_breaks_step (bin_size : double) (i : Z) (s : list double * double) :
  silent (breaks_step bin_size i s).
Proof. unfold breaks_step. silent_tac. Qed.

Lemma silent_breaks_on_nBins (from_val to_val : double) (n_bin : Z)
  (brks : list double) (shift : Z) :
  silent (_breaks_on_nBins from_val to_val n_bin brks shift).
Proof.
  unfold _breaks_on_nBins, for_range. cbv zeta. silent_tac.
  apply silent_breaks_step.
Qed.

Lemma silent_breaks_on_binSize (from_val to_val : double) (n_bin : Z)
  (bin_size : double) (brks : list double) :
  silent (_breaks_on_binSize from_val to_val n_bin bin_size brks).
Proof.
  unfold _breaks_on_binSize, for_range. cbv zeta. silent_tac.
  apply silent_breaks_step.
Qed.

Section ScanSilent.
Context {S : Type} (enter : Z -> S -> outcome S) (fold : Z -> double -> S -> outcome S).
Hypothesis enter_silent : forall i s, silent (enter i s).
Hypothesis fold_silent : forall i v s, silent (fold i v s).

Lemma silent_scan_while (x y brks : list double) (n_bin : Z) (rem : nat) :
  forall i cur s, silent (scan_while fold x y brks n_bin rem i cur s).
Proof.
  induction rem as [|r IH]; intros i cur s; simpl; silent_tac; auto.
Qed.

Lemma silent_scan (x y brks : list double) (n_bin x_end_idx x_start_idx : Z) (s : S) :
  silent (scan enter fold x y brks n_bin x_end_idx x_start_idx s).
Proof.
  unfold scan, for_range. silent_tac.
  unfold scan_bin. silent_tac; auto using silent_scan_while.
Qed.
End ScanSilent.

Lemma silent_fold_max i v ans : silent (fold_max i v ans).
Proof. unfold fold_max. silent_tac. Qed.
Lemma silent_fold_min i v ans : silent (fold_min i v ans).
Proof. unfold fold_min. silent_tac. Qed.
Lemma silent_fold_sum i v ans : silent (fold_sum i v ans).
Proof. unfold fold_sum. silent_tac. Qed.
Lemma silent_fold_mean i v s : silent (fold_mean i v s).
Proof. unfold fold_mean. silent_tac. Qed.
Lemma silent_enter_mean i s : silent (enter_mean i s).
Proof. unfold enter_mean. silent_tac. Qed.
Lemma silent_no_enter {S} i (s : S) : silent (no_enter i s).
Proof. apply silent_Ok. Qed.
Lemma silent_divide_bin c i ans : silent (divide_bin c i ans).
Proof. unfold divide_bin. silent_tac. Qed.

Lemma silent_dispatch (the_method : Z) (x y p_brks p_ans : list double)
  (n_bin from_idx to_idx : Z) :
  silent (dispatch the_method x y p_brks p_ans n_bin from_idx to_idx).
Proof.
  unfold dispatch. repeat apply silent_if.
  - apply silent_scan; auto using silent_no_enter, silent_fold_min.
  - apply silent_scan; auto using silent_no_enter, silent_fold_sum.
  - unfold _bin_y_on_x_with_breaks_mean. cbv zeta. apply silent_bind.
    + apply silent_scan; auto using silent_enter_mean, silent_fold_mean.
    + intros [a c] _. unfold for_range. apply silent_for_loop.
      intros; apply silent_divide_bin.
  - apply silent_scan; auto using silent_no_enter, silent_fold_max.
Qed.

Lemma bind_Error {A B} (m : outcome A) (k : A -> outcome B) (e : error_msg) :
  m ≫= k = Error e -> m = Error e \/ exists a, m = Ok a /\ k a = Error e.
Proof.
  destruct m as [a|e'|]; simpl; intros H; [right; eauto | left; by inversion H | discriminate].
Qed.

(** Once the breaks are known, only the allocation can raise an error. *)
Lemma bin_on_breaks_errors (x y : list double) (n_bin : Z) (p_brks : list double)
  (from_idx to_idx : Z) (init_value : double) (the_method : Z) (e : error_msg) :
  bin_on_breaks x y n_bin p_brks from_idx to_idx init_value the_method = Error e ->
  e = NegativeLength /\ n_bin < 0.
Proof.
  unfold bin_on_breaks. intros H.
  apply bind_Error in H as [H | (ans & Hans & H)].
  { unfold allocVector in H. destruct (Z.ltb_spec n_bin 0); inversion H. split; [done | lia]. }
  exfalso. revert H. apply silent_bind.
  { unfold for_range. apply silent_for_loop. intros; apply silent_wr. }
  intros p1 _. apply silent_bind; [apply silent_dispatch|].
  intros p2 _. apply silent_bind.
  { apply silent_if; [|apply silent_Ok]. unfold for_range. apply silent_for_loop.
    intros. unfold fill_step. silent_tac. }
  intros p3 _. rewrite Hans. run_bind.
  apply silent_bind; [|intros; apply silent_Ok].
  unfold _bin_midPoint, for_range. apply silent_for_loop.
  intros. unfold midPoint_step. silent_tac.
Qed.

(** The errors of the break definition, each with the test that raises it. *)
Lemma define_breaks_errors (breaks : list double) (nBins : Z)
  (binSize fromX toX : double) (shift : Z) (e : error_msg) :
  define_breaks breaks nBins binSize fromX toX shift = Error e ->
  e = NotEnoughBreaks \/ e = NBinsTooSmall \/ e = NegativeLength \/
  (e = BinSizeNotPos /\ dbl_lt binSize (double_of_int 0) = true).
Proof.
  unfold define_breaks. intros H.
  apply bind_Error in H as [H | (b0 & _ & H)]; [by apply silent_rd in H|].
  destruct (negb (ISNA b0)).
  { destruct (_ <? 1); inversion H; auto. }
  destruct (negb (nBins =? NA_INTEGER)).
  { destruct (nBins <=? 0); [inversion H; auto|].
    apply bind_Error in H as [H | (len & _ & H)]; [by apply silent_int_succ in H|].
    apply bind_Error in H as [H | (brks & _ & H)].
    { unfold allocVector in H. destruct (len <? 0); inversion H; auto. }
    exfalso. revert H. apply silent_bind; [apply silent_breaks_on_nBins|].
    intros; apply silent_Ok. }
  cbv zeta in H. destruct (dbl_lt binSize (double_of_int 0)) eqn:Hlt.
  { inversion H; auto. }
  apply bind_Error in H as [H | (n_bin & _ & H)]; [by apply silent_int_of_ceil in H|].
  apply bind_Error in H as [H | (len & _ & H)]; [by apply silent_int_succ in H|].
  apply bind_Error in H as [H | (brks & _ & H)].
  { unfold allocVector in H. destruct (len <? 0); inversion H; auto. }
  exfalso. revert H. apply silent_bind; [apply silent_breaks_on_binSize|].
  intros; apply silent_Ok.
Qed.

(** ** The entry point: checks and dispatch *)

Lemma check_indices_Ok (x : list double) (from_idx to_idx : Z) :
  check_indices x from_idx to_idx = Ok tt <->
  ~ (from_idx < 0 \/ to_idx < 0 \/ to_idx < from_idx \/ Z.of_nat (length x) <= to_idx).
Proof.
  unfold check_indices.
  destruct (Z.ltb_spec from_idx 0), (Z.ltb_spec to_idx 0),
    (Z.ltb_spec to_idx from_idx), (Z.leb_spec (Z.of_nat (length x)) to_idx);
    simpl; split; intros H'; try discriminate; try reflexivity; lia.
Qed.

Lemma check_indices_Error (x : list double) (from_idx to_idx : Z) :
  from_idx < 0 \/ to_idx < 0 \/ to_idx < from_idx \/ Z.of_nat (length x) <= to_idx ->
  exists e, is_index_error e = true /\ check_indices x from_idx to_idx = Error e.
Proof.
  intros H. unfold check_indices.
  destruct (Z.ltb_spec from_idx 0), (Z.ltb_spec to_idx 0),
    (Z.ltb_spec to_idx from_idx), (Z.leb_spec (Z.of_nat (length x)) to_idx);
    simpl; try (eexists; split; [|reflexivity]; reflexivity); lia.
Qed.

(** C8: binYonX raises one of its index errors exactly when the start index
    is negative, the end index is negative, the start index exceeds the end
    index, or the end index is not below the length of x, whatever the other
    arguments are; otherwise the index checks pass and the call goes on to
    define the breaks. *)
Theorem binYonX_index_checks (x y breaks : list double) (nBins : Z)
  (binSize fromX toX : double) (fromIdx toIdx shiftByHalfBinSize : Z)
  (initValue : double) (method : Z) :
  let bad := fromIdx < 0 \/ toIdx < 0 \/ toIdx < fromIdx
             \/ Z.of_nat (length x) <= toIdx in
  let call := binYonX x y breaks nBins binSize fromX toX fromIdx toIdx
                shiftByHalfBinSize initValue method in
  (bad <-> exists e, is_index_error e = true /\ call = Error e) /\
  (~ bad <-> check_indices x fromIdx toIdx = Ok tt) /\
  (~ bad ->
   call = '(n_bin, p_brks) ←
            define_breaks breaks nBins binSize fromX toX shiftByHalfBinSize;
          bin_on_breaks x y n_bin p_brks fromIdx toIdx initValue method).
Proof.
  intros bad call.
  assert (Hpass : ~ bad ->
    call = '(n_bin, p_brks) ←
             define_breaks breaks nBins binSize fromX toX shiftByHalfBinSize;
           bin_on_breaks x y n_bin p_brks fromIdx toIdx initValue method).
  { intros Hok. apply check_indices_Ok in Hok. unfold call, binYonX. cbv zeta.
    rewrite Hok. reflexivity. }
  split; [split|split].
  - intros Hbad. apply check_indices_Error in Hbad as (e & He & Hc).
    exists e. split; [done|]. unfold call, binYonX. cbv zeta. by rewrite Hc.
  - intros (e & He & Hcall).
    destruct (decide (fromIdx < 0 \/ toIdx < 0 \/ toIdx < fromIdx
                      \/ Z.of_nat (length x) <= toIdx)) as [Hb|Hb]; [exact Hb|].
    exfalso. rewrite (Hpass Hb) in Hcall.
    apply bind_Error in Hcall as [Hd | ([n b] & _ & Hb')].
    + apply define_breaks_errors in Hd as [-> | [-> | [-> | [-> _]]]]; discriminate.
    + apply bin_on_breaks_errors in Hb' as [-> _]. discriminate.
  - symmetry. apply check_indices_Ok.
  - exact Hpass.
Qed.

Lemma dispatch_default (the_method : Z) (x y p_brks p_ans : list double)
  (n_bin from_idx to_idx : Z) :
  the_method <> 2 -> the_method <> 3 -> the_method <> 4 ->
  dispatch the_method x y p_brks p_ans n_bin from_idx to_idx =
  _bin_y_on_x_with_breaks_max x y p_brks p_ans n_bin from_idx to_idx.
Proof.
  intros H2 H3 H4. unfold dispatch.
  destruct (Z.eqb_spec the_method 2), (Z.eqb_spec the_method 3),
    (Z.eqb_spec the_method 4); congruence.
Qed.

(** C10: every method selector other than 2, 3 and 4 runs the max reducer,
    so all of them give the output of method 1 on the same inputs. *)
Theorem binYonX_default_method_is_max (x y breaks : list double) (nBins : Z)
  (binSize fromX toX : double) (fromIdx toIdx shiftByHalfBinSize : Z)
  (initValue : double) (method : Z) :
  method <> 2 -> method <> 3 -> method <> 4 ->
  (forall (p_brks p_ans : list double) (n_bin : Z),
      dispatch method x y p_brks p_ans n_bin fromIdx toIdx =
      _bin_y_on_x_with_breaks_max x y p_brks p_ans n_bin fromIdx toIdx) /\
  binYonX x y breaks nBins binSize fromX toX fromIdx toIdx shiftByHalfBinSize
    initValue method =
  binYonX x y breaks nBins binSize fromX toX fromIdx toIdx shiftByHalfBinSize
    initValue 1.
Proof.
  intros H2 H3 H4. split.
  - intros. by apply dispatch_default.
  - unfold binYonX, bin_on_breaks. cbv zeta.
    destruct (check_indices x fromIdx toIdx) as [[]| |]; try reflexivity. run_bind.
    destruct (define_breaks _ _ _ _ _ _) as [[n b]| |]; try reflexivity. run_bind.
    destruct (allocVector n) as [ans| |]; try reflexivity. run_bind.
    destruct (for_range n _ ans) as [p| |]; try reflexivity. run_bind.
    rewrite (dispatch_default method) by done.
    by rewrite (dispatch_default 1 x y b p n fromIdx toIdx) by lia.
Qed.

(** Method 7 on the small dataset gives the maxima. *)
Lemma binYonX_default_method_is_max_witness :
  binYonX (nums [1; 2; 3; 4]%float) (nums [10; 20; 30; 40]%float)
    (nums [1; 3; 5]%float) NA_INTEGER NA_REAL NA_REAL NA_REAL 0 3 0 NA_REAL 7 =
  Ok (nums [2; 4]%float, nums [20; 40]%float).
Proof.
  rewrite (proj2 (binYonX_default_method_is_max
                    (nums [1; 2; 3; 4]%float) (nums [10; 20; 30; 40]%float)
                    (nums [1; 3; 5]%float) NA_INTEGER NA_REAL NA_REAL NA_REAL
                    0 3 0 NA_REAL 7 ltac:(lia) ltac:(lia) ltac:(lia))).
  vm_compute. reflexivity.
Defined.

Lemma dbl_eq_not_lt (a b : double) : dbl_eq a b = true -> dbl_lt a b = false.
Proof. unfold dbl_eq, dbl_lt. by destruct (dbl_compare a b). Qed.

Lemma dbl_lt_not_ge (a b : double) : dbl_lt a b = true -> dbl_ge a b = false.
Proof. unfold dbl_ge, dbl_lt. by destruct (dbl_compare a b). Qed.

(** In bin-size mode a negative bin size is refused. *)
Lemma binYonX_negative_binSize (x y breaks : list double)
  (binSize fromX toX : double) (fromIdx toIdx shiftByHalfBinSize : Z)
  (initValue : double) (method : Z) :
  check_indices x fromIdx toIdx = Ok tt ->
  rd breaks 0 = Ok NA_REAL ->
  dbl_lt binSize (double_of_int 0) = true ->
  binYonX x y breaks NA_INTEGER binSize fromX toX fromIdx toIdx
    shiftByHalfBinSize initValue method = Error BinSizeNotPos.
Proof.
  intros Hc Hb Hlt. unfold binYonX, define_breaks. cbv zeta.
  rewrite Hc, Hb. run_bind. simpl negb. cbv iota. by rewrite Hlt.
Qed.

(** C7 on the code: the test is [bin_size < 0], so a bin size of zero is not
    refused.  No call with [binSize == 0] ends in the bin-size error; with
    fromX=0, toX=10 the division gives an infinity, whose cast to int is
    undefined. *)
Theorem binYonX_zero_binSize_not_refused :
  (forall (x y breaks : list double) (nBins : Z) (binSize fromX toX : double)
          (fromIdx toIdx shiftByHalfBinSize : Z) (initValue : double) (method : Z),
      dbl_eq binSize (double_of_int 0) = true ->
      binYonX x y breaks nBins binSize fromX toX fromIdx toIdx
        shiftByHalfBinSize initValue method <> Error BinSizeNotPos) /\
  binYonX (nums [1; 2; 3; 4]%float) (nums [10; 20; 30; 40]%float) [NA_REAL]
    NA_INTEGER (Num 0) (Num 0) (Num 10) 0 3 0 NA_REAL 1 = Undefined /\
  binYonX (nums [1; 2; 3; 4]%float) (nums [10; 20; 30; 40]%float) [NA_REAL]
    NA_INTEGER (Num (-3)) (Num 0) (Num 10) 0 3 0 NA_REAL 1 = Error BinSizeNotPos.
Proof.
  split; [|split; vm_compute; reflexivity].
  intros x y breaks nBins binSize fromX toX fromIdx toIdx shift initValue method
    Hz Hcall.
  apply dbl_eq_not_lt in Hz.
  unfold binYonX in Hcall. cbv zeta in Hcall.
  apply bind_Error in Hcall as [Hc | ([] & _ & Hcall)].
  { unfold check_indices in Hc.
    destruct (_ || _); [discriminate|]. destruct (_ <? _); [discriminate|].
    destruct (_ <=? _); discriminate. }
  apply bind_Error in Hcall as [Hd | ([n b] & _ & Hb)].
  - apply define_breaks_errors in Hd as [? | [? | [? | [_ Hlt]]]]; congruence.
  - apply bin_on_breaks_errors in Hb as [? _]. discriminate.
Qed.

(** A bin size of -0.0 compares equal to zero and is not refused either. *)
Lemma binYonX_zero_binSize_not_refused_witness :
  binYonX (nums [1; 2; 3; 4]%float) (nums [10; 20; 30; 40]%float) [NA_REAL]
    NA_INTEGER (Num (-0)) (Num 0) (Num 10) 0 3 0 NA_REAL 1 <> Error BinSizeNotPos.
Proof.
  apply (proj1 binYonX_zero_binSize_not_refused). vm_compute. reflexivity.
Defined.

(** ** The test of the loop *)

(** [in_bin] is the test the loop of every reducer applies: one iteration on
    a sample of the bin with a usable y value folds it into the bin and
    moves the cursor on. *)
Lemma scan_while_in_bin {S} (fold : Z -> double -> S -> outcome S)
  (x y brks : list double) (n_bin : Z) (rem : nat) (i cur : Z) (s : S)
  (xv yv : double) :
  rd x cur = Ok xv -> in_bin brks n_bin i xv = true ->
  rd y cur = Ok yv -> ISNA yv = false ->
  scan_while fold x y brks n_bin (Datatypes.S rem) i cur s =
  (s' ← fold i yv s; scan_while fold x y brks n_bin rem i (cur + 1) s').
Proof.
  intros Hx Hin Hy Hna. unfold in_bin in Hin. cbn [scan_while]. rewrite Hx.
  run_bind.
  destruct (rd brks i) as [lower| |]; try discriminate.
  destruct (rd brks (i + 1)) as [upper| |]; try discriminate. run_bind.
  apply andb_true_iff in Hin as [Hge Hup]. unfold last_bin_idx.
  rewrite Hge, Hup, Hy. run_bind. by rewrite Hna.
Qed.

(** One iteration on a sample that passes the lower border of the bin but
    fails its test leaves the loop: the cursor stays on the sample, for the
    next bin. *)
Lemma scan_while_not_in_bin {S} (fold : Z -> double -> S -> outcome S)
  (x y brks : list double) (n_bin : Z) (rem : nat) (i cur : Z) (s : S)
  (xv lower upper : double) :
  rd x cur = Ok xv -> rd brks i = Ok lower -> rd brks (i + 1) = Ok upper ->
  dbl_ge xv lower = true -> in_bin brks n_bin i xv = false ->
  scan_while fold x y brks n_bin (Datatypes.S rem) i cur s = Ok (cur, s).
Proof.
  intros Hx Hlo Hup Hge Hin. unfold in_bin in Hin. rewrite Hlo, Hup, Hge in Hin.
  simpl andb in Hin. cbn [scan_while]. rewrite Hx, Hlo. run_bind.
  rewrite Hge, Hup. run_bind. unfold last_bin_idx. by rewrite Hin.
Qed.

(** ** The worked example *)

(** C1: for x=[1,2,3,4], y=[10,20,30,40], breaks=[1,3,5] and the window 0..3,
    the x values 1 and 2 lie in bin 0 = [1,3) and the x values 3 and 4 in
    bin 1 = [3,5], which is closed at 5; the aggregates are max=[20,40],
    min=[10,30], sum=[30,70], mean=[15,35].  The code run on one sample at a
    time shows the bin of each sample; run with 5, the last break, in place
    of 4 it gives the same aggregates, and run with 6 it drops that sample.
    [in_bin], which names the two intervals, is the test the loop applies. *)
Theorem bin_small_dataset :
  let x := nums [1; 2; 3; 4]%float in
  let y := nums [10; 20; 30; 40]%float in
  let brks := nums [1; 3; 5]%float in
  let ans := [NA_REAL; NA_REAL] in
  let mids := nums [2; 4]%float in
  (_bin_y_on_x_with_breaks_max x y brks ans 2 0 3 = Ok (nums [20; 40]%float) /\
   _bin_y_on_x_with_breaks_min x y brks ans 2 0 3 = Ok (nums [10; 30]%float) /\
   _bin_y_on_x_with_breaks_sum x y brks ans 2 0 3 = Ok (nums [30; 70]%float) /\
   _bin_y_on_x_with_breaks_mean x y brks ans 2 0 3 = Ok (nums [15; 35]%float)) /\
  (binYonX x y brks NA_INTEGER NA_REAL NA_REAL NA_REAL 0 3 0 NA_REAL 1 =
     Ok (nums [2; 4]%float, nums [20; 40]%float) /\
   binYonX x y brks NA_INTEGER NA_REAL NA_REAL NA_REAL 0 3 0 NA_REAL 2 =
     Ok (nums [2; 4]%float, nums [10; 30]%float) /\
   binYonX x y brks NA_INTEGER NA_REAL NA_REAL NA_REAL 0 3 0 NA_REAL 3 =
     Ok (nums [2; 4]%float, nums [30; 70]%float) /\
   binYonX x y brks NA_INTEGER NA_REAL NA_REAL NA_REAL 0 3 0 NA_REAL 4 =
     Ok (nums [2; 4]%float, nums [15; 35]%float)) /\
  (in_bin brks 2 0 <$> x) = [true; true; false; false] /\
  (in_bin brks 2 1 <$> x) = [false; false; true; true] /\
  in_bin brks 2 0 (Num 3) = false /\
  in_bin brks 2 1 (Num 5) = true /\
  (* the code on the window j..j, for each sample j: the bin it is put in *)
  ((fun j => binYonX x y brks NA_INTEGER NA_REAL NA_REAL NA_REAL j j 0 NA_REAL 3)
     <$> [0; 1; 2; 3]) =
    [Ok (mids, [Num 10; NA_REAL]); Ok (mids, [Num 20; NA_REAL]);
     Ok (mids, [NA_REAL; Num 30]); Ok (mids, [NA_REAL; Num 40])] /\
  (* the last bin is closed: a sample at 5 is put in bin 1 *)
  (let x5 := nums [1; 2; 3; 5]%float in
   binYonX x5 y brks NA_INTEGER NA_REAL NA_REAL NA_REAL 3 3 0 NA_REAL 3 =
     Ok (mids, [NA_REAL; Num 40]) /\
   binYonX x5 y brks NA_INTEGER NA_REAL NA_REAL NA_REAL 0 3 0 NA_REAL 1 =
     Ok (mids, nums [20; 40]%float) /\
   binYonX x5 y brks NA_INTEGER NA_REAL NA_REAL NA_REAL 0 3 0 NA_REAL 2 =
     Ok (mids, nums [10; 30]%float) /\
   binYonX x5 y brks NA_INTEGER NA_REAL NA_REAL NA_REAL 0 3 0 NA_REAL 3 =
     Ok (mids, nums [30; 70]%float) /\
   binYonX x5 y brks NA_INTEGER NA_REAL NA_REAL NA_REAL 0 3 0 NA_REAL 4 =
     Ok (mids, nums [15; 35]%float) /\
   _bin_y_on_x_with_breaks_sum x5 y brks ans 2 0 3 = Ok (nums [30; 70]%float)) /\
  (* the first bin is open at 3, and nothing lies in a bin beyond 5 *)
  (binYonX (nums [3]%float) (nums [30]%float) (nums [1; 3]%float)
     NA_INTEGER NA_REAL NA_REAL NA_REAL 0 0 0 NA_REAL 3 =
     Ok (nums [2]%float, [Num 30]) /\
   binYonX (nums [1; 2; 3; 6]%float) y brks
     NA_INTEGER NA_REAL NA_REAL NA_REAL 0 3 0 NA_REAL 3 =
     Ok (mids, nums [30; 30]%float)) /\
  (* [in_bin] is the test of the loop, whatever the reducer *)
  (forall (S : Type) (fold : Z -> double -> S -> outcome S)
          (x y brks : list double) (n_bin : Z) (rem : nat) (i cur : Z) (s : S)
          (xv yv : double),
      rd x cur = Ok xv -> rd y cur = Ok yv -> ISNA yv = false ->
      in_bin brks n_bin i xv = true ->
      scan_while fold x y brks n_bin (Datatypes.S rem) i cur s =
      (s' ← fold i yv s; scan_while fold x y brks n_bin rem i (cur + 1) s')) /\
  (forall (S : Type) (fold : Z -> double -> S -> outcome S)
          (x y brks : list double) (n_bin : Z) (rem : nat) (i cur : Z) (s : S)
          (xv lower upper : double),
      rd x cur = Ok xv -> rd brks i = Ok lower -> rd brks (i + 1) = Ok upper ->
      dbl_ge xv lower = true -> in_bin brks n_bin i xv = false ->
      scan_while fold x y brks n_bin (Datatypes.S rem) i cur s = Ok (cur, s)).
Proof.
  cbv zeta. repeat split; try (vm_compute; reflexivity).
  - intros S fold x y brks n_bin rem i cur s xv yv Hx Hy Hna Hin.
    by apply (scan_while_in_bin fold x y brks n_bin rem i cur s xv yv).
  - intros S fold x y brks n_bin rem i cur s xv lower upper Hx Hlo Hup Hge Hin.
    by apply (scan_while_not_in_bin fold x y brks n_bin rem i cur s xv lower upper).
Qed.

(** ** Rules for the scan *)

Section ScanRules.
Context {S : Type}.
Variable enter : Z -> S -> outcome S.
Variable fold : Z -> double -> S -> outcome S.
Variables x y brks : list double.
Variables n_bin x_end_idx : Z.

(** One iteration on a sample below the lower border of the bin: the
    cursor moves on and nothing else happens. *)
Lemma scan_while_below (rem : nat) (i cur : Z) (s : S) (xv lower : double) :
  rd x cur = Ok xv -> rd brks i = Ok lower -> dbl_ge xv lower = false ->
  scan_while fold x y brks n_bin (Datatypes.S rem) i cur s =
  scan_while fold x y brks n_bin rem i (cur + 1) s.
Proof. intros Hx Hl Hge. simpl. rewrite Hx, Hl. run_bind. by rewrite Hge. Qed.

(** One iteration on a sample of the bin whose y value is missing: the
    cursor moves on and the state is kept. *)
Lemma scan_while_missing (rem : nat) (i cur : Z) (s : S) (xv : double) :
  rd x cur = Ok xv -> in_bin brks n_bin i xv = true -> rd y cur = Ok NA_REAL ->
  scan_while fold x y brks n_bin (Datatypes.S rem) i cur s =
  scan_while fold x y brks n_bin rem i (cur + 1) s.
Proof.
  intros Hx Hin Hy. unfold in_bin in Hin. simpl. rewrite Hx. run_bind.
  destruct (rd brks i) as [lower| |]; try discriminate.
  destruct (rd brks (i + 1)) as [upper| |]; try discriminate. run_bind.
  apply andb_true_iff in Hin as [Hge Hup]. unfold last_bin_idx.
  rewrite Hge, Hup, Hy. reflexivity.
Qed.

(** What holds of the state before the loop and is kept by every fold
    holds after the loop. *)
Lemma scan_while_partial (P : S -> Prop) (i : Z) :
  (forall v t t', P t -> fold i v t = Ok t' -> P t') ->
  forall (rem : nat) (cur : Z) (s : S) (cur' : Z) (s' : S),
    P s -> scan_while fold x y brks n_bin rem i cur s = Ok (cur', s') -> P s'.
Proof.
  intros Hfold. induction rem as [|r IH]; intros cur s cur' s' HP Hrun.
  - simpl in Hrun. by inversion Hrun; subst.
  - simpl in Hrun.
    apply bind_Ok in Hrun as (xv & _ & Hrun).
    apply bind_Ok in Hrun as (lower & _ & Hrun).
    destruct (dbl_ge xv lower); [|by eapply IH].
    apply bind_Ok in Hrun as (upper & _ & Hrun).
    destruct (_ || _); [|by inversion Hrun; subst].
    apply bind_Ok in Hrun as (yv & _ & Hrun).
    apply bind_Ok in Hrun as (s1 & Hs1 & Hrun).
    eapply IH; [|exact Hrun].
    destruct (negb (ISNA yv)); [by eapply Hfold | by inversion Hs1; subst].
Qed.

Lemma scan_partial (P : S -> Prop) (x_start_idx : Z) (s s' : S) :
  (forall i t t', P t -> enter i t = Ok t' -> P t') ->
  (forall i v t t', P t -> fold i v t = Ok t' -> P t') ->
  P s ->
  scan enter fold x y brks n_bin x_end_idx x_start_idx s = Ok s' -> P s'.
Proof.
  intros Henter Hfold HP Hrun. unfold scan in Hrun.
  apply bind_Ok in Hrun as ([cur t] & Hloop & Hrun). inversion Hrun; subst t.
  unfold for_range in Hloop.
  apply (for_loop_partial _ (fun _ st => P (snd st))) in Hloop; [done| |done].
  intros i [c u] [c' u'] _ Hu Hbody. simpl in *. unfold scan_bin in Hbody.
  apply bind_Ok in Hbody as (u1 & Hu1 & Hbody).
  eapply scan_while_partial; [apply Hfold | | exact Hbody]. by eapply Henter.
Qed.

(** The loop for bin [i] returns when the array accesses are in range and
    every fold it performs returns; folds happen only for samples of the
    window that pass the test of bin [i] and whose y value is not
    missing. *)
Lemma scan_while_total (P : S -> Prop) (i : Z) :
  0 <= i -> i + 1 < Z.of_nat (length brks) ->
  forall (rem : nat) (cur : Z),
    0 <= cur ->
    (rem <> 0%nat -> cur + Z.of_nat rem <= Z.of_nat (length x)
                     /\ cur + Z.of_nat rem <= Z.of_nat (length y)) ->
    (forall j xv yv t,
        cur <= j < cur + Z.of_nat rem ->
        rd x j = Ok xv -> rd y j = Ok yv ->
        in_bin brks n_bin i xv = true -> ISNA yv = false ->
        P t -> exists t', fold i yv t = Ok t' /\ P t') ->
    forall s, P s ->
      exists cur' s',
        scan_while fold x y brks n_bin rem i cur s = Ok (cur', s') /\ P s'
        /\ cur <= cur' <= cur + Z.of_nat rem.
Proof.
  intros Hi0 Hi1. induction rem as [|r IH]; intros cur Hcur Hlen Hfold s HP.
  - exists cur, s. simpl. repeat split; [done | lia | lia].
  - destruct Hlen as [Hlx Hly]; [done|].
    destruct (rd_total x cur) as [xv Hx]; [lia|].
    destruct (rd_total y cur) as [yv Hy]; [lia|].
    destruct (rd_total brks i) as [lower Hlo]; [lia|].
    destruct (rd_total brks (i + 1)) as [upper Hup]; [lia|].
    assert (Hnext : forall t, P t -> exists cur' s',
               scan_while fold x y brks n_bin r i (cur + 1) t = Ok (cur', s')
               /\ P s' /\ cur <= cur' <= cur + Z.of_nat (Datatypes.S r)).
    { intros t Ht.
      destruct (IH (cur + 1)) with (s := t) as (c' & s' & Hrun & Hs' & Hc');
        [lia | lia | | done |].
      - intros j xv' yv' u Hj. apply Hfold. lia.
      - exists c', s'. repeat split; [done | done | lia | lia]. }
    simpl. rewrite Hx, Hlo. run_bind.
    destruct (dbl_ge xv lower) eqn:Hge; [|by apply Hnext].
    rewrite Hup. run_bind. unfold last_bin_idx.
    destruct (dbl_lt xv upper || (dbl_eq xv upper && (i =? n_bin - 1))) eqn:Hin.
    + rewrite Hy. run_bind.
      destruct (ISNA yv) eqn:Hna; simpl negb; cbv iota.
      * run_bind. by apply Hnext.
      * destruct (Hfold cur xv yv s) as (t' & Hf & Ht'); try done; [lia| |].
        { unfold in_bin. rewrite Hlo, Hup, Hge, Hin. reflexivity. }
        rewrite Hf. run_bind. by apply Hnext.
    + exists cur, s. repeat split; [done | lia | lia].
Qed.

Lemma scan_total (P : S -> Prop) (x_start_idx : Z) :
  Z.of_nat (length brks) = n_bin + 1 ->
  0 <= x_start_idx ->
  x_end_idx < Z.of_nat (length x) -> x_end_idx < Z.of_nat (length y) ->
  (forall i t, 0 <= i < n_bin -> P t -> exists t', enter i t = Ok t' /\ P t') ->
  (forall i j xv yv t,
      0 <= i < n_bin -> x_start_idx <= j <= x_end_idx ->
      rd x j = Ok xv -> rd y j = Ok yv ->
      in_bin brks n_bin i xv = true -> ISNA yv = false ->
      P t -> exists t', fold i yv t = Ok t' /\ P t') ->
  forall s, P s ->
    exists s', scan enter fold x y brks n_bin x_end_idx x_start_idx s = Ok s'
               /\ P s'.
Proof.
  intros Hbrks Hstart Hlx Hly Henter Hfold s HP. unfold scan, for_range.
  destruct (for_loop_total (scan_bin enter fold x y brks n_bin x_end_idx)
              (fun _ st => x_start_idx <= fst st /\ P (snd st))
              (Z.to_nat n_bin) 0 (x_start_idx, s)) as ([c s'] & Hrun & _ & Hs').
  - intros i [cur t] Hi [Hc Ht]. simpl in Hc, Ht. unfold scan_bin.
    destruct (Henter i t) as (t1 & Ht1 & HP1); [lia | done |].
    rewrite Ht1. run_bind.
    destruct (scan_while_total P i) with
      (rem := Z.to_nat (x_end_idx + 1 - cur)) (cur := cur) (s := t1)
      as (c' & s' & Hrun & Hs' & Hc'); [lia | lia | lia | lia | | done |].
    + intros j xv yv u Hj. apply Hfold; lia.
    + exists (c', s'). split; [done|]. simpl. split; [lia | done].
  - simpl. split; [lia | done].
  - exists s'. rewrite Hrun. by run_bind.
Qed.
End ScanRules.

(** ** Lengths of the arrays *)

Lemma fold_max_length i v ans ans' :
  fold_max i v ans = Ok ans' -> length ans' = length ans.
Proof.
  unfold fold_max. intros H. apply bind_Ok in H as (a & _ & H).
  destruct (_ || _); [by eapply wr_length | by inversion H].
Qed.

Lemma fold_min_length i v ans ans' :
  fold_min i v ans = Ok ans' -> length ans' = length ans.
Proof.
  unfold fold_min. intros H. apply bind_Ok in H as (a & _ & H).
  destruct (_ || _); [by eapply wr_length | by inversion H].
Qed.

Lemma fold_sum_length i v ans ans' :
  fold_sum i v ans = Ok ans' -> length ans' = length ans.
Proof.
  unfold fold_sum. intros H. apply bind_Ok in H as (a & _ & H).
  destruct (ISNA a); by eapply wr_length.
Qed.

Lemma fold_mean_length i v ans c ans' c' :
  fold_mean i v (ans, c) = Ok (ans', c') ->
  length ans' = length ans /\ length c' = length c.
Proof.
  unfold fold_mean. intros H. apply bind_Ok in H as (a & Ha & H).
  apply bind_Ok in H as (k & _ & H). apply bind_Ok in H as (c1 & Hc1 & H).
  inversion H; subst. split; [by eapply fold_sum_length | by eapply wr_length].
Qed.

Lemma enter_mean_Ok i ans c ans' c' :
  enter_mean i (ans, c) = Ok (ans', c') -> ans' = ans /\ wr c i 0 = Ok c'.
Proof.
  unfold enter_mean. intros H. apply bind_Ok in H as (c1 & Hc1 & H).
  by inversion H; subst.
Qed.

Lemma divide_bin_length c i ans ans' :
  divide_bin c i ans = Ok ans' -> length ans' = length ans.
Proof.
  unfold divide_bin. intros H. apply bind_Ok in H as (k & _ & H).
  destruct (0 <? k); [|by inversion H].
  apply bind_Ok in H as (a & _ & H). by eapply wr_length.
Qed.

Lemma no_enter_Ok {S} (i : Z) (t t' : S) : no_enter i t = Ok t' -> t' = t.
Proof. unfold no_enter. by intros [= ->]. Qed.

Lemma for_range_length {A} (body : Z -> list A -> outcome (list A)) (n : Z)
  (l l' : list A) :
  (forall i t t', body i t = Ok t' -> length t' = length t) ->
  for_range n body l = Ok l' -> length l' = length l.
Proof.
  intros Hbody Hrun. unfold for_range in Hrun.
  apply (for_loop_partial _ (fun _ t => length t = length l)) in Hrun; [done| |done].
  intros i t t' _ Ht Hb. rewrite <- Ht. by eapply Hbody.
Qed.

Lemma dispatch_length (the_method : Z) (x y p_brks p_ans p_ans' : list double)
  (n_bin from_idx to_idx : Z) :
  dispatch the_method x y p_brks p_ans n_bin from_idx to_idx = Ok p_ans' ->
  length p_ans' = length p_ans.
Proof.
  unfold dispatch. intros H.
  destruct (the_method =? 2); [|destruct (the_method =? 3);
                                 [|destruct (the_method =? 4)]].
  - eapply (scan_partial _ _ _ _ _ _ _ (fun t => length t = length p_ans));
      [ intros i t t' Ht He; by apply (no_enter_Ok i) in He as -> | | reflexivity | exact H].
    intros i v t t' Ht Hf. rewrite <- Ht. by eapply fold_min_length.
  - eapply (scan_partial _ _ _ _ _ _ _ (fun t => length t = length p_ans));
      [ intros i t t' Ht He; by apply (no_enter_Ok i) in He as -> | | reflexivity | exact H].
    intros i v t t' Ht Hf. rewrite <- Ht. by eapply fold_sum_length.
  - unfold _bin_y_on_x_with_breaks_mean in H. cbv zeta in H.
    apply bind_Ok in H as ([a c] & Hscan & H).
    apply for_range_length in H; [|intros; by eapply divide_bin_length].
    rewrite H.
    eapply (scan_partial _ _ _ _ _ _ _ (fun t => length (fst t) = length p_ans))
      in Hscan; [exact Hscan | | | reflexivity].
    + intros i [t u] [t' u'] Ht He. apply enter_mean_Ok in He as [-> _]. exact Ht.
    + intros i v [t u] [t' u'] Ht Hf. apply fold_mean_length in Hf as [Hf _].
      simpl in *. congruence.
  - eapply (scan_partial _ _ _ _ _ _ _ (fun t => length t = length p_ans));
      [ intros i t t' Ht He; by apply (no_enter_Ok i) in He as -> | | reflexivity | exact H].
    intros i v t t' Ht Hf. rewrite <- Ht. by eapply fold_max_length.
Qed.

Lemma fill_step_length v i p p' : fill_step v i p = Ok p' -> length p' = length p.
Proof.
  unfold fill_step. intros H. apply bind_Ok in H as (a & _ & H).
  destruct (ISNA a); [by eapply wr_length | by inversion H].
Qed.

Lemma breaks_loop_length (bin_size v v' : double) (brks brks' : list double) (n : Z) :
  for_range n (breaks_step bin_size) (brks, v) = Ok (brks', v') ->
  length brks' = length brks.
Proof.
  intros Hrun. unfold for_range in Hrun.
  apply (for_loop_partial _ (fun _ st => length (fst st) = length brks)) in Hrun;
    [done| |done].
  intros i [b c] [b' c'] _ Hb Hstep. simpl in *. unfold breaks_step in Hstep.
  apply bind_Ok in Hstep as (b1 & Hw & Hstep). inversion Hstep; subst.
  rewrite <- Hb. by eapply wr_length.
Qed.

(** The breaks that [binYonX] settles on are one more than the bins. *)
Lemma define_breaks_length (breaks : list double) (nBins : Z)
  (binSize fromX toX : double) (shift n_bin : Z) (p_brks : list double) :
  define_breaks breaks nBins binSize fromX toX shift = Ok (n_bin, p_brks) ->
  Z.of_nat (length p_brks) = n_bin + 1.
Proof.
  unfold define_breaks. intros H. apply bind_Ok in H as (b0 & _ & H).
  destruct (negb (ISNA b0)).
  { destruct (_ <? 1); inversion H; subst. lia. }
  destruct (negb (nBins =? NA_INTEGER)).
  { destruct (nBins <=? 0); [discriminate|].
    apply bind_Ok in H as (len & Hlen & H). apply int_succ_Ok in Hlen as ->.
    apply bind_Ok in H as (brks & Hal & H). apply allocVector_Ok in Hal as [Hn ->].
    apply bind_Ok in H as (p & Hp & H). inversion H; subst.
    unfold _breaks_on_nBins in Hp. cbv zeta in Hp.
    apply bind_Ok in Hp as ([b c] & Hloop & Hp). inversion Hp; subst.
    apply breaks_loop_length in Hloop. rewrite Hloop, length_replicate. lia. }
  cbv zeta in H. destruct (dbl_lt binSize _); [discriminate|].
  apply bind_Ok in H as (n & _ & H).
  apply bind_Ok in H as (len & Hlen & H). apply int_succ_Ok in Hlen as ->.
  apply bind_Ok in H as (brks & Hal & H). apply allocVector_Ok in Hal as [Hn ->].
  apply bind_Ok in H as (p & Hp & H). inversion H; subst.
  unfold _breaks_on_binSize in Hp. cbv zeta in Hp.
  apply bind_Ok in Hp as ([b c] & Hloop & Hp).
  apply breaks_loop_length in Hloop. apply wr_length in Hp.
  rewrite Hp, Hloop, length_replicate. lia.
Qed.

(** The midpoints, cell by cell. *)
Lemma _bin_midPoint_spec (brks bin_mids mids : list double) (n_bin : Z) :
  _bin_midPoint brks bin_mids n_bin = Ok mids ->
  length mids = length bin_mids /\
  forall i : nat, Z.of_nat i < n_bin ->
    exists lower upper,
      brks !! i = Some lower /\ brks !! S i = Some upper /\
      mids !! i = Some (dbl_div (dbl_add lower upper) (double_of_int 2)).
Proof.
  unfold _bin_midPoint, for_range. intros Hrun.
  apply (for_loop_partial _ (fun k m =>
           length m = length bin_mids /\
           forall i : nat, Z.of_nat i < k ->
             exists lower upper,
               brks !! i = Some lower /\ brks !! S i = Some upper /\
               m !! i = Some (dbl_div (dbl_add lower upper) (double_of_int 2))))
    in Hrun.
  - destruct Hrun as [Hlen Hcells]. split; [done|].
    intros i Hi. apply Hcells. lia.
  - intros k m m' Hk [Hlen Hcells] Hstep. unfold midPoint_step in Hstep.
    apply bind_Ok in Hstep as (lower & Hlo & Hstep).
    apply bind_Ok in Hstep as (upper & Hup & Hstep).
    split; [rewrite <- Hlen; by eapply wr_length|].
    intros i Hi. destruct (decide (i = Z.to_nat k)) as [->|Hne].
    + exists lower, upper. apply rd_Ok in Hlo as [_ Hlo]. apply rd_Ok in Hup as [_ Hup].
      replace (Z.to_nat (k + 1)) with (S (Z.to_nat k)) in Hup by lia.
      split; [done|]. split; [done|]. by eapply wr_same.
    + destruct (Hcells i) as (lo & up & H1 & H2 & H3); [lia|].
      exists lo, up. split; [done|]. split; [done|].
      by rewrite (wr_other _ _ _ _ _ Hstep Hne).
  - split; [done|]. intros i Hi. lia.
Qed.

(** What a returning call returns: as many midpoints and aggregates as
    bins, each midpoint computed from the two breaks around it. *)
Lemma binYonX_result_shape (x y breaks : list double) (nBins : Z)
  (binSize fromX toX : double) (fromIdx toIdx shiftByHalfBinSize : Z)
  (initValue : double) (method : Z) (midpoints aggregates : list double) :
  binYonX x y breaks nBins binSize fromX toX fromIdx toIdx shiftByHalfBinSize
    initValue method = Ok (midpoints, aggregates) ->
  exists (n_bin : Z) (p_brks : list double),
    define_breaks breaks nBins binSize fromX toX shiftByHalfBinSize
      = Ok (n_bin, p_brks) /\
    Z.of_nat (length p_brks) = n_bin + 1 /\
    Z.of_nat (length midpoints) = n_bin /\
    Z.of_nat (length aggregates) = n_bin /\
    forall i : nat, Z.of_nat i < n_bin ->
      exists lower upper,
        p_brks !! i = Some lower /\ p_brks !! S i = Some upper /\
        midpoints !! i = Some (dbl_div (dbl_add lower upper) (double_of_int 2)).
Proof.
  unfold binYonX. cbv zeta. intros H.
  apply bind_Ok in H as ([] & _ & H).
  apply bind_Ok in H as ([n_bin p_brks] & Hdef & H).
  exists n_bin, p_brks. split; [done|].
  split; [by eapply define_breaks_length|].
  unfold bin_on_breaks in H.
  apply bind_Ok in H as (ans & Hans & H). apply allocVector_Ok in Hans as [Hn ->].
  apply bind_Ok in H as (p1 & Hp1 & H).
  apply for_range_length in Hp1; [|intros; by eapply wr_length].
  apply bind_Ok in H as (p2 & Hp2 & H). apply dispatch_length in Hp2.
  apply bind_Ok in H as (p3 & Hp3 & H).
  assert (Hlen3 : length p3 = length p2).
  { destruct (negb (ISNA initValue)); [|by inversion Hp3].
    apply for_range_length in Hp3; [done|]. intros; by eapply fill_step_length. }
  apply bind_Ok in H as (m0 & Hm0 & H). apply allocVector_Ok in Hm0 as [_ ->].
  apply bind_Ok in H as (m & Hm & H). inversion H; subst.
  apply _bin_midPoint_spec in Hm as [Hlm Hcells].
  rewrite length_replicate in *.
  split; [lia|]. split; [lia|]. exact Hcells.
Qed.

(** ** The folds: they return, keep the length and touch one cell *)

Lemma wr_touches {A} (t : list A) (i : Z) (v : A) :
  0 <= i < Z.of_nat (length t) ->
  exists t', wr t i v = Ok t' /\ touches_only i t t'.
Proof.
  intros Hi. exists (<[Z.to_nat i := v]> t). split; [by apply wr_total|].
  split; [apply length_insert|]. intros j Hj. by apply list_lookup_insert_ne.
Qed.

Lemma touches_refl {A} (i : Z) (t : list A) : touches_only i t t.
Proof. by split. Qed.

Lemma fold_max_total (i : Z) (v : double) (t : list double) :
  0 <= i < Z.of_nat (length t) ->
  exists t', fold_max i v t = Ok t' /\ touches_only i t t'.
Proof.
  intros Hi. unfold fold_max. destruct (rd_total t i Hi) as [a ->]. run_bind.
  destruct (_ || _); [by apply wr_touches | eauto using touches_refl].
Qed.

Lemma fold_min_total (i : Z) (v : double) (t : list double) :
  0 <= i < Z.of_nat (length t) ->
  exists t', fold_min i v t = Ok t' /\ touches_only i t t'.
Proof.
  intros Hi. unfold fold_min. destruct (rd_total t i Hi) as [a ->]. run_bind.
  destruct (_ || _); [by apply wr_touches | eauto using touches_refl].
Qed.

Lemma fold_sum_total (i : Z) (v : double) (t : list double) :
  0 <= i < Z.of_nat (length t) ->
  exists t', fold_sum i v t = Ok t' /\ touches_only i t t'.
Proof.
  intros Hi. unfold fold_sum. destruct (rd_total t i Hi) as [a ->]. run_bind.
  destruct (ISNA a); by apply wr_touches.
Qed.

Lemma fold_mean_total (i : Z) (v : double) (t : list double) (c : list Z) :
  0 <= i < Z.of_nat (length t) -> 0 <= i < Z.of_nat (length c) ->
  exists t' c', fold_mean i v (t, c) = Ok (t', c')
                /\ touches_only i t t' /\ touches_only i c c'.
Proof.
  intros Hi Hc. unfold fold_mean.
  destruct (fold_sum_total i v t Hi) as (t' & -> & Ht'). run_bind.
  destruct (rd_total c i Hc) as [k ->]. run_bind.
  destruct (wr_touches c i (k + 1) Hc) as (c' & -> & Hc'). run_bind.
  by exists t', c'.
Qed.

Lemma divide_bin_total (c : list Z) (i : Z) (t : list double) :
  0 <= i < Z.of_nat (length t) -> 0 <= i < Z.of_nat (length c) ->
  exists t', divide_bin c i t = Ok t' /\ touches_only i t t'
             /\ (c !! Z.to_nat i = Some 0 -> t' = t).
Proof.
  intros Hi Hc. unfold divide_bin.
  destruct (rd_total c i Hc) as [k Hk]. rewrite Hk. run_bind.
  apply rd_Ok in Hk as [_ Hk].
  destruct (Z.ltb_spec 0 k).
  - destruct (rd_total t i Hi) as [a ->]. run_bind.
    destruct (wr_touches t i (dbl_div a (double_of_int k)) Hi) as (t' & -> & Ht').
    exists t'. split; [done|]. split; [done|]. intros Hz. rewrite Hz in Hk.
    inversion Hk. lia.
  - exists t. split; [done|]. split; [apply touches_refl | done].
Qed.

(** ** The reducers return, and leave alone the bins without a usable sample *)

Section Reducers.
Variables x y brks ans : list double.
Variables n_bin x_start_idx x_end_idx : Z.
(** The bins to watch: all their samples in the window are missing. *)
Variable watched : nat -> Prop.

Hypothesis brks_length : Z.of_nat (length brks) = n_bin + 1.
Hypothesis ans_length : Z.of_nat (length ans) = n_bin.
Hypothesis start_nonneg : 0 <= x_start_idx.
Hypothesis end_in_x : x_end_idx < Z.of_nat (length x).
Hypothesis end_in_y : x_end_idx < Z.of_nat (length y).
Hypothesis watched_missing :
  forall (b : nat) (j : Z) (xv : double),
    watched b -> x_start_idx <= j <= x_end_idx ->
    rd x j = Ok xv -> in_bin brks n_bin (Z.of_nat b) xv = true ->
    rd y j = Ok NA_REAL.

Lemma kept_touch (i : Z) (t t' : list double) :
  0 <= i -> ~ watched (Z.to_nat i) -> (kept watched ans) t -> touches_only i t t' -> (kept watched ans) t'.
Proof.
  intros Hi Hw [Hlen Hcells] [Hlen' Hother]. split; [congruence|].
  intros b Hb. rewrite Hother; [by apply Hcells|]. by intros ->.
Qed.

(** A sample that is folded into bin [i] shows that [i] is not watched. *)
Lemma folded_not_watched (i j : Z) (xv yv : double) :
  0 <= i -> x_start_idx <= j <= x_end_idx ->
  rd x j = Ok xv -> rd y j = Ok yv ->
  in_bin brks n_bin i xv = true -> ISNA yv = false ->
  ~ watched (Z.to_nat i).
Proof.
  intros Hi Hj Hx Hy Hin Hna Hw.
  rewrite (watched_missing (Z.to_nat i) j xv) in Hy; try done.
  - inversion Hy; subst. discriminate.
  - by rewrite Z2Nat.id.
Qed.

Lemma simple_reducer_total (fold : Z -> double -> list double -> outcome (list double)) :
  (forall i v t, 0 <= i < Z.of_nat (length t) ->
                 exists t', fold i v t = Ok t' /\ touches_only i t t') ->
  exists ans',
    scan no_enter fold x y brks n_bin x_end_idx x_start_idx ans = Ok ans' /\ (kept watched ans) ans'.
Proof.
  intros Hfold.
  apply (scan_total no_enter fold x y brks n_bin x_end_idx (kept watched ans)); try done.
  - intros i t _ Ht. by exists t.
  - intros i j xv yv t Hi Hj Hx Hy Hin Hna Ht.
    destruct (Hfold i yv t) as (t' & Hf & Ht'); [destruct Ht; lia|].
    exists t'. split; [done|].
    eapply kept_touch; [| |exact Ht|exact Ht']; [lia|].
    by eapply folded_not_watched; [lia|..].
Qed.

Lemma mean_reducer_total :
  exists ans',
    _bin_y_on_x_with_breaks_mean x y brks ans n_bin x_start_idx x_end_idx = Ok ans'
    /\ (kept watched ans) ans'.
Proof.
  unfold _bin_y_on_x_with_breaks_mean. cbv zeta.
  destruct (scan_total enter_mean fold_mean x y brks n_bin x_end_idx (kept_mean watched ans)
              x_start_idx) with (s := (ans, replicate (Z.to_nat n_bin) 0))
    as ([t c] & Hscan & Ht & Hc & Hzero); try done.
  - intros i [t c] Hi (Ht & Hc & Hzero). simpl in *. unfold enter_mean.
    destruct (wr_touches c i 0) as (c' & Hw & Hlen & Hother); [lia|].
    rewrite Hw. run_bind.
    exists (t, c'). split; [done|]. split; [done|]. simpl. split; [congruence|].
    intros b Hb Hbn. destruct (decide (b = Z.to_nat i)) as [->|Hne].
    + by eapply wr_same.
    + rewrite Hother by done. by apply Hzero.
  - intros i j xv yv [t c] Hi Hj Hx Hy Hin Hna (Ht & Hc & Hzero). simpl in *.
    destruct (fold_mean_total i yv t c) as (t' & c' & Hf & Ht' & Hc');
      [destruct Ht; lia | lia |].
    exists (t', c'). split; [done|].
    assert (Hnw : ~ watched (Z.to_nat i)) by (by eapply folded_not_watched; [lia|..]).
    split; [|split]; simpl.
    + eapply kept_touch; [| |exact Ht|exact Ht']; [lia|done].
    + destruct Hc'. congruence.
    + intros b Hb Hbn. destruct Hc' as [_ Hother].
      rewrite Hother; [by apply Hzero|]. by intros ->.
  - split; [by split|]. simpl. rewrite length_replicate.
    split; [lia|]. intros b _ Hb. apply lookup_replicate_2. lia.
  - rewrite Hscan. run_bind. simpl in *. unfold for_range.
    destruct (for_loop_total (divide_bin c) (fun _ u => kept watched ans u)
                (Z.to_nat n_bin) 0 t) as (t' & Hrun & Ht'); [|done|by exists t'].
    intros i u Hi Hu.
    destruct (divide_bin_total c i u) as (u' & Hd & Hu' & Hsame);
      [destruct Hu; lia | lia |].
    exists u'. split; [done|].
    destruct (decide (c !! Z.to_nat i = Some 0)) as [Hz|Hz].
    + by rewrite Hsame.
    + eapply kept_touch; [| |exact Hu|exact Hu']; [lia|].
      intros Hw. apply Hz, Hzero; [done|lia].
Qed.
End Reducers.

Lemma dispatch_total (the_method : Z) (x y brks ans : list double)
  (n_bin x_start_idx x_end_idx : Z) (watched : nat -> Prop) :
  Z.of_nat (length brks) = n_bin + 1 ->
  Z.of_nat (length ans) = n_bin ->
  0 <= x_start_idx ->
  x_end_idx < Z.of_nat (length x) ->
  x_end_idx < Z.of_nat (length y) ->
  (forall (b : nat) (j : Z) (xv : double),
      watched b -> x_start_idx <= j <= x_end_idx ->
      rd x j = Ok xv -> in_bin brks n_bin (Z.of_nat b) xv = true ->
      rd y j = Ok NA_REAL) ->
  exists ans',
    dispatch the_method x y brks ans n_bin x_start_idx x_end_idx = Ok ans' /\
    length ans' = length ans /\
    forall b, watched b -> ans' !! b = ans !! b.
Proof.
  intros Hb Ha Hs Hx Hy Hw. unfold dispatch.
  destruct (the_method =? 2); [|destruct (the_method =? 3);
                                 [|destruct (the_method =? 4)]].
  - by apply simple_reducer_total, fold_min_total.
  - by apply simple_reducer_total, fold_sum_total.
  - by apply mean_reducer_total.
  - by apply simple_reducer_total, fold_max_total.
Qed.

Lemma define_breaks_nonneg (breaks : list double) (nBins : Z)
  (binSize fromX toX : double) (shift n_bin : Z) (p_brks : list double) :
  define_breaks breaks nBins binSize fromX toX shift = Ok (n_bin, p_brks) ->
  0 <= n_bin.
Proof.
  unfold define_breaks. intros H. apply bind_Ok in H as (b0 & _ & H).
  destruct (negb (ISNA b0)).
  { destruct (Z.ltb_spec (Z.of_nat (length breaks) - 1) 1); inversion H; subst. lia. }
  destruct (negb (nBins =? NA_INTEGER)).
  { destruct (Z.leb_spec nBins 0); [discriminate|].
    apply bind_Ok in H as (len & _ & H). apply bind_Ok in H as (brks & _ & H).
    apply bind_Ok in H as (p & _ & H). inversion H; subst. lia. }
  cbv zeta in H. destruct (dbl_lt binSize _); [discriminate|].
  apply bind_Ok in H as (n & _ & H). apply bind_Ok in H as (len & _ & H).
  apply bind_Ok in H as (brks & _ & H). apply bind_Ok in H as (p & Hp & H).
  inversion H; subst. unfold _breaks_on_binSize in Hp. cbv zeta in Hp.
  apply bind_Ok in Hp as ([b c] & _ & Hp). apply wr_Ok in Hp as [Hn _]. lia.
Qed.

Lemma init_loop_spec (n : Z) :
  for_range n (fun i p => wr p i NA_REAL) (replicate (Z.to_nat n) NA_REAL)
  = Ok (replicate (Z.to_nat n) NA_REAL).
Proof.
  unfold for_range.
  destruct (for_loop_total (fun i p => wr p i NA_REAL)
              (fun _ p => p = replicate (Z.to_nat n) NA_REAL)
              (Z.to_nat n) 0 (replicate (Z.to_nat n) NA_REAL))
    as (p & Hrun & ->); [|done|done].
  intros i t Hi ->. rewrite wr_total by (rewrite length_replicate; lia).
  eexists; split; [reflexivity|]. apply insert_replicate.
Qed.

Lemma fill_loop_total (init_value : double) (n : Z) (p : list double) :
  Z.of_nat (length p) = n ->
  exists p', for_range n (fill_step init_value) p = Ok p' /\ length p' = length p.
Proof.
  intros Hn. unfold for_range.
  apply (for_loop_total _ (fun _ t => length t = length p)); [|done].
  intros i t Hi Ht. unfold fill_step.
  destruct (rd_total t i) as [v ->]; [lia|]. run_bind.
  destruct (ISNA v); [|by exists t].
  rewrite wr_total by lia. eexists; split; [reflexivity|]. by rewrite length_insert.
Qed.

Lemma _bin_midPoint_total (brks bin_mids : list double) (n_bin : Z) :
  Z.of_nat (length brks) = n_bin + 1 -> Z.of_nat (length bin_mids) = n_bin ->
  exists mids, _bin_midPoint brks bin_mids n_bin = Ok mids.
Proof.
  intros Hb Hm. unfold _bin_midPoint, for_range.
  destruct (for_loop_total (midPoint_step brks)
              (fun _ t => length t = length bin_mids) (Z.to_nat n_bin) 0 bin_mids)
    as (m & Hrun & _); [|done|by exists m].
  intros i t Hi Ht. unfold midPoint_step.
  destruct (rd_total brks i) as [lower ->]; [lia|].
  destruct (rd_total brks (i + 1)) as [upper ->]; [lia|]. run_bind.
  rewrite wr_total by lia. eexists; split; [reflexivity|]. by rewrite length_insert.
Qed.

(** With breaks for [n_bin] bins and a window inside x and y, the binning
    returns; without a fill value, a bin whose samples in the window are all
    missing is missing in the result. *)
Lemma bin_on_breaks_total (x y : list double) (n_bin : Z) (p_brks : list double)
  (from_idx to_idx : Z) (init_value : double) (the_method : Z)
  (watched : nat -> Prop) :
  Z.of_nat (length p_brks) = n_bin + 1 -> 0 <= n_bin ->
  0 <= from_idx ->
  to_idx < Z.of_nat (length x) -> to_idx < Z.of_nat (length y) ->
  (forall (b : nat) (j : Z) (xv : double),
      watched b -> from_idx <= j <= to_idx ->
      rd x j = Ok xv -> in_bin p_brks n_bin (Z.of_nat b) xv = true ->
      rd y j = Ok NA_REAL) ->
  exists mids aggs,
    bin_on_breaks x y n_bin p_brks from_idx to_idx init_value the_method
    = Ok (mids, aggs) /\
    (ISNA init_value = true ->
     forall b, watched b -> Z.of_nat b < n_bin -> aggs !! b = Some NA_REAL).
Proof.
  intros Hb Hn Hf Hx Hy Hw. unfold bin_on_breaks.
  rewrite allocVector_total by done. run_bind.
  rewrite init_loop_spec. run_bind.
  destruct (dispatch_total the_method x y p_brks (replicate (Z.to_nat n_bin) NA_REAL)
              n_bin from_idx to_idx watched) as (p2 & -> & Hlen & Hkept); try done.
  { rewrite length_replicate. lia. }
  run_bind. rewrite length_replicate in Hlen.
  destruct (_bin_midPoint_total p_brks (replicate (Z.to_nat n_bin) NA_REAL) n_bin)
    as (m & Hm); [done | rewrite length_replicate; lia |].
  destruct (ISNA init_value) eqn:Hna; simpl negb; cbv iota.
  - run_bind. rewrite Hm. run_bind. exists m, p2. split; [done|].
    intros _ b Hwb Hbn. rewrite Hkept by done. apply lookup_replicate_2. lia.
  - destruct (fill_loop_total init_value n_bin p2) as (p3 & -> & _); [lia|].
    run_bind. rewrite Hm. run_bind. exists m, p3. split; [done | discriminate].
Qed.

(** A call returns when the index checks pass, the breaks are defined and y
    reaches the end of the window. *)
Lemma binYonX_returns (x y breaks : list double) (nBins : Z)
  (binSize fromX toX : double) (fromIdx toIdx shiftByHalfBinSize : Z)
  (initValue : double) (method : Z) (n_bin : Z) (p_brks : list double) :
  check_indices x fromIdx toIdx = Ok tt ->
  define_breaks breaks nBins binSize fromX toX shiftByHalfBinSize
    = Ok (n_bin, p_brks) ->
  toIdx < Z.of_nat (length y) ->
  exists midpoints aggregates,
    binYonX x y breaks nBins binSize fromX toX fromIdx toIdx shiftByHalfBinSize
      initValue method = Ok (midpoints, aggregates).
Proof.
  intros Hc Hd Hy. unfold binYonX. cbv zeta.
  rewrite Hc, Hd. run_bind. apply check_indices_Ok in Hc.
  destruct (bin_on_breaks_total x y n_bin p_brks fromIdx toIdx initValue method
              (fun _ => False)) as (m & a & Hrun & _);
    [by eapply define_breaks_length | by eapply define_breaks_nonneg
     | lia | lia | done | done | by exists m, a].
Qed.

(** C2: a call of binYonX that returns was given or has generated
    [n_bin + 1] breaks; the midpoints and the aggregates it returns have
    length [n_bin] each, and midpoint i is (breaks[i] + breaks[i+1]) / 2
    as the doubles give it.  A call returns when the index checks pass, the
    breaks are defined and y reaches the end of the window. *)
Theorem binYonX_midpoints_and_lengths (x y breaks : list double) (nBins : Z)
  (binSize fromX toX : double) (fromIdx toIdx shiftByHalfBinSize : Z)
  (initValue : double) (method : Z) :
  let call := binYonX x y breaks nBins binSize fromX toX fromIdx toIdx
                shiftByHalfBinSize initValue method in
  let defined := define_breaks breaks nBins binSize fromX toX shiftByHalfBinSize in
  (forall midpoints aggregates : list double,
      call = Ok (midpoints, aggregates) ->
      exists (n_bin : Z) (p_brks : list double),
        defined = Ok (n_bin, p_brks) /\
        Z.of_nat (length p_brks) = n_bin + 1 /\
        Z.of_nat (length midpoints) = n_bin /\
        Z.of_nat (length aggregates) = n_bin /\
        forall i : nat, Z.of_nat i < n_bin ->
          exists lower upper,
            p_brks !! i = Some lower /\ p_brks !! S i = Some upper /\
            midpoints !! i =
              Some (dbl_div (dbl_add lower upper) (double_of_int 2))) /\
  (forall (n_bin : Z) (p_brks : list double),
      check_indices x fromIdx toIdx = Ok tt ->
      defined = Ok (n_bin, p_brks) ->
      toIdx < Z.of_nat (length y) ->
      exists midpoints aggregates, call = Ok (midpoints, aggregates)).
Proof.
  cbv zeta. split.
  - intros midpoints aggregates. apply binYonX_result_shape.
  - intros n_bin p_brks. apply binYonX_returns.
Qed.

(** Four bins over [0,6] in bin-count mode: four midpoints, four sums. *)
Lemma binYonX_midpoints_and_lengths_witness :
  exists midpoints aggregates : list double,
    binYonX (nums [1; 2; 3; 4]%float) (nums [10; 20; 30; 40]%float) [NA_REAL]
      4 NA_REAL (Num 0) (Num 6) 0 3 0 NA_REAL 3 = Ok (midpoints, aggregates) /\
    Z.of_nat (length midpoints) = 4 /\ Z.of_nat (length aggregates) = 4 /\
    midpoints !! 1%nat = Some (Num 2.25).
Proof.
  pose proof (binYonX_midpoints_and_lengths
                (nums [1; 2; 3; 4]%float) (nums [10; 20; 30; 40]%float) [NA_REAL]
                4 NA_REAL (Num 0) (Num 6) 0 3 0 NA_REAL 3) as [Hshape Hret].
  destruct (Hret 4 (nums [0; 1.5; 3; 4.5; 6]%float)) as (m & a & Hrun);
    [vm_compute; reflexivity | vm_compute; reflexivity | simpl; lia |].
  exists m, a. split; [exact Hrun|].
  destruct (Hshape m a Hrun) as (n & b & Hdef & _ & Hm & Ha & Hmid).
  assert (Hnb : (n, b) = (4, nums [0; 1.5; 3; 4.5; 6]%float)).
  { assert (E : Ok (n, b) = Ok (4, nums [0; 1.5; 3; 4.5; 6]%float)).
    { rewrite <- Hdef. vm_compute. reflexivity. }
    by inversion E. }
  pose proof (f_equal fst Hnb) as Hn1. pose proof (f_equal snd Hnb) as Hb1.
  simpl in Hn1, Hb1. subst b. repeat split; [lia | lia |].
  destruct (Hmid 1%nat) as (lo & up & Hlo & Hup & ->); [lia|].
  inversion Hlo; inversion Hup; subst. vm_compute. reflexivity.
Defined.

(** ** Missing values *)

Lemma divide_bin_zero_count (el_count : list Z) (i : Z) (ans : list double) (c : Z) :
  rd el_count i = Ok c -> c <= 0 -> divide_bin el_count i ans = Ok ans.
Proof.
  intros Hc Hle. unfold divide_bin. rewrite Hc. run_bind.
  destruct (Z.ltb_spec 0 c); [lia | done].
Qed.

(** C6: the four reducers skip a sample whose y value is missing: in the
    example y=[NA,20,30,40] bin 0 is 20 under max, min, sum and mean; in
    the loop of any reducer such a sample moves the cursor and leaves the
    state alone; a bin whose samples are all missing stays missing in the
    result of binYonX, for every method; and the mean leaves alone a bin
    whose counter is not above zero instead of dividing by it. *)
Theorem missing_values_skipped :
  (let x := nums [1; 2; 3; 4]%float in
   let y := NA_REAL :: nums [20; 30; 40]%float in
   let brks := nums [1; 3; 5]%float in
   binYonX x y brks NA_INTEGER NA_REAL NA_REAL NA_REAL 0 3 0 NA_REAL 1 =
     Ok (nums [2; 4]%float, nums [20; 40]%float) /\
   binYonX x y brks NA_INTEGER NA_REAL NA_REAL NA_REAL 0 3 0 NA_REAL 2 =
     Ok (nums [2; 4]%float, nums [20; 30]%float) /\
   binYonX x y brks NA_INTEGER NA_REAL NA_REAL NA_REAL 0 3 0 NA_REAL 3 =
     Ok (nums [2; 4]%float, nums [20; 70]%float) /\
   binYonX x y brks NA_INTEGER NA_REAL NA_REAL NA_REAL 0 3 0 NA_REAL 4 =
     Ok (nums [2; 4]%float, nums [20; 35]%float)) /\
  (forall (S : Type) (fold : Z -> double -> S -> outcome S)
          (x y brks : list double) (n_bin : Z) (rem : nat) (i cur : Z) (s : S)
          (xv : double),
      rd x cur = Ok xv -> in_bin brks n_bin i xv = true -> rd y cur = Ok NA_REAL ->
      scan_while fold x y brks n_bin (Datatypes.S rem) i cur s =
      scan_while fold x y brks n_bin rem i (cur + 1) s) /\
  (forall (x y breaks : list double) (nBins : Z) (binSize fromX toX : double)
          (fromIdx toIdx shiftByHalfBinSize method n_bin : Z)
          (p_brks : list double) (b : nat),
      check_indices x fromIdx toIdx = Ok tt ->
      define_breaks breaks nBins binSize fromX toX shiftByHalfBinSize
        = Ok (n_bin, p_brks) ->
      toIdx < Z.of_nat (length y) ->
      Z.of_nat b < n_bin ->
      (forall (j : Z) (xv : double),
          fromIdx <= j <= toIdx -> rd x j = Ok xv ->
          in_bin p_brks n_bin (Z.of_nat b) xv = true -> rd y j = Ok NA_REAL) ->
      exists midpoints aggregates,
        binYonX x y breaks nBins binSize fromX toX fromIdx toIdx
          shiftByHalfBinSize NA_REAL method = Ok (midpoints, aggregates) /\
        aggregates !! b = Some NA_REAL) /\
  (forall (el_count : list Z) (i : Z) (ans : list double) (c : Z),
      rd el_count i = Ok c -> c <= 0 -> divide_bin el_count i ans = Ok ans).
Proof.
  split; [cbv zeta; repeat split; vm_compute; reflexivity|].
  split; [intros; by eapply scan_while_missing|].
  split; [|apply divide_bin_zero_count].
  intros x y breaks nBins binSize fromX toX fromIdx toIdx shift method n_bin
    p_brks b Hc Hd Hy Hb Hmissing.
  unfold binYonX. cbv zeta. rewrite Hc, Hd. run_bind. apply check_indices_Ok in Hc.
  destruct (bin_on_breaks_total x y n_bin p_brks fromIdx toIdx NA_REAL method
              (fun b' => b' = b)) as (m & a & Hrun & Hna);
    [by eapply define_breaks_length | by eapply define_breaks_nonneg
     | lia | lia | done | | ].
  - intros b' j xv -> Hj Hx Hin. by eapply Hmissing.
  - exists m, a. split; [done|]. by apply Hna.
Qed.

(** With y=[NA,NA,30,40] both samples of bin 0 are missing: its mean is NA. *)
Lemma missing_values_skipped_witness :
  exists midpoints aggregates,
    binYonX (nums [1; 2; 3; 4]%float) (NA_REAL :: NA_REAL :: nums [30; 40]%float)
      (nums [1; 3; 5]%float) NA_INTEGER NA_REAL NA_REAL NA_REAL 0 3 0 NA_REAL 4
    = Ok (midpoints, aggregates) /\
    aggregates !! 0%nat = Some NA_REAL.
Proof.
  apply (proj1 (proj2 (proj2 missing_values_skipped))
           (nums [1; 2; 3; 4]%float) (NA_REAL :: NA_REAL :: nums [30; 40]%float)
           (nums [1; 3; 5]%float) NA_INTEGER NA_REAL NA_REAL NA_REAL 0 3 0 4
           2 (nums [1; 3; 5]%float) 0%nat);
    [vm_compute; reflexivity | vm_compute; reflexivity | simpl; lia | lia |].
  intros j xv Hj Hx Hin.
  assert (Hcases : j = 0 \/ j = 1 \/ j = 2 \/ j = 3) by lia.
  destruct Hcases as [-> | [-> | [-> | ->]]]; vm_compute in Hx;
    inversion Hx; subst xv; try reflexivity; vm_compute in Hin; discriminate.
Defined.

(** ** Samples below the first break *)

Section BelowFirstBreak.
Context {S : Type}.
Variable enter : Z -> S -> outcome S.
Variable fold : Z -> double -> S -> outcome S.
Variables x y brks : list double.
Variables n_bin x_end_idx : Z.

(** [k] samples below the lower border of bin [i] are passed over. *)
Lemma scan_while_skip_prefix (lower : double) (i : Z) (k rem : nat) :
  rd brks i = Ok lower ->
  forall (cur : Z) (s : S),
    (forall j, cur <= j < cur + Z.of_nat k ->
               exists xv, rd x j = Ok xv /\ dbl_lt xv lower = true) ->
    scan_while fold x y brks n_bin (k + rem) i cur s =
    scan_while fold x y brks n_bin rem i (cur + Z.of_nat k) s.
Proof.
  intros Hlo. induction k as [|k IH]; intros cur s Hlow.
  - simpl. f_equal. lia.
  - destruct (Hlow cur) as (xv & Hx & Hlt); [lia|].
    replace (Datatypes.S k + rem)%nat with (Datatypes.S (k + rem)) by lia.
    rewrite (scan_while_below fold x y brks n_bin _ i cur s xv lower Hx Hlo)
      by (by apply dbl_lt_not_ge).
    rewrite IH; [f_equal; lia|]. intros j Hj. apply Hlow. lia.
Qed.

(** Starting the window after the samples below the first break gives the
    same scan. *)
Lemma scan_skip_low (first_break : double) (x_start_idx k : Z) (s : S) :
  rd brks 0 = Ok first_break ->
  x_start_idx <= k <= x_end_idx + 1 ->
  (forall j, x_start_idx <= j < k ->
             exists xv, rd x j = Ok xv /\ dbl_lt xv first_break = true) ->
  scan enter fold x y brks n_bin x_end_idx x_start_idx s =
  scan enter fold x y brks n_bin x_end_idx k s.
Proof.
  intros Hb Hk Hlow. unfold scan, for_range.
  destruct (Z.to_nat n_bin) as [|m]; [reflexivity|].
  cbn [for_loop].
  assert (Hfirst : scan_bin enter fold x y brks n_bin x_end_idx 0 (x_start_idx, s)
                   = scan_bin enter fold x y brks n_bin x_end_idx 0 (k, s)).
  { unfold scan_bin. destruct (enter 0 s) as [s1| |]; try reflexivity. run_bind.
    replace (Z.to_nat (x_end_idx + 1 - x_start_idx))
      with (Z.to_nat (k - x_start_idx) + Z.to_nat (x_end_idx + 1 - k))%nat by lia.
    rewrite (scan_while_skip_prefix first_break) by
      (try done; intros j Hj; apply Hlow; lia).
    f_equal. lia. }
  by rewrite Hfirst.
Qed.
End BelowFirstBreak.

Lemma dispatch_skip_low (the_method : Z) (x y brks ans : list double)
  (n_bin x_start_idx x_end_idx k : Z) (first_break : double) :
  rd brks 0 = Ok first_break ->
  x_start_idx <= k <= x_end_idx + 1 ->
  (forall j, x_start_idx <= j < k ->
             exists xv, rd x j = Ok xv /\ dbl_lt xv first_break = true) ->
  dispatch the_method x y brks ans n_bin x_start_idx x_end_idx =
  dispatch the_method x y brks ans n_bin k x_end_idx.
Proof.
  intros Hb Hk Hlow. unfold dispatch, _bin_y_on_x_with_breaks_min,
    _bin_y_on_x_with_breaks_sum, _bin_y_on_x_with_breaks_mean,
    _bin_y_on_x_with_breaks_max. cbv zeta.
  by rewrite !(scan_skip_low _ _ x y brks n_bin x_end_idx first_break
                 x_start_idx k _ Hb Hk Hlow).
Qed.

Lemma check_indices_skip_low (x : list double) (from_idx to_idx k : Z) :
  0 <= from_idx <= k -> k <= to_idx ->
  check_indices x from_idx to_idx = check_indices x k to_idx.
Proof.
  intros Hf Hk. unfold check_indices.
  destruct (Z.ltb_spec from_idx 0), (Z.ltb_spec k 0), (Z.ltb_spec to_idx 0),
    (Z.ltb_spec to_idx from_idx), (Z.ltb_spec to_idx k); simpl; try lia; reflexivity.
Qed.

(** Samples at the start of the window whose x value is below the first
    break: the call is the call whose window starts after them. *)
Lemma binYonX_skip_low (x y breaks : list double)
  (nBins : Z) (binSize fromX toX : double) (fromIdx toIdx shiftByHalfBinSize : Z)
  (initValue : double) (method : Z)
  (n_bin : Z) (p_brks : list double) (first_break : double) (k : Z) :
  define_breaks breaks nBins binSize fromX toX shiftByHalfBinSize
    = Ok (n_bin, p_brks) ->
  rd p_brks 0 = Ok first_break ->
  0 <= fromIdx <= k -> k <= toIdx ->
  (forall j, fromIdx <= j < k ->
             exists xv, rd x j = Ok xv /\ dbl_lt xv first_break = true) ->
  binYonX x y breaks nBins binSize fromX toX fromIdx toIdx shiftByHalfBinSize
    initValue method =
  binYonX x y breaks nBins binSize fromX toX k toIdx shiftByHalfBinSize
    initValue method.
Proof.
  intros Hd Hb Hf Hk Hlow.
  unfold binYonX. cbv zeta. rewrite (check_indices_skip_low x fromIdx toIdx k) by done.
  destruct (check_indices x k toIdx) as [[]| |]; try reflexivity. run_bind.
  rewrite Hd. run_bind. unfold bin_on_breaks.
  destruct (allocVector n_bin) as [ans| |]; try reflexivity. run_bind.
  destruct (for_range n_bin _ ans) as [p| |]; try reflexivity. run_bind.
  by rewrite (dispatch_skip_low method x y p_brks p n_bin fromIdx toIdx k first_break)
    by (try done; lia).
Qed.


(** * Further properties of the code *)

(** ** Which arguments a mode reads *)

(** Explicit breaks take precedence: when the first break is not missing,
    nBins, binSize, fromX, toX and the shift are ignored; and when it is
    missing and nBins is given, binSize is ignored. *)
Theorem binYonX_mode_precedence (x y breaks : list double)
  (fromIdx toIdx : Z) (initValue : double) (method : Z) :
  (forall (first_break : double) (nBins nBins' : Z)
          (binSize binSize' fromX fromX' toX toX' : double) (shift shift' : Z),
      rd breaks 0 = Ok first_break -> ISNA first_break = false ->
      binYonX x y breaks nBins binSize fromX toX fromIdx toIdx shift
        initValue method =
      binYonX x y breaks nBins' binSize' fromX' toX' fromIdx toIdx shift'
        initValue method) /\
  (forall (nBins : Z) (binSize binSize' fromX toX : double) (shift : Z),
      rd breaks 0 = Ok NA_REAL -> nBins <> NA_INTEGER ->
      binYonX x y breaks nBins binSize fromX toX fromIdx toIdx shift
        initValue method =
      binYonX x y breaks nBins binSize' fromX toX fromIdx toIdx shift
        initValue method).
Proof.
  split.
  - intros b0 nBins nBins' binSize binSize' fromX fromX' toX toX' shift shift' Hb Hna.
    unfold binYonX, define_breaks. cbv zeta. rewrite Hb. run_bind.
    by rewrite Hna.
  - intros nBins binSize binSize' fromX toX shift Hb Hn.
    unfold binYonX, define_breaks. cbv zeta. rewrite Hb. run_bind.
    simpl ISNA. simpl negb. cbv iota.
    by destruct (Z.eqb_spec nBins NA_INTEGER).
Qed.

(** The explicit breaks [1,3,5] win over a bin count and a bin size. *)
Lemma binYonX_mode_precedence_witness :
  binYonX (nums [1; 2; 3; 4]%float) (nums [10; 20; 30; 40]%float)
    (nums [1; 3; 5]%float) 7 (Num 0.5) (Num 0) (Num 100) 0 3 1 NA_REAL 3 =
  Ok (nums [2; 4]%float, nums [30; 70]%float).
Proof.
  rewrite (proj1 (binYonX_mode_precedence (nums [1; 2; 3; 4]%float)
                    (nums [10; 20; 30; 40]%float) (nums [1; 3; 5]%float)
                    0 3 NA_REAL 3)
             (Num 1) 7 NA_INTEGER (Num 0.5) NA_REAL (Num 0) NA_REAL
             (Num 100) NA_REAL 1 0 ltac:(vm_compute; reflexivity)
             ltac:(reflexivity)).
  vm_compute. reflexivity.
Defined.

(** ** The errors of the three modes *)

Lemma silent_bin_on_breaks_defined (x y : list double) (n_bin : Z)
  (p_brks : list double) (from_idx to_idx : Z) (init_value : double)
  (the_method : Z) :
  0 <= n_bin ->
  silent (bin_on_breaks x y n_bin p_brks from_idx to_idx init_value the_method).
Proof.
  intros Hn e He. apply bin_on_breaks_errors in He as [_ He]. lia.
Qed.

(** The cause of each error of the break definition. *)
Lemma define_breaks_error_cause (breaks : list double) (nBins : Z)
  (binSize fromX toX : double) (shift : Z) (e : error_msg) :
  define_breaks breaks nBins binSize fromX toX shift = Error e ->
  let from_x := if 0 <? shift
                then dbl_sub fromX (dbl_div binSize (double_of_int 2))
                else fromX in
  match e with
  | NotEnoughBreaks =>
      exists first_break, rd breaks 0 = Ok first_break /\ ISNA first_break = false
                          /\ (length breaks < 2)%nat
  | NBinsTooSmall =>
      rd breaks 0 = Ok NA_REAL /\ nBins <> NA_INTEGER /\ nBins <= 0
  | BinSizeNotPos =>
      rd breaks 0 = Ok NA_REAL /\ nBins = NA_INTEGER
      /\ dbl_lt binSize (double_of_int 0) = true
  | NegativeLength =>
      rd breaks 0 = Ok NA_REAL /\ nBins = NA_INTEGER
      /\ dbl_lt binSize (double_of_int 0) = false
      /\ exists n_bin,
           int_of_ceil (dbl_div (dbl_sub toX from_x) binSize) = Ok n_bin
           /\ n_bin < -1
  | _ => False
  end.
Proof.
  unfold define_breaks. cbv zeta. intros H.
  apply bind_Error in H as [H | (b0 & Hb0 & H)]; [by apply silent_rd in H|].
  destruct b0 as [|f]; simpl ISNA in H; simpl negb in H; cbv iota in H.
  2:{ destruct (Z.ltb_spec (Z.of_nat (length breaks) - 1) 1); inversion H; subst.
      exists (Num f). repeat split; [done | lia]. }
  destruct (Z.eqb_spec nBins NA_INTEGER) as [Hna|Hna]; simpl negb in H; cbv iota in H.
  2:{ destruct (Z.leb_spec nBins 0) as [Hn|Hn]; [by inversion H; subst|].
      exfalso. revert H. apply silent_bind; [apply silent_int_succ|].
      intros len Hlen. apply int_succ_Ok in Hlen as ->.
      rewrite allocVector_total by lia. run_bind.
      apply silent_bind; [apply silent_breaks_on_nBins | intros; apply silent_Ok]. }
  destruct (dbl_lt binSize (double_of_int 0)) eqn:Hlt; [by inversion H; subst|].
  apply bind_Error in H as [H | (n & Hn & H)]; [by apply silent_int_of_ceil in H|].
  apply bind_Error in H as [H | (len & Hlen & H)]; [by apply silent_int_succ in H|].
  apply int_succ_Ok in Hlen as ->.
  apply bind_Error in H as [H | (brks & _ & H)].
  - unfold allocVector in H. destruct (Z.ltb_spec (n + 1) 0); inversion H; subst.
    repeat split; try done. exists n. split; [done | lia].
  - exfalso. revert H.
    apply silent_bind; [apply silent_breaks_on_binSize | intros; apply silent_Ok].
Qed.

(** Once the index checks have passed, each further error has exactly one
    cause: fewer than two explicit breaks; a bin count that is not positive;
    a negative bin size; and, in bin-size mode, a range so far below fromX
    that the number of breaks is negative (R's allocation error). *)
Theorem binYonX_mode_errors (x y breaks : list double) (nBins : Z)
  (binSize fromX toX : double) (fromIdx toIdx shiftByHalfBinSize : Z)
  (initValue : double) (method : Z) :
  check_indices x fromIdx toIdx = Ok tt ->
  let call := binYonX x y breaks nBins binSize fromX toX fromIdx toIdx
                shiftByHalfBinSize initValue method in
  let from_x := if 0 <? shiftByHalfBinSize
                then dbl_sub fromX (dbl_div binSize (double_of_int 2))
                else fromX in
  (call = Error NotEnoughBreaks <->
   exists first_break, rd breaks 0 = Ok first_break /\ ISNA first_break = false
                       /\ (length breaks < 2)%nat) /\
  (call = Error NBinsTooSmall <->
   rd breaks 0 = Ok NA_REAL /\ nBins <> NA_INTEGER /\ nBins <= 0) /\
  (call = Error BinSizeNotPos <->
   rd breaks 0 = Ok NA_REAL /\ nBins = NA_INTEGER
   /\ dbl_lt binSize (double_of_int 0) = true) /\
  (call = Error NegativeLength <->
   rd breaks 0 = Ok NA_REAL /\ nBins = NA_INTEGER
   /\ dbl_lt binSize (double_of_int 0) = false
   /\ exists n_bin, int_of_ceil (dbl_div (dbl_sub toX from_x) binSize) = Ok n_bin
                     /\ n_bin < -1).
Proof.
  intros Hc call from_x.
  assert (Hcall : forall e, call = Error e <->
            define_breaks breaks nBins binSize fromX toX shiftByHalfBinSize = Error e).
  { intros e. unfold call, binYonX. cbv zeta. rewrite Hc. run_bind.
    destruct (define_breaks _ _ _ _ _ _) as [[n p]| |] eqn:Hd; run_bind;
      [| split; intros [= ->]; reflexivity | split; discriminate].
    split; [|discriminate]. intros H. exfalso. revert H.
    apply silent_bin_on_breaks_defined. by eapply define_breaks_nonneg. }
  split; [|split; [|split]]; (split; [intros H; apply Hcall in H;
                                      by apply define_breaks_error_cause in H|]).
  - intros (b0 & Hb & Hna & Hlen). apply Hcall. unfold define_breaks.
    rewrite Hb. run_bind. rewrite Hna. simpl negb. cbv iota.
    by destruct (Z.ltb_spec (Z.of_nat (length breaks) - 1) 1); [|lia].
  - intros (Hb & Hna & Hn). apply Hcall. unfold define_breaks.
    rewrite Hb. run_bind. simpl ISNA. simpl negb. cbv iota.
    destruct (Z.eqb_spec nBins NA_INTEGER); [done|]. simpl negb. cbv iota.
    by destruct (Z.leb_spec nBins 0); [|lia].
  - intros (Hb & -> & Hlt). apply Hcall. unfold define_breaks.
    rewrite Hb. run_bind. simpl. by rewrite Hlt.
  - intros (Hb & -> & Hlt & n & Hceil & Hn). apply Hcall. unfold define_breaks.
    rewrite Hb. run_bind. simpl ISNA. simpl negb. cbv iota.
    change (negb (NA_INTEGER =? NA_INTEGER)) with false. cbv iota zeta.
    rewrite Hlt. fold from_x. rewrite Hceil. run_bind.
    rewrite int_succ_total by (unfold INT_MAX; lia). run_bind.
    unfold allocVector. by destruct (Z.ltb_spec (n + 1) 0); [|lia].
Qed.

(** With toX = -10 and bins of size 3 from fromX = 0 the bin count is -3:
    the allocation of -2 breaks is refused. *)
Lemma binYonX_mode_errors_witness :
  binYonX (nums [1; 2; 3; 4]%float) (nums [10; 20; 30; 40]%float) [NA_REAL]
    NA_INTEGER (Num 3) (Num 0) (Num (-10)) 0 3 0 NA_REAL 1 = Error NegativeLength.
Proof.
  apply (proj2 (proj2 (proj2 (proj2
           (binYonX_mode_errors (nums [1; 2; 3; 4]%float)
              (nums [10; 20; 30; 40]%float) [NA_REAL] NA_INTEGER (Num 3) (Num 0)
              (Num (-10)) 0 3 0 NA_REAL 1 ltac:(vm_compute; reflexivity)))))).
  repeat split; try (vm_compute; reflexivity).
  exists (-3). split; [vm_compute; reflexivity | lia].
Defined.

(** ** The breaks of the generated modes *)

(** The breaks binYonX bins on when none are given.  In bin-count mode:
    nBins+1 points advancing by (toX - fromX) / (nBins - shift), from fromX,
    or from fromX minus half a step when the shift is set.  In bin-size
    mode: the bin count is the ceiling of (toX - from_x) / binSize, where
    from_x is fromX, or fromX - binSize/2 when the shift is set; the breaks
    advance from from_x by binSize and the last one is toX. *)
Theorem binYonX_generated_breaks (breaks : list double) (binSize fromX toX : double)
  (shift : Z) :
  rd breaks 0 = Ok NA_REAL ->
  (forall nBins : Z,
      nBins <> NA_INTEGER -> 0 < nBins < INT_MAX ->
      let step := dbl_div (dbl_sub toX fromX)
                    (dbl_sub (double_of_int nBins) (double_of_int shift)) in
      let start := if 0 <? shift
                   then dbl_sub fromX (dbl_div step (double_of_int 2))
                   else fromX in
      define_breaks breaks nBins binSize fromX toX shift =
      Ok (nBins, progression (Z.to_nat (nBins + 1)) start step)) /\
  (forall n_bin : Z,
      let from_x := if 0 <? shift
                    then dbl_sub fromX (dbl_div binSize (double_of_int 2))
                    else fromX in
      dbl_lt binSize (double_of_int 0) = false ->
      int_of_ceil (dbl_div (dbl_sub toX from_x) binSize) = Ok n_bin ->
      0 <= n_bin < INT_MAX ->
      define_breaks breaks NA_INTEGER binSize fromX toX shift =
      Ok (n_bin, progression (Z.to_nat n_bin) from_x binSize ++ [toX])).
Proof.
  intros Hb. split.
  - intros nBins Hna Hn step start. unfold define_breaks. rewrite Hb. run_bind.
    simpl ISNA. simpl negb. cbv iota.
    destruct (Z.eqb_spec nBins NA_INTEGER); [done|]. simpl negb. cbv iota.
    destruct (Z.leb_spec nBins 0); [lia|].
    rewrite int_succ_total by lia. run_bind.
    rewrite allocVector_total by lia. run_bind.
    by rewrite _breaks_on_nBins_spec by lia.
  - intros n_bin from_x Hlt Hceil Hn. unfold define_breaks. rewrite Hb. run_bind.
    simpl ISNA. simpl negb. cbv iota.
    change (negb (NA_INTEGER =? NA_INTEGER)) with false. cbv iota zeta.
    rewrite Hlt. fold from_x. rewrite Hceil. run_bind.
    rewrite int_succ_total by lia. run_bind.
    rewrite allocVector_total by lia. run_bind.
    by rewrite _breaks_on_binSize_spec by lia.
Qed.

(** Shifted bins of size 2 from 0 to 5: from_x = -1, three bins, the breaks
    are -1, 1, 3 and 5. *)
Lemma binYonX_generated_breaks_witness :
  define_breaks [NA_REAL] NA_INTEGER (Num 2) (Num 0) (Num 5) 1 =
  Ok (3, nums [-1; 1; 3; 5]%float).
Proof.
  rewrite (proj2 (binYonX_generated_breaks [NA_REAL] (Num 2) (Num 0) (Num 5) 1
                    ltac:(reflexivity)) 3
             ltac:(vm_compute; reflexivity) ltac:(vm_compute; reflexivity)
             ltac:(unfold INT_MAX; lia)).
  vm_compute. reflexivity.
Defined.

(** ** The break generators outside their intended range *)

(** breaks_on_binSize does not check its arguments.  With n the ceiling of
    (toX - fromX) / binSize: for n >= 0 the breaks are as in bin-size mode
    (for n = 0 the single break toX); for n = -1 the vector has no cell and
    the final [brks[n_bin] = to_val] writes in front of it; below that R
    refuses the negative length.  When the quotient has no int ceiling
    (binSize zero, NaN or missing, an infinite quotient) the cast is
    undefined. *)
Theorem breaks_on_binSize_cases (fromX toX binSize : double) :
  breaks_on_binSize fromX toX binSize =
  match int_of_ceil (dbl_div (dbl_sub toX fromX) binSize) with
  | Ok n_bin =>
      if n_bin <? -1 then Error NegativeLength
      else if n_bin =? -1 then Undefined
      else if n_bin <? INT_MAX
           then Ok (progression (Z.to_nat n_bin) fromX binSize ++ [toX])
           else Undefined
  | Error e => Error e
  | Undefined => Undefined
  end.
Proof.
  unfold breaks_on_binSize.
  destruct (int_of_ceil _) as [n| |]; try reflexivity. run_bind.
  unfold int_succ.
  destruct (Z.ltb_spec n (-1)), (Z.eqb_spec n (-1)), (Z.ltb_spec n INT_MAX);
    try (unfold INT_MAX in *; lia); run_bind; try reflexivity.
  - unfold allocVector. by destruct (Z.ltb_spec (n + 1) 0); [|lia].
  - subst n. reflexivity.
  - rewrite allocVector_total by lia. run_bind.
    by rewrite _breaks_on_binSize_spec by lia.
Qed.

(** breaks_on_nBins does not check its argument either: a bin count below -1
    makes R refuse the negative length, -1 gives no break at all, 0 gives
    the single break fromX, and INT_MAX overflows [n_bin + 1]. *)
Theorem breaks_on_nBins_cases (fromX toX : double) (nBins : Z) :
  breaks_on_nBins fromX toX nBins =
  if INT_MAX <=? nBins then Undefined
  else if nBins <? -1 then Error NegativeLength
  else Ok (progression (Z.to_nat (nBins + 1)) fromX
             (dbl_div (dbl_sub toX fromX) (double_of_int nBins))).
Proof.
  unfold breaks_on_nBins, int_succ.
  destruct (Z.leb_spec INT_MAX nBins), (Z.ltb_spec nBins INT_MAX); try lia;
    run_bind; [reflexivity|].
  destruct (Z.ltb_spec nBins (-1)).
  - unfold allocVector. by destruct (Z.ltb_spec (nBins + 1) 0); [|lia].
  - rewrite allocVector_total by lia. run_bind.
    rewrite _breaks_on_nBins_spec by lia. cbv zeta.
    by rewrite dbl_sub_zero.
Qed.

(** ** The fill value *)

(** The fill loop replaces the missing cells and only them. *)
Lemma fill_loop_spec (init_value : double) (n : Z) (p : list double) :
  Z.of_nat (length p) = n ->
  for_range n (fill_step init_value) p = Ok (fill_value init_value <$> p).
Proof.
  intros Hn. unfold for_range.
  destruct (for_loop_total (fill_step init_value)
              (fun k t => length t = length p /\
                          forall j : nat,
                            t !! j = if decide (Z.of_nat j < k)
                                     then fill_value init_value <$> p !! j
                                     else p !! j)
              (Z.to_nat n) 0 p) as (t & Hrun & Hlen & Hcells).
  - intros k t Hk [Hlen Hcells]. unfold fill_step.
    destruct (rd_total t k) as [v Hv]; [lia|]. rewrite Hv. run_bind.
    apply rd_Ok in Hv as [_ Hv]. rewrite Hcells in Hv.
    destruct (decide (Z.of_nat (Z.to_nat k) < k)); [lia|].
    destruct (ISNA v) eqn:Hna.
    + rewrite wr_total by lia. eexists; split; [reflexivity|].
      split; [by rewrite length_insert|]. intros j.
      destruct (decide (j = Z.to_nat k)) as [->|Hj].
      * rewrite list_lookup_insert_eq by lia.
        destruct (decide (Z.of_nat (Z.to_nat k) < k + 1)); [|lia].
        rewrite Hv. simpl. unfold fill_value. by rewrite Hna.
      * rewrite list_lookup_insert_ne by done. rewrite Hcells.
        destruct (decide (Z.of_nat j < k)), (decide (Z.of_nat j < k + 1));
          try done; lia.
    + exists t. split; [done|]. split; [done|]. intros j. rewrite Hcells.
      destruct (decide (Z.of_nat j < k)), (decide (Z.of_nat j < k + 1));
        try done; try lia.
      assert (j = Z.to_nat k) as -> by lia.
      rewrite Hv. simpl. unfold fill_value. by rewrite Hna.
  - split; [done|]. intros j. by destruct (decide (Z.of_nat j < 0)); [lia|].
  - rewrite Hrun. f_equal. apply list_eq. intros j. rewrite Hcells.
    rewrite list_lookup_fmap.
    destruct (decide (Z.of_nat j < 0 + Z.of_nat (Z.to_nat n))); [done|].
    rewrite lookup_ge_None_2 by lia. done.
Qed.

Lemma fill_value_NA (p : list double) : fill_value NA_REAL <$> p = p.
Proof.
  induction p as [|v p IH]; [done|]. rewrite fmap_cons, IH. f_equal.
  by destruct v.
Qed.

(** The binning with a fill value is the binning without one, followed by
    the replacement of the missing aggregates. *)
Lemma bin_on_breaks_fill (x y : list double) (n_bin : Z) (p_brks : list double)
  (from_idx to_idx : Z) (init_value : double) (the_method : Z) :
  bin_on_breaks x y n_bin p_brks from_idx to_idx init_value the_method =
  bin_on_breaks x y n_bin p_brks from_idx to_idx NA_REAL the_method
  ≫= fill_result init_value.
Proof.
  unfold bin_on_breaks.
  destruct (allocVector n_bin) as [ans| |] eqn:Hans; try reflexivity. run_bind.
  apply allocVector_Ok in Hans as [Hn ->].
  destruct (for_range n_bin _ _) as [p1| |] eqn:Hp1; try reflexivity. run_bind.
  apply for_range_length in Hp1; [|intros; by eapply wr_length].
  destruct (dispatch _ _ _ _ _ _ _ _) as [p2| |] eqn:Hp2; try reflexivity. run_bind.
  apply dispatch_length in Hp2. rewrite length_replicate in Hp1.
  simpl ISNA. simpl negb. cbv iota. run_bind.
  destruct (ISNA init_value) eqn:Hna; simpl negb; cbv iota.
  - destruct init_value; [|discriminate]. run_bind.
    destruct (_bin_midPoint _ _ _) as [m| |]; try reflexivity. run_bind.
    unfold fill_result. simpl. by rewrite fill_value_NA.
  - rewrite fill_loop_spec by lia. run_bind.
    by destruct (_bin_midPoint _ _ _) as [m| |].
Qed.

(** The fill value only replaces missing aggregates: a call with a fill
    value gives the midpoints of the call without one and its aggregates with
    every missing one replaced; so with a fill value that is not missing no
    aggregate of the result is missing. *)
Theorem binYonX_fill_value (x y breaks : list double) (nBins : Z)
  (binSize fromX toX : double) (fromIdx toIdx shiftByHalfBinSize : Z)
  (initValue : double) (method : Z) :
  binYonX x y breaks nBins binSize fromX toX fromIdx toIdx shiftByHalfBinSize
    initValue method =
  (binYonX x y breaks nBins binSize fromX toX fromIdx toIdx
     shiftByHalfBinSize NA_REAL method ≫= fill_result initValue) /\
  (ISNA initValue = false ->
   forall mids aggs,
     binYonX x y breaks nBins binSize fromX toX fromIdx toIdx shiftByHalfBinSize
       initValue method = Ok (mids, aggs) ->
     forall v, v ∈ aggs -> ISNA v = false).
Proof.
  assert (Hfill :
    binYonX x y breaks nBins binSize fromX toX fromIdx toIdx shiftByHalfBinSize
      initValue method =
    (binYonX x y breaks nBins binSize fromX toX fromIdx toIdx
       shiftByHalfBinSize NA_REAL method ≫= fill_result initValue)).
  { unfold binYonX. cbv zeta.
    destruct (check_indices x fromIdx toIdx) as [[]| |]; try reflexivity. run_bind.
    destruct (define_breaks _ _ _ _ _ _) as [[n b]| |]; try reflexivity. run_bind.
    apply bin_on_breaks_fill. }
  split; [exact Hfill|].
  intros Hna mids aggs Hcall v Hv. rewrite Hfill in Hcall.
  apply bind_Ok in Hcall as ([m a] & _ & Hcall). inversion Hcall; subst.
  apply list_elem_of_fmap in Hv as (w & -> & _). unfold fill_value.
  by destruct (ISNA w) eqn:Hw.
Qed.

(** Bin count 4 over [0,6], fill value 0: the two bins without samples hold
    0, the others their sums. *)
Lemma binYonX_fill_value_witness :
  binYonX (nums [1; 2; 3; 4]%float) (nums [10; 20; 30; 40]%float) [NA_REAL]
    4 NA_REAL (Num 0) (Num 6) 0 3 0 (Num 0) 3 =
  Ok (nums [0.75; 2.25; 3.75; 5.25]%float, nums [10; 20; 70; 0]%float) /\
  forall v, v ∈ nums [10; 20; 70; 0]%float -> ISNA v = false.
Proof.
  assert (Hcall :
    binYonX (nums [1; 2; 3; 4]%float) (nums [10; 20; 30; 40]%float) [NA_REAL]
      4 NA_REAL (Num 0) (Num 6) 0 3 0 (Num 0) 3 =
    Ok (nums [0.75; 2.25; 3.75; 5.25]%float, nums [10; 20; 70; 0]%float))
    by (vm_compute; reflexivity).
  split; [exact Hcall|].
  exact (proj2 (binYonX_fill_value (nums [1; 2; 3; 4]%float)
                  (nums [10; 20; 30; 40]%float) [NA_REAL] 4 NA_REAL (Num 0) (Num 6)
                  0 3 0 (Num 0) 3) ltac:(reflexivity) _ _ Hcall).
Defined.

(** A bin without a usable sample gets the fill value: when every sample of
    the window that passes the test of bin b has a missing y value (also
    when no sample passes it), aggregate b of the result is initValue. *)
Theorem binYonX_empty_bin_filled (x y breaks : list double) (nBins : Z)
  (binSize fromX toX : double) (fromIdx toIdx shiftByHalfBinSize : Z)
  (initValue : double) (method : Z) (n_bin : Z) (p_brks : list double) (b : nat) :
  check_indices x fromIdx toIdx = Ok tt ->
  define_breaks breaks nBins binSize fromX toX shiftByHalfBinSize
    = Ok (n_bin, p_brks) ->
  toIdx < Z.of_nat (length y) ->
  Z.of_nat b < n_bin ->
  (forall (j : Z) (xv : double),
      fromIdx <= j <= toIdx -> rd x j = Ok xv ->
      in_bin p_brks n_bin (Z.of_nat b) xv = true -> rd y j = Ok NA_REAL) ->
  exists mids aggs,
    binYonX x y breaks nBins binSize fromX toX fromIdx toIdx shiftByHalfBinSize
      initValue method = Ok (mids, aggs) /\
    aggs !! b = Some initValue.
Proof.
  intros Hc Hd Hy Hb Hmissing. unfold binYonX. cbv zeta.
  rewrite Hc, Hd. run_bind. rewrite bin_on_breaks_fill.
  apply check_indices_Ok in Hc.
  destruct (bin_on_breaks_total x y n_bin p_brks fromIdx toIdx NA_REAL method
              (fun b' => b' = b)) as (m & a & Hrun & Hna);
    [by eapply define_breaks_length | by eapply define_breaks_nonneg
     | lia | lia | done | | ].
  - intros b' j xv -> Hj Hx Hin. by eapply Hmissing.
  - rewrite Hrun. run_bind. unfold fill_result. simpl.
    exists m, (fill_value initValue <$> a).
    split; [done|]. rewrite list_lookup_fmap, Hna by done. reflexivity.
Qed.

(** Breaks [1,3,5,7], fill value -1: no sample lies in [5,7], so the third
    maximum is -1. *)
Lemma binYonX_empty_bin_filled_witness :
  exists mids aggs,
    binYonX (nums [1; 2; 3; 4]%float) (nums [10; 20; 30; 40]%float)
      (nums [1; 3; 5; 7]%float) NA_INTEGER NA_REAL NA_REAL NA_REAL 0 3 0
      (Num (-1)) 1 = Ok (mids, aggs) /\
    aggs !! 2%nat = Some (Num (-1)).
Proof.
  apply (binYonX_empty_bin_filled (nums [1; 2; 3; 4]%float)
           (nums [10; 20; 30; 40]%float) (nums [1; 3; 5; 7]%float)
           NA_INTEGER NA_REAL NA_REAL NA_REAL 0 3 0 (Num (-1)) 1
           3 (nums [1; 3; 5; 7]%float) 2%nat);
    [vm_compute; reflexivity | vm_compute; reflexivity | simpl; lia | lia |].
  intros j xv Hj Hx Hin.
  assert (Hcases : j = 0 \/ j = 1 \/ j = 2 \/ j = 3) by lia.
  destruct Hcases as [-> | [-> | [-> | ->]]]; vm_compute in Hx;
    inversion Hx; subst xv; vm_compute in Hin; discriminate.
Defined.

(** ** What the scan reads *)

Lemma for_loop_ext {S} (body body' : Z -> S -> outcome S) (P : S -> Prop)
  (count : nat) (i0 : Z) (s : S) :
  (forall i t, i0 <= i < i0 + Z.of_nat count -> P t -> body i t = body' i t) ->
  (forall i t t', i0 <= i < i0 + Z.of_nat count -> P t -> body i t = Ok t' -> P t') ->
  P s ->
  for_loop count i0 body s = for_loop count i0 body' s.
Proof.
  revert i0 s. induction count as [|c IH]; intros i0 s Heq Hkeep HP; [done|].
  simpl. rewrite <- (Heq i0 s) by (done || lia).
  destruct (body i0 s) as [t| |] eqn:Hb; try reflexivity. run_bind.
  apply IH.
  - intros i u Hi. apply Heq. lia.
  - intros i u u' Hi. apply Hkeep. lia.
  - apply (Hkeep i0 s t); [lia | done | done].
Qed.

Section ScanReads.
Context {S : Type}.
Variable enter : Z -> S -> outcome S.
Variable fold : Z -> double -> S -> outcome S.
Variables brks : list double.
Variables n_bin : Z.

(** The cursor only moves forward, and not beyond what the loop allows. *)
Lemma scan_while_cursor (x y : list double) (i : Z) (rem : nat) :
  forall (cur : Z) (s : S) (cur' : Z) (s' : S),
    scan_while fold x y brks n_bin rem i cur s = Ok (cur', s') ->
    cur <= cur' <= cur + Z.of_nat rem.
Proof.
  induction rem as [|r IH]; intros cur s cur' s' Hrun.
  - simpl in Hrun. inversion Hrun; subst. lia.
  - simpl in Hrun.
    apply bind_Ok in Hrun as (xv & _ & Hrun).
    apply bind_Ok in Hrun as (lower & _ & Hrun).
    destruct (dbl_ge xv lower); [|apply IH in Hrun; lia].
    apply bind_Ok in Hrun as (upper & _ & Hrun).
    destruct (_ || _); [|inversion Hrun; subst; lia].
    apply bind_Ok in Hrun as (yv & _ & Hrun).
    apply bind_Ok in Hrun as (s1 & _ & Hrun). apply IH in Hrun. lia.
Qed.

(** The loop for bin [i] reads x and y at the positions the cursor visits,
    and y only where x passes the lower border of the bin. *)
Lemma scan_while_ext (x y x' y' : list double) (i : Z) (rem : nat) :
  forall (cur : Z) (s : S),
    (forall j, cur <= j < cur + Z.of_nat rem ->
               rd x j = rd x' j /\
               (rd y j = rd y' j \/
                exists xv, rd x j = Ok xv /\
                           forall lower, rd brks i = Ok lower ->
                                         dbl_ge xv lower = false)) ->
    scan_while fold x y brks n_bin rem i cur s =
    scan_while fold x' y' brks n_bin rem i cur s.
Proof.
  induction rem as [|r IH]; intros cur s Hsame; [done|].
  assert (Hnext : forall t, scan_while fold x y brks n_bin r i (cur + 1) t =
                            scan_while fold x' y' brks n_bin r i (cur + 1) t).
  { intros t. apply IH. intros j Hj. apply Hsame. lia. }
  destruct (Hsame cur) as [Hx Hy]; [lia|].
  simpl. rewrite <- Hx.
  destruct (rd x cur) as [xv| |] eqn:Hxv; try reflexivity. run_bind.
  destruct (rd brks i) as [lower| |] eqn:Hlo; try reflexivity. run_bind.
  destruct (dbl_ge xv lower) eqn:Hge; [|apply Hnext].
  destruct (rd brks (i + 1)) as [upper| |]; try reflexivity. run_bind.
  destruct (_ || _); [|reflexivity].
  destruct Hy as [Hy | (xv' & Hxv' & Hnone)].
  - rewrite <- Hy. destruct (rd y cur) as [yv| |]; try reflexivity. run_bind.
    destruct (negb (ISNA yv)); [|run_bind; apply Hnext].
    destruct (fold i yv s) as [s1| |]; try reflexivity. run_bind. apply Hnext.
  - inversion Hxv'; subst xv'. rewrite (Hnone lower) in Hge by done. discriminate.
Qed.

(** A sample that passes the lower border of bin [i] without lying in the
    bin stops the loop for bin [i], however many samples follow. *)
Lemma scan_while_blocked (x y : list double) (i : Z) (xv lower upper : double)
  (b : nat) :
  rd brks i = Ok lower -> rd brks (i + 1) = Ok upper ->
  dbl_ge xv lower = true -> dbl_lt xv upper = false -> dbl_eq xv upper = false ->
  forall (a : nat) (cur : Z) (s : S),
    rd x (cur + Z.of_nat a) = Ok xv ->
    scan_while fold x y brks n_bin (a + Datatypes.S b) i cur s =
    scan_while fold x y brks n_bin a i cur s.
Proof.
  intros Hlo Hup Hge Hlt Heq. induction a as [|a IH]; intros cur s Hx.
  - replace (cur + Z.of_nat 0) with cur in Hx by lia.
    simpl. rewrite Hx, Hlo. run_bind. rewrite Hge, Hup. run_bind.
    by rewrite Hlt, Heq.
  - assert (Hnext : forall t,
              scan_while fold x y brks n_bin (a + Datatypes.S b) i (cur + 1) t =
              scan_while fold x y brks n_bin a i (cur + 1) t).
    { intros t. apply IH. rewrite <- Hx. f_equal. lia. }
    replace (Datatypes.S a + Datatypes.S b)%nat
      with (Datatypes.S (a + Datatypes.S b)) by lia.
    cbn [scan_while].
    destruct (rd x cur) as [xc| |]; try reflexivity. run_bind.
    rewrite Hlo. run_bind.
    destruct (dbl_ge xc lower); [|apply Hnext].
    rewrite Hup. run_bind.
    destruct (_ || _); [|reflexivity].
    destruct (rd y cur) as [yv| |]; try reflexivity. run_bind.
    destruct (negb (ISNA yv)); [|run_bind; apply Hnext].
    destruct (fold i yv s) as [s1| |]; try reflexivity. run_bind. apply Hnext.
Qed.

Lemma scan_ext (x y x' y' : list double) (x_start_idx x_end_idx : Z) (s : S) :
  (forall j, x_start_idx <= j <= x_end_idx ->
             rd x j = rd x' j /\
             (rd y j = rd y' j \/
              exists xv, rd x j = Ok xv /\
                         forall lower, lower ∈ brks -> dbl_ge xv lower = false)) ->
  scan enter fold x y brks n_bin x_end_idx x_start_idx s =
  scan enter fold x' y' brks n_bin x_end_idx x_start_idx s.
Proof.
  intros Hsame. unfold scan, for_range. f_equal.
  apply (for_loop_ext _ _ (fun st => x_start_idx <= fst st)); [| |simpl; lia].
  - intros i [cur t] _ Hcur. simpl in Hcur. unfold scan_bin.
    destruct (enter i t) as [t1| |]; try reflexivity. run_bind.
    apply scan_while_ext. intros j Hj.
    destruct (Hsame j) as [Hx Hy]; [lia|]. split; [done|].
    destruct Hy as [Hy | (xv & Hxv & Hnone)]; [by left|]. right.
    exists xv. split; [done|]. intros lower Hlo. apply Hnone.
    apply rd_Ok in Hlo as [_ Hlo]. by eapply list_elem_of_lookup_2.
  - intros i [cur t] [cur' t'] _ Hcur Hbody. simpl in *. unfold scan_bin in Hbody.
    apply bind_Ok in Hbody as (t1 & _ & Hbody).
    apply scan_while_cursor in Hbody. lia.
Qed.

(** A sample above every break stops every bin's loop: the scan of a window
    that contains it is the scan of the window that ends just before it. *)
Lemma scan_blocked (x y : list double) (x_start_idx x_end_idx k : Z) (xv : double)
  (s : S) :
  Z.of_nat (length brks) = n_bin + 1 ->
  x_start_idx <= k <= x_end_idx ->
  rd x k = Ok xv ->
  (forall b, b ∈ brks -> dbl_gt xv b = true) ->
  scan enter fold x y brks n_bin x_end_idx x_start_idx s =
  scan enter fold x y brks n_bin (k - 1) x_start_idx s.
Proof.
  intros Hlen Hk Hx Habove. unfold scan, for_range. f_equal. symmetry.
  apply (for_loop_ext _ _ (fun st => fst st <= k)); [| |simpl; lia].
  - intros i [cur t] Hi Hcur. simpl in Hcur. unfold scan_bin.
    destruct (enter i t) as [t1| |]; try reflexivity. run_bind.
    destruct (rd_total brks i) as [lower Hlo]; [lia|].
    destruct (rd_total brks (i + 1)) as [upper Hup]; [lia|].
    assert (Hl : dbl_gt xv lower = true).
    { apply Habove. apply rd_Ok in Hlo as [_ Hlo]. by eapply list_elem_of_lookup_2. }
    assert (Hu : dbl_gt xv upper = true).
    { apply Habove. apply rd_Ok in Hup as [_ Hup]. by eapply list_elem_of_lookup_2. }
    replace (Z.to_nat (x_end_idx + 1 - cur))
      with (Z.to_nat (k - cur) + Datatypes.S (Z.to_nat (x_end_idx - k)))%nat by lia.
    replace (Z.to_nat (k - 1 + 1 - cur)) with (Z.to_nat (k - cur)) by lia.
    symmetry. apply (scan_while_blocked x y i xv lower upper); try done.
    + unfold dbl_gt, dbl_ge in *. by destruct (dbl_compare xv lower).
    + unfold dbl_gt, dbl_lt in *. by destruct (dbl_compare xv upper).
    + unfold dbl_gt, dbl_eq in *. by destruct (dbl_compare xv upper).
    + rewrite <- Hx. f_equal. lia.
  - intros i [cur t] [cur' t'] _ Hcur Hbody. simpl in *. unfold scan_bin in Hbody.
    apply bind_Ok in Hbody as (t1 & _ & Hbody).
    apply scan_while_cursor in Hbody. lia.
Qed.
End ScanReads.

Lemma dispatch_ext (the_method : Z) (x y x' y' brks ans : list double)
  (n_bin x_start_idx x_end_idx : Z) :
  (forall j, x_start_idx <= j <= x_end_idx ->
             rd x j = rd x' j /\
             (rd y j = rd y' j \/
              exists xv, rd x j = Ok xv /\
                         forall lower, lower ∈ brks -> dbl_ge xv lower = false)) ->
  dispatch the_method x y brks ans n_bin x_start_idx x_end_idx =
  dispatch the_method x' y' brks ans n_bin x_start_idx x_end_idx.
Proof.
  intros Hsame. unfold dispatch, _bin_y_on_x_with_breaks_min,
    _bin_y_on_x_with_breaks_sum, _bin_y_on_x_with_breaks_mean,
    _bin_y_on_x_with_breaks_max. cbv zeta.
  by rewrite !(scan_ext _ _ brks n_bin x y x' y' x_start_idx x_end_idx _ Hsame).
Qed.

Lemma dispatch_blocked (the_method : Z) (x y brks ans : list double)
  (n_bin x_start_idx x_end_idx k : Z) (xv : double) :
  Z.of_nat (length brks) = n_bin + 1 ->
  x_start_idx <= k <= x_end_idx ->
  rd x k = Ok xv ->
  (forall b, b ∈ brks -> dbl_gt xv b = true) ->
  dispatch the_method x y brks ans n_bin x_start_idx x_end_idx =
  dispatch the_method x y brks ans n_bin x_start_idx (k - 1).
Proof.
  intros Hlen Hk Hx Habove. unfold dispatch, _bin_y_on_x_with_breaks_min,
    _bin_y_on_x_with_breaks_sum, _bin_y_on_x_with_breaks_mean,
    _bin_y_on_x_with_breaks_max. cbv zeta.
  by rewrite !(scan_blocked _ _ brks n_bin x y x_start_idx x_end_idx k xv _
                 Hlen Hk Hx Habove).
Qed.

Lemma binYonX_ext (x y x' y' breaks : list double) (nBins : Z)
  (binSize fromX toX : double) (fromIdx toIdx shiftByHalfBinSize : Z)
  (initValue : double) (method : Z) :
  length x = length x' ->
  (forall n_bin p_brks j,
      define_breaks breaks nBins binSize fromX toX shiftByHalfBinSize
        = Ok (n_bin, p_brks) ->
      fromIdx <= j <= toIdx ->
      rd x j = rd x' j /\
      (rd y j = rd y' j \/
       exists xv, rd x j = Ok xv /\
                  forall lower, lower ∈ p_brks -> dbl_ge xv lower = false)) ->
  binYonX x y breaks nBins binSize fromX toX fromIdx toIdx shiftByHalfBinSize
    initValue method =
  binYonX x' y' breaks nBins binSize fromX toX fromIdx toIdx shiftByHalfBinSize
    initValue method.
Proof.
  intros Hlen Hsame. unfold binYonX, check_indices. cbv zeta. rewrite <- Hlen.
  destruct (if _ || _ then _ else _) as [[]| |]; try reflexivity. run_bind.
  destruct (define_breaks _ _ _ _ _ _) as [[n b]| |] eqn:Hd; try reflexivity.
  run_bind. unfold bin_on_breaks.
  destruct (allocVector n) as [ans| |]; try reflexivity. run_bind.
  destruct (for_range n _ ans) as [p| |]; try reflexivity. run_bind.
  rewrite (dispatch_ext method x y x' y' b p n fromIdx toIdx); [done|].
  intros j Hj. by apply (Hsame n b j).
Qed.

(** binYonX reads x and y inside the index window only: two calls whose x
    have the same length and whose x and y agree on the positions
    fromIdx..toIdx give the same result (or fail alike). *)
Theorem binYonX_reads_window_only (x y x' y' breaks : list double) (nBins : Z)
  (binSize fromX toX : double) (fromIdx toIdx shiftByHalfBinSize : Z)
  (initValue : double) (method : Z) :
  length x = length x' ->
  (forall j, fromIdx <= j <= toIdx -> rd x j = rd x' j /\ rd y j = rd y' j) ->
  binYonX x y breaks nBins binSize fromX toX fromIdx toIdx shiftByHalfBinSize
    initValue method =
  binYonX x' y' breaks nBins binSize fromX toX fromIdx toIdx shiftByHalfBinSize
    initValue method.
Proof.
  intros Hlen Hsame. apply binYonX_ext; [done|].
  intros n b j _ Hj. destruct (Hsame j Hj). auto.
Qed.

(** Outside the window 1..2 the data may be anything, also missing or
    absent: the sums over the breaks [1,3,5] are those of the samples at
    positions 1 and 2. *)
Lemma binYonX_reads_window_only_witness :
  binYonX (nums [0; 2; 3; 99]%float) (nums [5; 20; 30]%float)
    (nums [1; 3; 5]%float) NA_INTEGER NA_REAL NA_REAL NA_REAL 1 2 0 NA_REAL 3 =
  Ok (nums [2; 4]%float, nums [20; 30]%float).
Proof.
  rewrite (binYonX_reads_window_only (nums [0; 2; 3; 99]%float)
             (nums [5; 20; 30]%float) (nums [1; 2; 3; 4]%float)
             (nums [10; 20; 30; 40]%float) (nums [1; 3; 5]%float)
             NA_INTEGER NA_REAL NA_REAL NA_REAL 1 2 0 NA_REAL 3
             ltac:(reflexivity)
             ltac:(intros j Hj; assert (Hcases : j = 1 \/ j = 2) by lia;
                   destruct Hcases as [-> | ->]; split; reflexivity)).
  vm_compute. reflexivity.
Defined.

(** The y value of a sample is used only if its x value passes the lower
    border of some bin: where x is missing, or below every break of the
    call, y may be changed at will without changing the result. *)
Theorem binYonX_untested_sample_unused (x y y' breaks : list double) (nBins : Z)
  (binSize fromX toX : double) (fromIdx toIdx shiftByHalfBinSize : Z)
  (initValue : double) (method : Z) :
  (forall n_bin p_brks j,
      define_breaks breaks nBins binSize fromX toX shiftByHalfBinSize
        = Ok (n_bin, p_brks) ->
      fromIdx <= j <= toIdx ->
      rd y j = rd y' j \/
      rd x j = Ok NA_REAL \/
      exists xv, rd x j = Ok xv /\ forall b, b ∈ p_brks -> dbl_lt xv b = true) ->
  binYonX x y breaks nBins binSize fromX toX fromIdx toIdx shiftByHalfBinSize
    initValue method =
  binYonX x y' breaks nBins binSize fromX toX fromIdx toIdx shiftByHalfBinSize
    initValue method.
Proof.
  intros Hsame. apply binYonX_ext; [done|].
  intros n b j Hd Hj. split; [done|].
  destruct (Hsame n b j Hd Hj) as [Hy | [Hna | (xv & Hx & Hlow)]]; [by left|..];
    right.
  - exists NA_REAL. split; [done|]. reflexivity.
  - exists xv. split; [done|]. intros lower Hin. by apply dbl_lt_not_ge, Hlow.
Qed.

(** The second x value is missing and the third lies below the breaks
    [1,3,5]: their y values 999 and 888 do not reach the sums. *)
Lemma binYonX_untested_sample_unused_witness :
  binYonX (Num 1 :: NA_REAL :: nums [0; 4]%float) (nums [10; 999; 888; 40]%float)
    (nums [1; 3; 5]%float) NA_INTEGER NA_REAL NA_REAL NA_REAL 0 3 0 NA_REAL 3 =
  Ok (nums [2; 4]%float, nums [10; 40]%float).
Proof.
  rewrite (binYonX_untested_sample_unused
             (Num 1 :: NA_REAL :: nums [0; 4]%float) (nums [10; 999; 888; 40]%float)
             (nums [10; 0; 0; 40]%float) (nums [1; 3; 5]%float)
             NA_INTEGER NA_REAL NA_REAL NA_REAL 0 3 0 NA_REAL 3).
  - vm_compute. reflexivity.
  - intros n b j Hd Hj.
    assert (Hb : b = nums [1; 3; 5]%float).
    { assert (E : Ok (n, b) = Ok (2, nums [1; 3; 5]%float))
        by (rewrite <- Hd; vm_compute; reflexivity).
      pose proof (f_equal (fun o => match o with Ok (_, l) => l | _ => [] end) E)
        as E'. exact E'. }
    subst b.
    assert (Hcases : j = 0 \/ j = 1 \/ j = 2 \/ j = 3) by lia.
    destruct Hcases as [-> | [-> | [-> | ->]]].
    + left. reflexivity.
    + right. left. reflexivity.
    + right. right. exists (Num 0). split; [reflexivity|].
      intros v Hv. simpl in Hv.
      repeat (apply elem_of_cons in Hv as [-> | Hv]; [vm_compute; reflexivity|]).
      by apply elem_of_nil in Hv.
    + left. reflexivity.
Defined.

(** A sample of the window whose x value is above every break stops the
    scan: it and all samples after it are dropped, whatever their x values,
    and the call gives the result of the window that ends just before it. *)
Theorem binYonX_blocked_by_high_sample (x y breaks : list double) (nBins : Z)
  (binSize fromX toX : double) (fromIdx toIdx shiftByHalfBinSize : Z)
  (initValue : double) (method : Z)
  (n_bin : Z) (p_brks : list double) (k : Z) (xv : double) :
  check_indices x fromIdx toIdx = Ok tt ->
  define_breaks breaks nBins binSize fromX toX shiftByHalfBinSize
    = Ok (n_bin, p_brks) ->
  fromIdx < k <= toIdx ->
  rd x k = Ok xv ->
  (forall b, b ∈ p_brks -> dbl_gt xv b = true) ->
  binYonX x y breaks nBins binSize fromX toX fromIdx toIdx shiftByHalfBinSize
    initValue method =
  binYonX x y breaks nBins binSize fromX toX fromIdx (k - 1) shiftByHalfBinSize
    initValue method.
Proof.
  intros Hc Hd Hk Hx Habove. unfold binYonX. cbv zeta. rewrite Hc.
  assert (Hc' : check_indices x fromIdx (k - 1) = Ok tt).
  { apply check_indices_Ok. apply check_indices_Ok in Hc. lia. }
  rewrite Hc', Hd. run_bind. unfold bin_on_breaks.
  destruct (allocVector n_bin) as [ans| |]; try reflexivity. run_bind.
  destruct (for_range n_bin _ ans) as [p| |]; try reflexivity. run_bind.
  rewrite (dispatch_blocked method x y p_brks p n_bin fromIdx toIdx k xv);
    try done; [by eapply define_breaks_length | lia].
Qed.

(** x is not sorted: the 9 at position 2 is above the breaks [1,3,5] and
    hides the 4 behind it, so the second sum is missing. *)
Lemma binYonX_blocked_by_high_sample_witness :
  binYonX (nums [1; 2; 9; 4]%float) (nums [10; 20; 30; 40]%float)
    (nums [1; 3; 5]%float) NA_INTEGER NA_REAL NA_REAL NA_REAL 0 3 0 NA_REAL 3 =
  Ok (nums [2; 4]%float, [Num 30; NA_REAL]).
Proof.
  rewrite (binYonX_blocked_by_high_sample (nums [1; 2; 9; 4]%float)
             (nums [10; 20; 30; 40]%float) (nums [1; 3; 5]%float)
             NA_INTEGER NA_REAL NA_REAL NA_REAL 0 3 0 NA_REAL 3
             2 (nums [1; 3; 5]%float) 2 (Num 9)
             ltac:(vm_compute; reflexivity) ltac:(vm_compute; reflexivity)
             ltac:(lia) ltac:(reflexivity)).
  - vm_compute. reflexivity.
  - intros v Hv. simpl in Hv.
    repeat (apply elem_of_cons in Hv as [-> | Hv]; [vm_compute; reflexivity|]).
    by apply elem_of_nil in Hv.
Defined.

(** ** Maxima and minima are sample values *)

Lemma fold_max_cell (i : Z) (v : double) (t : list double) :
  0 <= i < Z.of_nat (length t) ->
  exists t', fold_max i v t = Ok t' /\ touches_only i t t' /\
             (t' !! Z.to_nat i = t !! Z.to_nat i \/ t' !! Z.to_nat i = Some v).
Proof.
  intros Hi. unfold fold_max. destruct (rd_total t i Hi) as [a ->]. run_bind.
  destruct (_ || _).
  - destruct (wr_touches t i v Hi) as (t' & Hw & Ht'). exists t'.
    split; [done|]. split; [done|]. right. by eapply wr_same.
  - exists t. split; [done|]. split; [apply touches_refl | by left].
Qed.

Lemma fold_min_cell (i : Z) (v : double) (t : list double) :
  0 <= i < Z.of_nat (length t) ->
  exists t', fold_min i v t = Ok t' /\ touches_only i t t' /\
             (t' !! Z.to_nat i = t !! Z.to_nat i \/ t' !! Z.to_nat i = Some v).
Proof.
  intros Hi. unfold fold_min. destruct (rd_total t i Hi) as [a ->]. run_bind.
  destruct (_ || _).
  - destruct (wr_touches t i v Hi) as (t' & Hw & Ht'). exists t'.
    split; [done|]. split; [done|]. right. by eapply wr_same.
  - exists t. split; [done|]. split; [apply touches_refl | by left].
Qed.

(** A reducer whose fold keeps the cell or stores the y value returns, in
    each cell, what was there or the y value of a sample of that bin. *)
Lemma selecting_reducer (fold : Z -> double -> list double -> outcome (list double))
  (x y brks ans : list double) (n_bin x_start_idx x_end_idx : Z) :
  (forall i v t, 0 <= i < Z.of_nat (length t) ->
     exists t', fold i v t = Ok t' /\ touches_only i t t' /\
                (t' !! Z.to_nat i = t !! Z.to_nat i \/ t' !! Z.to_nat i = Some v)) ->
  Z.of_nat (length brks) = n_bin + 1 ->
  Z.of_nat (length ans) = n_bin ->
  0 <= x_start_idx ->
  x_end_idx < Z.of_nat (length x) -> x_end_idx < Z.of_nat (length y) ->
  exists ans',
    scan no_enter fold x y brks n_bin x_end_idx x_start_idx ans = Ok ans' /\
    length ans' = length ans /\
    forall (b : nat) (v : double),
      ans' !! b = Some v ->
      ans !! b = Some v \/
      exists j xv, x_start_idx <= j <= x_end_idx /\ rd x j = Ok xv /\
                   in_bin brks n_bin (Z.of_nat b) xv = true /\
                   rd y j = Ok v /\ ISNA v = false.
Proof.
  intros Hfold Hb Ha Hs Hx Hy.
  apply (scan_total no_enter fold x y brks n_bin x_end_idx
           (fun t => length t = length ans /\
                     forall (b : nat) (v : double),
                       t !! b = Some v ->
                       ans !! b = Some v \/
                       exists j xv, x_start_idx <= j <= x_end_idx /\ rd x j = Ok xv /\
                                    in_bin brks n_bin (Z.of_nat b) xv = true /\
                                    rd y j = Ok v /\ ISNA v = false));
    try done.
  - intros i t _ Ht. by exists t.
  - intros i j xv yv t Hi Hj Hxj Hyj Hin Hna [Hlen Hcells].
    destruct (Hfold i yv t) as (t' & Hf & [Hlen' Hother] & Hcell); [lia|].
    exists t'. split; [done|]. split; [congruence|].
    intros b v Hv. destruct (decide (b = Z.to_nat i)) as [->|Hne].
    + destruct Hcell as [Hkeep | Hnew].
      * apply Hcells. by rewrite <- Hkeep.
      * right. exists j, xv. rewrite Z2Nat.id by lia.
        rewrite Hnew in Hv. inversion Hv; subst. done.
    + apply Hcells. by rewrite <- Hother.
  - split; [done|]. intros b v Hv. by left.
Qed.

(** The binning without fill value, once the reducer has returned. *)
Lemma bin_on_breaks_after_dispatch (x y : list double) (n_bin : Z)
  (p_brks : list double) (from_idx to_idx the_method : Z) (p_ans : list double) :
  Z.of_nat (length p_brks) = n_bin + 1 -> 0 <= n_bin ->
  dispatch the_method x y p_brks (replicate (Z.to_nat n_bin) NA_REAL) n_bin
    from_idx to_idx = Ok p_ans ->
  exists mids,
    bin_on_breaks x y n_bin p_brks from_idx to_idx NA_REAL the_method
    = Ok (mids, p_ans).
Proof.
  intros Hb Hn Hd. unfold bin_on_breaks.
  rewrite allocVector_total by done. run_bind.
  rewrite init_loop_spec. run_bind. rewrite Hd. run_bind. simpl negb. cbv iota.
  run_bind.
  destruct (_bin_midPoint_total p_brks (replicate (Z.to_nat n_bin) NA_REAL) n_bin)
    as (m & ->); [done | rewrite length_replicate; lia |].
  run_bind. by exists m.
Qed.

(** Under max (also the default method) and min, an aggregate is the fill
    value, or the y value, not missing, of a sample of the window whose x
    value passes the test of that bin: these reducers return sample values,
    never a value of their own. *)
Theorem binYonX_extreme_is_sample (x y breaks : list double) (nBins : Z)
  (binSize fromX toX : double) (fromIdx toIdx shiftByHalfBinSize : Z)
  (initValue : double) (method : Z) (n_bin : Z) (p_brks : list double) :
  check_indices x fromIdx toIdx = Ok tt ->
  define_breaks breaks nBins binSize fromX toX shiftByHalfBinSize
    = Ok (n_bin, p_brks) ->
  toIdx < Z.of_nat (length y) ->
  method <> 3 -> method <> 4 ->
  exists mids aggs,
    binYonX x y breaks nBins binSize fromX toX fromIdx toIdx shiftByHalfBinSize
      initValue method = Ok (mids, aggs) /\
    forall (b : nat) (v : double),
      aggs !! b = Some v ->
      v = initValue \/
      exists j xv, fromIdx <= j <= toIdx /\ rd x j = Ok xv /\
                   in_bin p_brks n_bin (Z.of_nat b) xv = true /\
                   rd y j = Ok v /\ ISNA v = false.
Proof.
  intros Hc Hd Hy H3 H4. unfold binYonX. cbv zeta. rewrite Hc, Hd. run_bind.
  rewrite bin_on_breaks_fill. apply check_indices_Ok in Hc.
  pose proof (define_breaks_length _ _ _ _ _ _ _ _ Hd) as Hlen.
  pose proof (define_breaks_nonneg _ _ _ _ _ _ _ _ Hd) as Hn.
  assert (Hsel : exists ans',
    dispatch method x y p_brks (replicate (Z.to_nat n_bin) NA_REAL) n_bin
      fromIdx toIdx = Ok ans' /\
    length ans' = length (replicate (Z.to_nat n_bin) NA_REAL) /\
    forall (b : nat) (v : double),
      ans' !! b = Some v ->
      replicate (Z.to_nat n_bin) NA_REAL !! b = Some v \/
      exists j xv, fromIdx <= j <= toIdx /\ rd x j = Ok xv /\
                   in_bin p_brks n_bin (Z.of_nat b) xv = true /\
                   rd y j = Ok v /\ ISNA v = false).
  { unfold dispatch. destruct (Z.eqb_spec method 2).
    - apply selecting_reducer; try done; try lia;
        [apply fold_min_cell | rewrite length_replicate; lia].
    - destruct (Z.eqb_spec method 3); [done|].
      destruct (Z.eqb_spec method 4); [done|].
      apply selecting_reducer; try done; try lia;
        [apply fold_max_cell | rewrite length_replicate; lia]. }
  destruct Hsel as (a & Hdisp & _ & Hcells).
  destruct (bin_on_breaks_after_dispatch x y n_bin p_brks fromIdx toIdx method a)
    as (m & ->); try done.
  run_bind. unfold fill_result. simpl. exists m, (fill_value initValue <$> a).
  split; [done|]. intros b v Hv.
  rewrite list_lookup_fmap in Hv.
  destruct (a !! b) as [w|] eqn:Hw; [|discriminate]. simpl in Hv.
  inversion Hv; subst v. destruct (Hcells b w Hw) as [Hinit | Hsample].
  - apply lookup_replicate in Hinit as [-> _]. by left.
  - right. destruct Hsample as (j & xv & Hj & Hx & Hin & Hyj & Hna).
    unfold fill_value. rewrite Hna. by exists j, xv.
Qed.

(** The minima of the small dataset, with fill value 0: the first one, 10,
    is the y value at position 0. *)
Lemma binYonX_extreme_is_sample_witness :
  exists mids aggs,
    binYonX (nums [1; 2; 3; 4]%float) (nums [10; 20; 30; 40]%float)
      (nums [1; 3; 5]%float) NA_INTEGER NA_REAL NA_REAL NA_REAL 0 3 0 (Num 0) 2
    = Ok (mids, aggs) /\
    aggs = nums [10; 30]%float /\
    (Num 10 = Num 0 \/
     exists j xv, 0 <= j <= 3 /\ rd (nums [1; 2; 3; 4]%float) j = Ok xv /\
                  in_bin (nums [1; 3; 5]%float) 2 (Z.of_nat 0) xv = true /\
                  rd (nums [10; 20; 30; 40]%float) j = Ok (Num 10) /\
                  ISNA (Num 10) = false).
Proof.
  destruct (binYonX_extreme_is_sample (nums [1; 2; 3; 4]%float)
              (nums [10; 20; 30; 40]%float) (nums [1; 3; 5]%float)
              NA_INTEGER NA_REAL NA_REAL NA_REAL 0 3 0 (Num 0) 2
              2 (nums [1; 3; 5]%float))
    as (m & a & Hcall & Hcells);
    [vm_compute; reflexivity | vm_compute; reflexivity | simpl; lia | lia | lia |].
  exists m, a. split; [exact Hcall|].
  assert (Ha : a = nums [10; 30]%float).
  { assert (E : Ok (m, a) = Ok (nums [2; 4]%float, nums [10; 30]%float))
      by (rewrite <- Hcall; vm_compute; reflexivity).
    exact (f_equal (fun o => match o with Ok (_, l) => l | _ => [] end) E). }
  split; [exact Ha|]. apply (Hcells 0%nat). rewrite Ha. reflexivity.
Defined.


(** ** The mean is the sum over the count *)

Lemma sim_bind {A1 A2 B1 B2} (R : A1 -> A2 -> Prop) (R' : B1 -> B2 -> Prop)
  (m1 : outcome A1) (m2 : outcome A2) (k1 : A1 -> outcome B1) (k2 : A2 -> outcome B2) :
  sim R m1 m2 -> (forall a1 a2, R a1 a2 -> sim R' (k1 a1) (k2 a2)) ->
  sim R' (m1 ≫= k1) (m2 ≫= k2).
Proof.
  intros Hm Hk. destruct m1 as [a1|e1|], m2 as [a2|e2|]; simpl in *; try done.
  by apply Hk.
Qed.

Lemma sim_same {A1 A2 B} (R : A1 -> A2 -> Prop) (m : outcome B)
  (k1 : B -> outcome A1) (k2 : B -> outcome A2) :
  (forall b, m = Ok b -> sim R (k1 b) (k2 b)) -> sim R (m ≫= k1) (m ≫= k2).
Proof. intros Hk. destruct m as [b|e|]; simpl; try done. by apply Hk. Qed.

Lemma for_loop_sim {S1 S2} (R : Z -> S1 -> S2 -> Prop)
  (body1 : Z -> S1 -> outcome S1) (body2 : Z -> S2 -> outcome S2) (count : nat) :
  forall (i0 : Z) (s1 : S1) (s2 : S2),
    (forall i t1 t2, i0 <= i < i0 + Z.of_nat count -> R i t1 t2 ->
                     sim (R (i + 1)) (body1 i t1) (body2 i t2)) ->
    R i0 s1 s2 ->
    sim (R (i0 + Z.of_nat count))
      (for_loop count i0 body1 s1) (for_loop count i0 body2 s2).
Proof.
  induction count as [|c IH]; intros i0 s1 s2 Hbody HR.
  - simpl. by replace (i0 + Z.of_nat 0) with i0 by lia.
  - simpl. eapply sim_bind; [apply Hbody; [lia | done]|].
    intros t1 t2 Ht.
    replace (i0 + Z.of_nat (Datatypes.S c)) with ((i0 + 1) + Z.of_nat c) by lia.
    apply IH; [|done]. intros i u1 u2 Hi. apply Hbody. lia.
Qed.

(** Two folds that keep a relation between their states, run by the same
    loop on the same data, end alike, with the same cursor and related
    states. *)
Lemma scan_while_sim {S1 S2} (R : S1 -> S2 -> Prop)
  (fold1 : Z -> double -> S1 -> outcome S1) (fold2 : Z -> double -> S2 -> outcome S2)
  (x y brks : list double) (n_bin i : Z) :
  (forall v t1 t2, ISNA v = false -> R t1 t2 -> sim R (fold1 i v t1) (fold2 i v t2)) ->
  forall (rem : nat) (cur : Z) (t1 : S1) (t2 : S2),
    R t1 t2 ->
    sim (fun p1 p2 => fst p1 = fst p2 /\ R (snd p1) (snd p2))
      (scan_while fold1 x y brks n_bin rem i cur t1)
      (scan_while fold2 x y brks n_bin rem i cur t2).
Proof.
  intros Hfold. induction rem as [|r IH]; intros cur t1 t2 HR; [by simpl|].
  cbn [scan_while].
  apply sim_same. intros xv _. apply sim_same. intros lower _.
  destruct (dbl_ge xv lower); [|by apply IH].
  apply sim_same. intros upper _.
  destruct (_ || _); [|by simpl].
  apply sim_same. intros yv _.
  destruct (ISNA yv) eqn:Hna; simpl negb; cbv iota.
  - run_bind. by apply IH.
  - eapply sim_bind; [by apply Hfold|]. intros u1 u2 Hu. by apply IH.
Qed.

Lemma fold_sum_Num (i : Z) (v : double) (t : list double) :
  ISNA v = false -> 0 <= i < Z.of_nat (length t) ->
  exists t' f, fold_sum i v t = Ok t' /\ touches_only i t t'
               /\ t' !! Z.to_nat i = Some (Num f).
Proof.
  intros Hna Hi. unfold fold_sum. destruct (rd_total t i Hi) as [a ->]. run_bind.
  destruct v as [|q]; [discriminate|].
  destruct a as [|p]; simpl ISNA; cbv iota.
  - destruct (wr_touches t i (Num q) Hi) as (t' & Hw & Ht'). exists t', q.
    split; [done|]. split; [done|]. by eapply wr_same.
  - destruct (wr_touches t i (dbl_add (Num p) (Num q)) Hi) as (t' & Hw & Ht').
    exists t', (p + q)%float. split; [done|]. split; [done|]. by eapply wr_same.
Qed.

(** The division loop, cell by cell. *)
Lemma divide_loop_spec (el_count : list Z) (ans : list double) (n : Z) :
  Z.of_nat (length ans) = n -> Z.of_nat (length el_count) = n ->
  exists ans',
    for_range n (divide_bin el_count) ans = Ok ans' /\
    length ans' = length ans /\
    forall (b : nat) (c : Z) (a : double),
      el_count !! b = Some c -> ans !! b = Some a ->
      ans' !! b = Some (if 0 <? c then dbl_div a (double_of_int c) else a).
Proof.
  intros Ha Hc. unfold for_range.
  destruct (for_loop_total (divide_bin el_count)
              (fun k t => length t = length ans /\
                          forall (b : nat) (c : Z) (a : double),
                            el_count !! b = Some c -> ans !! b = Some a ->
                            t !! b = Some (if decide (Z.of_nat b < k)
                                           then (if 0 <? c
                                                 then dbl_div a (double_of_int c)
                                                 else a)
                                           else a))
              (Z.to_nat n) 0 ans) as (t & Hrun & Hlen & Hcells).
  - intros k t Hk [Hlen Hcells]. unfold divide_bin.
    destruct (rd_total el_count k) as [ck Hck]; [lia|]. rewrite Hck. run_bind.
    apply rd_Ok in Hck as [_ Hck].
    destruct (rd_total ans k) as [ak Hak]; [lia|]. apply rd_Ok in Hak as [_ Hak].
    pose proof (Hcells _ _ _ Hck Hak) as Htk.
    destruct (decide (Z.of_nat (Z.to_nat k) < k)); [lia|].
    destruct (Z.ltb_spec 0 ck) as [Hpos|Hpos].
    + rewrite (proj2 (rd_Ok t k ak)) by (split; [lia | done]). run_bind.
      rewrite wr_total by lia. eexists; split; [reflexivity|].
      split; [by rewrite length_insert|]. intros b c a Hcb Hab.
      destruct (decide (b = Z.to_nat k)) as [->|Hne].
      * rewrite list_lookup_insert_eq by lia.
        rewrite Hck in Hcb. rewrite Hak in Hab. inversion Hcb; inversion Hab; subst.
        destruct (decide (Z.of_nat (Z.to_nat k) < k + 1)); [|lia].
        by destruct (Z.ltb_spec 0 c); [|lia].
      * rewrite list_lookup_insert_ne by done. rewrite (Hcells b c a) by done.
        destruct (decide (Z.of_nat b < k)), (decide (Z.of_nat b < k + 1));
          try done; lia.
    + exists t. split; [done|]. split; [done|]. intros b c a Hcb Hab.
      rewrite (Hcells b c a) by done.
      destruct (decide (Z.of_nat b < k)), (decide (Z.of_nat b < k + 1));
        try done; try lia.
      assert (b = Z.to_nat k) as -> by lia.
      rewrite Hck in Hcb. inversion Hcb; subst.
      by destruct (Z.ltb_spec 0 c); [lia|].
  - split; [done|]. intros b c a _ Hab.
    by destruct (decide (Z.of_nat b < 0)); [lia|].
  - exists t. split; [done|]. split; [done|]. intros b c a Hcb Hab.
    rewrite (Hcells b c a) by done.
    destruct (decide (Z.of_nat b < 0 + Z.of_nat (Z.to_nat n))); [done|].
    apply lookup_lt_Some in Hab. lia.
Qed.

(** The scans of the sum and of the mean, started on an all-missing buffer,
    end alike; the mean's buffer is the sum's, and each counter tells
    whether its bin has received a value. *)
Lemma sum_mean_scan (x y brks : list double) (n_bin x_start_idx x_end_idx : Z) :
  0 <= n_bin ->
  sim (sum_mean_states n_bin n_bin)
    (scan no_enter fold_sum x y brks n_bin x_end_idx x_start_idx
       (replicate (Z.to_nat n_bin) NA_REAL))
    (scan enter_mean fold_mean x y brks n_bin x_end_idx x_start_idx
       (replicate (Z.to_nat n_bin) NA_REAL, replicate (Z.to_nat n_bin) 0)).
Proof.
  intros Hn. unfold scan, for_range.
  eapply (sim_bind (fun p1 p2 => fst p1 = fst p2
                                 /\ sum_mean_states n_bin n_bin (snd p1) (snd p2))).
  2:{ intros [c1 a1] [c2 st2] [_ Hst]. exact Hst. }
  pose proof (for_loop_sim
                (fun i p1 p2 => fst p1 = fst p2
                                /\ sum_mean_states n_bin i (snd p1) (snd p2))
                (scan_bin no_enter fold_sum x y brks n_bin x_end_idx)
                (scan_bin enter_mean fold_mean x y brks n_bin x_end_idx)
                (Z.to_nat n_bin) 0
                (x_start_idx, replicate (Z.to_nat n_bin) NA_REAL)
                (x_start_idx, (replicate (Z.to_nat n_bin) NA_REAL,
                               replicate (Z.to_nat n_bin) 0))) as Hloop.
  replace (0 + Z.of_nat (Z.to_nat n_bin)) with n_bin in Hloop by lia.
  apply Hloop; clear Hloop.
  - (* one bin *)
    intros i [cur a] [cur' [a' c]] Hi [Hcur (Hfst & Hla & Hlc & Hcounted & Hfresh)].
    simpl in Hcur, Hfst, Hla, Hlc, Hcounted, Hfresh. subst cur' a'.
    unfold scan_bin, no_enter, enter_mean. run_bind.
    destruct (wr_touches c i 0) as (c' & Hw & Hlen' & Hother); [lia|].
    rewrite Hw. run_bind.
    apply scan_while_sim.
    + (* a fold of bin i *)
      intros v t [t' d] Hna (Hfst & Hlt & Hld & Hcnt & Hfr).
      simpl in Hfst, Hlt, Hld, Hcnt, Hfr. subst t'.
      destruct (fold_sum_Num i v t Hna) as (u & f & Hf & [Hlu Hou] & Hcell); [lia|].
      unfold fold_mean. rewrite Hf. run_bind.
      destruct (Hcnt (Z.to_nat i)) as (ci & Hci & Hstate); [lia | lia |].
      rewrite (proj2 (rd_Ok d i ci)) by (split; [lia | done]). run_bind.
      destruct (wr_touches d i (ci + 1)) as (d' & Hwd & Hld' & Hod); [lia|].
      rewrite Hwd. unfold sum_mean_states. simpl.
      split; [done|]. split; [lia|]. split; [lia|]. split.
      * intros b Hb Hbn. destruct (decide (b = Z.to_nat i)) as [->|Hne].
        -- exists (ci + 1). split; [by eapply wr_same|]. right.
           split; [|by exists f]. destruct Hstate as [[-> _] | [Hpos _]]; lia.
        -- destruct (Hcnt b) as (cb & Hcb & Hsb); [lia | lia |].
           exists cb. rewrite Hod, Hou by done. by split.
      * intros b Hb Hbn. rewrite Hou by lia. apply Hfr; lia.
    + (* after entering bin i *)
      unfold sum_mean_states. simpl.
      split; [done|]. split; [lia|]. split; [lia|]. split.
      * intros b Hb Hbn. destruct (decide (b = Z.to_nat i)) as [->|Hne].
        -- exists 0. split; [by eapply wr_same|]. left. split; [done|].
           apply Hfresh; lia.
        -- destruct (Hcounted b) as (cb & Hcb & Hsb); [lia | lia |].
           exists cb. rewrite Hother by done. by split.
      * intros b Hb Hbn. apply Hfresh; lia.
  - (* before the first bin *)
    unfold sum_mean_states. simpl. split; [done|]. split; [done|].
    rewrite !length_replicate.
    split; [lia|]. split; [lia|]. split; [intros b Hb; lia|].
    intros b _ Hb. apply lookup_replicate_2. lia.
Qed.

(** The mean reducer against the sum reducer on an all-missing buffer. *)
Lemma mean_reducer_of_sum (x y brks : list double) (n_bin x_start_idx x_end_idx : Z) :
  0 <= n_bin ->
  sim means_of_sums
    (_bin_y_on_x_with_breaks_sum x y brks (replicate (Z.to_nat n_bin) NA_REAL)
       n_bin x_start_idx x_end_idx)
    (_bin_y_on_x_with_breaks_mean x y brks (replicate (Z.to_nat n_bin) NA_REAL)
       n_bin x_start_idx x_end_idx).
Proof.
  intros Hn. unfold _bin_y_on_x_with_breaks_sum, _bin_y_on_x_with_breaks_mean.
  cbv zeta. pose proof (sum_mean_scan x y brks n_bin x_start_idx x_end_idx Hn) as Hs.
  destruct (scan no_enter fold_sum _ _ _ _ _ _ _) as [a|e|];
    destruct (scan enter_mean fold_mean _ _ _ _ _ _ _) as [[a' c]|e'|];
    simpl in Hs; try done.
  destruct Hs as (Hfst & Hla & Hlc & Hcounted & _). simpl in *. subst a'. run_bind.
  destruct (divide_loop_spec c a n_bin Hla Hlc) as (m & -> & Hlm & Hcells).
  simpl. split; [done|]. intros b s Hb.
  destruct (Hcounted b) as (cb & Hcb & Hstate);
    [apply lookup_lt_Some in Hb; lia | apply lookup_lt_Some in Hb; lia |].
  rewrite (Hcells b cb s) by done. eexists; split; [reflexivity|].
  destruct Hstate as [[-> Hna] | [Hpos [f Hf]]].
  - rewrite Hna in Hb. inversion Hb; subst. reflexivity.
  - rewrite Hf in Hb. inversion Hb; subst. simpl.
    exists cb. split; [done|]. by destruct (Z.ltb_spec 0 cb); [|lia].
Qed.

(** Without a fill value, method 4 is method 3 divided by the counts: the
    two calls fail alike or both return, with the same midpoints; a bin
    whose sum is missing has a missing mean, and a bin whose sum is a number
    has that number divided by a positive count as its mean. *)
Theorem binYonX_mean_of_sum (x y breaks : list double) (nBins : Z)
  (binSize fromX toX : double) (fromIdx toIdx shiftByHalfBinSize : Z) :
  sim (fun r3 r4 => fst r3 = fst r4 /\ means_of_sums (snd r3) (snd r4))
    (binYonX x y breaks nBins binSize fromX toX fromIdx toIdx shiftByHalfBinSize
       NA_REAL 3)
    (binYonX x y breaks nBins binSize fromX toX fromIdx toIdx shiftByHalfBinSize
       NA_REAL 4).
Proof.
  unfold binYonX. cbv zeta.
  apply sim_same. intros [] _. apply sim_same. intros [n_bin p_brks] _.
  unfold bin_on_breaks. apply sim_same. intros ans Hans.
  apply allocVector_Ok in Hans as [Hn ->]. rewrite init_loop_spec. run_bind.
  change (dispatch 3 x y p_brks (replicate (Z.to_nat n_bin) NA_REAL) n_bin
            fromIdx toIdx)
    with (_bin_y_on_x_with_breaks_sum x y p_brks
            (replicate (Z.to_nat n_bin) NA_REAL) n_bin fromIdx toIdx).
  change (dispatch 4 x y p_brks (replicate (Z.to_nat n_bin) NA_REAL) n_bin
            fromIdx toIdx)
    with (_bin_y_on_x_with_breaks_mean x y p_brks
            (replicate (Z.to_nat n_bin) NA_REAL) n_bin fromIdx toIdx).
  eapply sim_bind; [by apply mean_reducer_of_sum|].
  intros sums means Hm. simpl negb. cbv iota. run_bind.
  rewrite allocVector_total by done. run_bind.
  apply sim_same. intros mids _. simpl. by split.
Qed.


(** * Samples below the first break, and the sample after them *)

Lemma for_loop_app {S} (body : Z -> S -> outcome S) (a c : nat) :
  forall (i0 : Z) (s : S),
    for_loop (a + c) i0 body s =
    for_loop a i0 body s ≫= for_loop c (i0 + Z.of_nat a) body.
Proof.
  induction a as [|a IH]; intros i0 s.
  - simpl. f_equal. lia.
  - simpl. destruct (body i0 s) as [t| |]; try reflexivity. run_bind.
    rewrite IH. do 2 f_equal. lia.
Qed.

Lemma for_loop_fixed {S} (body : Z -> S -> outcome S) (count : nat) (i0 : Z) (s : S) :
  (forall i, i0 <= i < i0 + Z.of_nat count -> body i s = Ok s) ->
  for_loop count i0 body s = Ok s.
Proof.
  revert i0. induction count as [|c IH]; intros i0 Hbody; [done|].
  simpl. rewrite Hbody by lia. run_bind. apply IH. intros i Hi. apply Hbody. lia.
Qed.

(** The scan of a window that holds one sample, which lies in bin [b] and
    has passed the lower border of the bins before: the bins before leave it
    to the next one, bin [b] folds it, the bins after find the window
    exhausted. *)
Lemma scan_single_sample {S} (enter : Z -> S -> outcome S)
  (fold : Z -> double -> S -> outcome S) (x y brks : list double)
  (n_bin k b : Z) (s0 s1 : S) (xv v : double) :
  Z.of_nat (length brks) = n_bin + 1 -> 0 <= b < n_bin ->
  rd x k = Ok xv -> rd y k = Ok v -> ISNA v = false ->
  in_bin brks n_bin b xv = true ->
  (forall i lower, 0 <= i < b -> rd brks i = Ok lower ->
                   dbl_ge xv lower = true /\ in_bin brks n_bin i xv = false) ->
  (forall i, 0 <= i <= b -> enter i s0 = Ok s0) ->
  fold b v s0 = Ok s1 ->
  (forall i, b < i < n_bin -> enter i s1 = Ok s1) ->
  scan enter fold x y brks n_bin k k s0 = Ok s1.
Proof.
  intros Hlen Hb Hx Hy Hna Hin Hbefore Henter Hfold Hafter.
  unfold scan, for_range.
  replace (Z.to_nat n_bin)
    with (Z.to_nat b + Datatypes.S (Z.to_nat (n_bin - b - 1)))%nat by lia.
  rewrite for_loop_app.
  rewrite (for_loop_fixed _ (Z.to_nat b) 0 (k, s0)).
  2:{ intros i Hi. unfold scan_bin. rewrite Henter by lia. run_bind.
      replace (Z.to_nat (k + 1 - k)) with 1%nat by lia.
      destruct (rd_total brks i) as [lower Hlo]; [lia|].
      destruct (rd_total brks (i + 1)) as [upper Hup]; [lia|].
      destruct (Hbefore i lower) as [Hge Hout]; [lia | done |].
      by apply (scan_while_not_in_bin fold x y brks n_bin 0 i k s0 xv lower upper). }
  run_bind. cbn [for_loop]. replace (0 + Z.of_nat (Z.to_nat b)) with b by lia.
  assert (Hbin : scan_bin enter fold x y brks n_bin k b (k, s0) = Ok (k + 1, s1)).
  { unfold scan_bin. rewrite Henter by lia. run_bind.
    replace (Z.to_nat (k + 1 - k)) with 1%nat by lia.
    rewrite (scan_while_in_bin fold x y brks n_bin 0 b k s0 xv v) by done.
    rewrite Hfold. run_bind. reflexivity. }
  rewrite Hbin. run_bind.
  rewrite (for_loop_fixed _ _ (b + 1) (k + 1, s1)); [done|].
  intros i Hi. unfold scan_bin. rewrite Hafter by lia. run_bind.
  by replace (Z.to_nat (k + 1 - (k + 1))) with 0%nat by lia.
Qed.

Lemma fold_max_first (n : nat) (b : Z) (v : double) :
  0 <= b < Z.of_nat n ->
  fold_max b v (replicate n NA_REAL) = Ok (<[Z.to_nat b := v]> (replicate n NA_REAL)).
Proof.
  intros Hb. unfold fold_max.
  rewrite (proj2 (rd_Ok (replicate n NA_REAL) b NA_REAL))
    by (split; [lia | apply lookup_replicate_2; lia]).
  run_bind. simpl. apply wr_total. rewrite length_replicate. lia.
Qed.

Lemma fold_min_first (n : nat) (b : Z) (v : double) :
  0 <= b < Z.of_nat n ->
  fold_min b v (replicate n NA_REAL) = Ok (<[Z.to_nat b := v]> (replicate n NA_REAL)).
Proof.
  intros Hb. unfold fold_min.
  rewrite (proj2 (rd_Ok (replicate n NA_REAL) b NA_REAL))
    by (split; [lia | apply lookup_replicate_2; lia]).
  run_bind. simpl. apply wr_total. rewrite length_replicate. lia.
Qed.

Lemma fold_sum_first (n : nat) (b : Z) (v : double) :
  0 <= b < Z.of_nat n ->
  fold_sum b v (replicate n NA_REAL) = Ok (<[Z.to_nat b := v]> (replicate n NA_REAL)).
Proof.
  intros Hb. unfold fold_sum.
  rewrite (proj2 (rd_Ok (replicate n NA_REAL) b NA_REAL))
    by (split; [lia | apply lookup_replicate_2; lia]).
  run_bind. simpl. apply wr_total. rewrite length_replicate. lia.
Qed.

Lemma enter_mean_zero (i : Z) (a : list double) (c : list Z) :
  0 <= i -> c !! Z.to_nat i = Some 0 -> enter_mean i (a, c) = Ok (a, c).
Proof.
  intros Hi Hc. unfold enter_mean.
  rewrite wr_total by (apply lookup_lt_Some in Hc; lia). run_bind.
  by rewrite list_insert_id.
Qed.

(** What a reducer makes of such a window, on an all-missing buffer: the
    y value in cell [b] (divided by the count 1 under the mean), the other
    cells still missing. *)
Lemma dispatch_single_sample (the_method : Z) (x y brks : list double)
  (n_bin k b : Z) (xv v : double) :
  Z.of_nat (length brks) = n_bin + 1 -> 0 <= b < n_bin ->
  rd x k = Ok xv -> rd y k = Ok v -> ISNA v = false ->
  in_bin brks n_bin b xv = true ->
  (forall i lower, 0 <= i < b -> rd brks i = Ok lower ->
                   dbl_ge xv lower = true /\ in_bin brks n_bin i xv = false) ->
  dispatch the_method x y brks (replicate (Z.to_nat n_bin) NA_REAL) n_bin k k =
  Ok (<[Z.to_nat b := if the_method =? 4
                      then dbl_div v (double_of_int 1) else v]>
        (replicate (Z.to_nat n_bin) NA_REAL)).
Proof.
  intros Hlen Hb Hx Hy Hna Hin Hbefore. unfold dispatch.
  destruct (the_method =? 2) eqn:H2;
    [|destruct (the_method =? 3) eqn:H3; [|destruct (the_method =? 4) eqn:H4]].
  - assert ((the_method =? 4) = false) as -> by lia.
    apply (scan_single_sample no_enter fold_min x y brks n_bin k b _ _ xv v);
      try done; apply fold_min_first; lia.
  - assert ((the_method =? 4) = false) as -> by lia.
    apply (scan_single_sample no_enter fold_sum x y brks n_bin k b _ _ xv v);
      try done; apply fold_sum_first; lia.
  - unfold _bin_y_on_x_with_breaks_mean. cbv zeta.
    rewrite (scan_single_sample enter_mean fold_mean x y brks n_bin k b
               ((replicate (Z.to_nat n_bin) NA_REAL), (replicate (Z.to_nat n_bin) 0)) (<[Z.to_nat b := v]> (replicate (Z.to_nat n_bin) NA_REAL), <[Z.to_nat b := 1]> (replicate (Z.to_nat n_bin) 0)) xv v);
      try done.
    + run_bind.
      destruct (divide_loop_spec (<[Z.to_nat b := 1]> (replicate (Z.to_nat n_bin) 0)) (<[Z.to_nat b := v]> (replicate (Z.to_nat n_bin) NA_REAL))
                  n_bin) as (m & -> & Hlm & Hcells).
      { rewrite length_insert, length_replicate. lia. }
      { rewrite length_insert, length_replicate. lia. }
      f_equal. apply list_eq. intros j.
      rewrite length_insert in Hlm.
      destruct (decide (j = Z.to_nat b)) as [->|Hne].
      * rewrite (Hcells (Z.to_nat b) 1 v);
          [| apply list_lookup_insert_eq; rewrite length_replicate; lia
           | apply list_lookup_insert_eq; rewrite length_replicate; lia].
        rewrite list_lookup_insert_eq by (rewrite length_replicate; lia).
        reflexivity.
      * rewrite list_lookup_insert_ne by done.
        destruct (decide (j < Z.to_nat n_bin)%nat) as [Hj|Hj].
        -- rewrite (Hcells j 0 NA_REAL);
             [| rewrite list_lookup_insert_ne by done; apply lookup_replicate_2; lia
              | rewrite list_lookup_insert_ne by done; apply lookup_replicate_2; lia].
           simpl. symmetry. by apply lookup_replicate_2.
        -- rewrite !lookup_ge_None_2; [done | rewrite length_replicate; lia |].
           rewrite Hlm. rewrite length_replicate. lia.
    + intros i Hi. apply enter_mean_zero; [lia|]. apply lookup_replicate_2. lia.
    + unfold fold_mean. rewrite fold_sum_first by lia. run_bind.
      rewrite (proj2 (rd_Ok (replicate (Z.to_nat n_bin) 0) b 0)) by (split; [lia | apply lookup_replicate_2; lia]).
      run_bind. rewrite wr_total by (rewrite length_replicate; lia).
      reflexivity.
    + intros i Hi. apply enter_mean_zero; [lia|].
      rewrite list_lookup_insert_ne by lia. apply lookup_replicate_2. lia.
  - apply (scan_single_sample no_enter fold_max x y brks n_bin k b _ _ xv v);
      try done; apply fold_max_first; lia.
Qed.

Lemma binYonX_single_sample (x y breaks : list double)
  (nBins : Z) (binSize fromX toX : double) (shiftByHalfBinSize : Z)
  (initValue : double) (method : Z)
  (n_bin : Z) (p_brks : list double) (k b : Z) (xv v : double) :
  define_breaks breaks nBins binSize fromX toX shiftByHalfBinSize
    = Ok (n_bin, p_brks) ->
  rd x k = Ok xv -> rd y k = Ok v -> ISNA v = false ->
  0 <= b < n_bin -> in_bin p_brks n_bin b xv = true ->
  (forall i lower, 0 <= i < b -> rd p_brks i = Ok lower ->
                   dbl_ge xv lower = true /\ in_bin p_brks n_bin i xv = false) ->
  exists mids,
    binYonX x y breaks nBins binSize fromX toX k k shiftByHalfBinSize
      initValue method =
    Ok (mids,
        fill_value initValue <$>
          <[Z.to_nat b := if method =? 4 then dbl_div v (double_of_int 1) else v]>
            (replicate (Z.to_nat n_bin) NA_REAL)).
Proof.
  intros Hd Hx Hy Hna Hb Hin Hbefore.
  pose proof (define_breaks_length _ _ _ _ _ _ _ _ Hd) as Hlen.
  assert (Hc : check_indices x k k = Ok tt).
  { apply check_indices_Ok. apply rd_Ok in Hx as [Hk Hx].
    apply lookup_lt_Some in Hx. lia. }
  unfold binYonX. cbv zeta. rewrite Hc, Hd. run_bind.
  rewrite bin_on_breaks_fill.
  destruct (bin_on_breaks_after_dispatch x y n_bin p_brks k k method
              (<[Z.to_nat b := if method =? 4
                               then dbl_div v (double_of_int 1) else v]>
                 (replicate (Z.to_nat n_bin) NA_REAL))) as (m & ->);
    [done | lia | by apply (dispatch_single_sample method x y p_brks n_bin k b xv v) |].
  run_bind. by exists m.
Qed.

(** C9: samples at the start of the window whose x value is below breaks[0]
    take part in no bin and raise no error: the call gives what it gives
    when the window starts after them, and it returns when y reaches the
    end of the window.  A sample that follows them and lies in a bin is put
    in that bin: when it is the last of the window, its y value is the
    aggregate of its bin (divided by the count 1 under the mean) and the
    other bins hold the fill value.  With the samples 0 and 0.5 in front of
    the dataset x=[1,2,3,4], y=[10,20,30,40], breaks=[1,3,5], the four
    methods give the aggregates of the dataset alone. *)
Theorem binYonX_skips_samples_below_first_break :
  (forall (x y breaks : list double) (nBins : Z) (binSize fromX toX : double)
          (fromIdx toIdx shiftByHalfBinSize : Z) (initValue : double) (method : Z)
          (n_bin : Z) (p_brks : list double) (first_break : double) (k : Z),
      define_breaks breaks nBins binSize fromX toX shiftByHalfBinSize
        = Ok (n_bin, p_brks) ->
      rd p_brks 0 = Ok first_break ->
      0 <= fromIdx <= k -> k <= toIdx ->
      (forall j, fromIdx <= j < k ->
                 exists xv, rd x j = Ok xv /\ dbl_lt xv first_break = true) ->
      let call := binYonX x y breaks nBins binSize fromX toX fromIdx toIdx
                    shiftByHalfBinSize initValue method in
      call = binYonX x y breaks nBins binSize fromX toX k toIdx
               shiftByHalfBinSize initValue method /\
      (toIdx < Z.of_nat (length x) -> toIdx < Z.of_nat (length y) ->
       exists midpoints aggregates, call = Ok (midpoints, aggregates)) /\
      (forall (b : Z) (xv v : double),
          toIdx = k ->
          rd x k = Ok xv -> rd y k = Ok v -> ISNA v = false ->
          0 <= b < n_bin -> in_bin p_brks n_bin b xv = true ->
          (forall i lower, 0 <= i < b -> rd p_brks i = Ok lower ->
                           dbl_ge xv lower = true
                           /\ in_bin p_brks n_bin i xv = false) ->
          exists midpoints aggregates,
            call = Ok (midpoints, aggregates) /\
            aggregates !! Z.to_nat b =
              Some (if method =? 4 then dbl_div v (double_of_int 1) else v) /\
            forall j : nat, j <> Z.to_nat b -> Z.of_nat j < n_bin ->
                            aggregates !! j = Some initValue)) /\
  (let x := nums [0; 0.5; 1; 2; 3; 4]%float in
   let y := nums [7; 8; 10; 20; 30; 40]%float in
   let brks := nums [1; 3; 5]%float in
   let mids := nums [2; 4]%float in
   binYonX x y brks NA_INTEGER NA_REAL NA_REAL NA_REAL 0 5 0 NA_REAL 1 =
     Ok (mids, nums [20; 40]%float) /\
   binYonX x y brks NA_INTEGER NA_REAL NA_REAL NA_REAL 0 5 0 NA_REAL 2 =
     Ok (mids, nums [10; 30]%float) /\
   binYonX x y brks NA_INTEGER NA_REAL NA_REAL NA_REAL 0 5 0 NA_REAL 3 =
     Ok (mids, nums [30; 70]%float) /\
   binYonX x y brks NA_INTEGER NA_REAL NA_REAL NA_REAL 0 5 0 NA_REAL 4 =
     Ok (mids, nums [15; 35]%float)).
Proof.
  split; [|cbv zeta; repeat split; vm_compute; reflexivity].
  intros x y breaks nBins binSize fromX toX fromIdx toIdx shift initValue method
    n_bin p_brks first_break k Hd Hb Hf Hk Hlow call.
  assert (Hskip : call = binYonX x y breaks nBins binSize fromX toX k toIdx
                           shift initValue method).
  { by apply (binYonX_skip_low x y breaks nBins binSize fromX toX fromIdx toIdx
                shift initValue method n_bin p_brks first_break k). }
  split; [exact Hskip|]. split.
  - intros Hx Hy.
    apply (binYonX_returns x y breaks nBins binSize fromX toX fromIdx toIdx
             shift initValue method n_bin p_brks); [|done|done].
    apply check_indices_Ok. lia.
  - intros b xv v -> Hxk Hyk Hna Hbn Hin Hbefore. rewrite Hskip.
    destruct (binYonX_single_sample x y breaks nBins binSize fromX toX shift
                initValue method n_bin p_brks k b xv v) as (m & ->); try done.
    eexists _, _. split; [reflexivity|].
    destruct v as [|f]; [discriminate|]. split.
    + rewrite list_lookup_fmap, list_lookup_insert_eq
        by (rewrite length_replicate; lia).
      by destruct (method =? 4).
    + intros j Hj Hjn.
      rewrite list_lookup_fmap, list_lookup_insert_ne by done.
      by rewrite lookup_replicate_2 by lia.
Qed.

(** The window holds 0 and 0.5, below breaks[0] = 1, and then 4: under max
    the 40 of the last sample is the aggregate of bin 1, bin 0 is missing. *)
Lemma binYonX_skips_samples_below_first_break_witness :
  exists midpoints aggregates,
    binYonX (nums [0; 0.5; 4]%float) (nums [7; 8; 40]%float)
      (nums [1; 3; 5]%float) NA_INTEGER NA_REAL NA_REAL NA_REAL 0 2 0 NA_REAL 1 =
    Ok (midpoints, aggregates) /\
    aggregates !! 1%nat = Some (Num 40) /\
    aggregates !! 0%nat = Some NA_REAL.
Proof.
  destruct (proj1 binYonX_skips_samples_below_first_break
              (nums [0; 0.5; 4]%float) (nums [7; 8; 40]%float)
              (nums [1; 3; 5]%float) NA_INTEGER NA_REAL NA_REAL NA_REAL
              0 2 0 NA_REAL 1 2 (nums [1; 3; 5]%float) (Num 1) 2
              ltac:(vm_compute; reflexivity) ltac:(vm_compute; reflexivity)
              ltac:(lia) ltac:(lia)
              ltac:(intros j Hj;
                    assert (Hcases : j = 0 \/ j = 1) by lia;
                    destruct Hcases as [-> | ->];
                    eexists; split; vm_compute; reflexivity))
    as (_ & _ & Hlater).
  destruct (Hlater 1 (Num 4) (Num 40)) as (m & a & Hcall & Hb & Hothers);
    [reflexivity | vm_compute; reflexivity | vm_compute; reflexivity
     | reflexivity | lia | vm_compute; reflexivity | |].
  - intros i lower Hi Hlo. assert (i = 0) as -> by lia.
    vm_compute in Hlo. inversion Hlo; subst lower.
    split; vm_compute; reflexivity.
  - exists m, a. split; [exact Hcall|]. split; [exact Hb|].
    apply (Hothers 0%nat); lia.
Defined.
